(** * ESP32 sensor-node firmware: store-and-forward telemetry core

    A shallow embedding of [src/main.cpp]: the offline queue on the SD card
    ([saveDataOffline], [processOfflineFiles]), the configuration and
    credential stores ([loadConfig], [saveConfig], [saveNetworkToMemory]),
    the control-channel handler ([MyCallbacks::onWrite]), the scheduler
    ([loop]) with its watchdog, and the boot ([setup]) that follows a
    restart.

    Globals of the firmware are fields of one [State] record.  Everything the
    firmware asks of the outside world (the millisecond clock, the WiFi link,
    the HTTP endpoint, the Modbus sensor, the wall clock, the SD driver) is
    answered by an [Env] of oracles indexed by a query counter, so a run is a
    pure function of the initial state, and the theorems hold for every
    behaviour of the environment.  Everything the firmware does to the
    outside world is appended to an event trace; what it prints on the
    serial console is left out.

    What is taken from the libraries rather than from the source: the text
    stored under an NVS key parses back to the JSON value that was
    serialised, and writing and clearing an NVS namespace succeed;
    [File::name()] gives the path under which [SD.remove] knows the entry;
    removing an entry does not disturb the enumeration of the entries after
    it; a crash of the firmware restarts the device, as the panic handler
    of the platform does by default.  The callbacks of the control channel
    are run between loop iterations, not in the middle of one. *)

From Stdlib Require Import ZArith List Bool Lia QArith.
From Stdlib Require Import Strings.String Strings.Ascii.
From Stdlib Require Import Numbers.DecimalString.
From Stdlib Require Numbers.HexadecimalString.
Import ListNotations.

Local Open Scope string_scope.
Local Open Scope Z_scope.

(** ** Arduino [String] operations used by the firmware *)

Module Str.

(** [String::indexOf(char)]: position of the first occurrence, [-1] if
    there is none. *)
Fixpoint indexOfChar (c : ascii) (s : string) : Z :=
  match s with
  | EmptyString => -1
  | String a r =>
      if Ascii.eqb a c then 0
      else let i := indexOfChar c r in
           if i <? 0 then -1 else 1 + i
  end.

(** [String::indexOf(const String&)]: position of the first occurrence of
    [pat] (found with [strstr]), [-1] if there is none. *)
Fixpoint indexOf (pat s : string) : Z :=
  if String.prefix pat s then 0
  else match s with
       | EmptyString => -1
       | String _ r =>
           let i := indexOf pat r in
           if i <? 0 then -1 else 1 + i
       end.

(** [String::substring(from)]: the tail from index [from]. *)
Fixpoint substringFrom (from : nat) (s : string) : string :=
  match from, s with
  | O, _ => s
  | S n, EmptyString => EmptyString
  | S n, String _ r => substringFrom n r
  end.

(** [String::substring(0, to)]: the first [to] characters. *)
Fixpoint substringTo (to : nat) (s : string) : string :=
  match to, s with
  | O, _ => EmptyString
  | S n, EmptyString => EmptyString
  | S n, String a r => String a (substringTo n r)
  end.

(** [String::endsWith]. *)
Definition endsWith (suffix s : string) : bool :=
  let n := String.length s in
  let m := String.length suffix in
  if (n <? m)%nat then false
  else String.eqb (substringFrom (n - m) s) suffix.

(** [String::replace(find, by)] for a one-character [find]: every
    occurrence is replaced. *)
Fixpoint replaceChar (c : ascii) (by_ : string) (s : string) : string :=
  match s with
  | EmptyString => EmptyString
  | String a r =>
      if Ascii.eqb a c then by_ ++ replaceChar c by_ r
      else String a (replaceChar c by_ r)
  end.

(** [Stream::readStringUntil(terminator)] on a file freshly opened:
    the characters before the first [terminator], or the whole content. *)
Fixpoint readStringUntil (c : ascii) (s : string) : string :=
  match s with
  | EmptyString => EmptyString
  | String a r =>
      if Ascii.eqb a c then EmptyString else String a (readStringUntil c r)
  end.

(** C [isspace] in the "C" locale. *)
Definition isspace (c : ascii) : bool :=
  let n := nat_of_ascii c in
  (Nat.eqb n 32 || (Nat.leb 9 n && Nat.leb n 13))%bool.

Fixpoint dropSpaces (s : string) : string :=
  match s with
  | EmptyString => EmptyString
  | String a r => if isspace a then dropSpaces r else s
  end.

Fixpoint rev (s : string) : string :=
  match s with
  | EmptyString => EmptyString
  | String a r => rev r ++ String a EmptyString
  end.

(** [String::trim]: strips leading and trailing [isspace] characters. *)
Definition trim (s : string) : string :=
  rev (dropSpaces (rev (dropSpaces s))).

(** Empty, or whitespace only. *)
Fixpoint blank (s : string) : bool :=
  match s with
  | EmptyString => true
  | String a r => isspace a && blank r
  end.

(** C [toupper] in the "C" locale, and [String::toUpperCase]. *)
Definition toupper (c : ascii) : ascii :=
  let n := nat_of_ascii c in
  if (Nat.leb 97 n && Nat.leb n 122)%bool then ascii_of_nat (n - 32) else c.

Fixpoint toUpperCase (s : string) : string :=
  match s with
  | EmptyString => EmptyString
  | String a r => String (toupper a) (toUpperCase r)
  end.

End Str.

(** [String(double)] of [float(sensorValue) / 10.0]: two decimals, and the
    value has at most one non-zero decimal, so the text is the quotient,
    a dot, the remainder digit and a zero. *)
Definition decimal (n : Z) : string :=
  NilZero.string_of_uint (N.to_uint (Z.to_N n)).

(** [String(n, HEX)] for an unsigned [n]. *)
Definition hex (n : Z) : string :=
  HexadecimalString.NilZero.string_of_uint (N.to_hex_uint (Z.to_N n)).

Definition formatSensor (sensorValue : Z) : string :=
  decimal (sensorValue / 10) ++ "." ++ decimal (sensorValue mod 10) ++ "0".

(** ** Constants *)

Definition WATCHDOG_TIMEOUT : Z := 3000.
Definition FILE_CHECK_INTERVAL : Z := 900000.
Definition WIFI_RECONNECT_INTERVAL : Z := 60000.
Definition SD_OPERATION_TIMEOUT : Z := 5000.
Definition HTTP_TIMEOUT : Z := 5000.
Definition WIFI_CONNECT_ATTEMPTS : nat := 20.
Definition MAX_WIFI_NETWORKS_SAVED : nat := 5.
Definition MAX_SCAN_RESULTS : nat := 15.
Definition SENSOR_TYPE : Z := 0.

Definition MIN_UPDATE_INTERVAL : Z := 1.
Definition MAX_UPDATE_INTERVAL : Z := 86400.
Definition MIN_SETPOINT : Q := (-9999) # 1.
Definition MAX_SETPOINT : Q := 9999 # 1.

(** [SensorAddress]. *)
Definition SET_POINT_1 : Z := 2.
Definition SET_POINT_2 : Z := 3.

(** [unsigned long] is 32 bits wide on the ESP32: differences of [millis()]
    readings wrap around. *)
Definition u32 (z : Z) : Z := z mod 2 ^ 32.
Definition u16 (z : Z) : Z := z mod 2 ^ 16.

(** ** Data *)

(** The configuration globals ([DEVICE_NICKNAME] ... [setPoint2]).  A
    setpoint is the [float] the firmware holds, read as a rational. *)
Record Config := {
  DEVICE_NICKNAME : string;
  DEVICE_ID : string;
  API_URL : string;
  NTP_SERVER : string;
  UPDATE_INTERVAL : Z;
  UPDATE_MODE : Z;
  setPoint1 : Q;
  setPoint2 : Q
}.

(** A parsed JSON object with the keys the firmware looks at; [None] is
    an absent key ([containsKey] false).  Number fields hold the result of
    [as<int>()] / [as<float>()]; [j_action], [j_ssid] and [j_pass] hold the
    result of the cast to [const char*], which is null ([None]) for a value
    that is no string. *)
Record JsonDoc := {
  j_action : option (option string);
  j_name : option string;
  j_id : option string;
  j_url : option string;
  j_ntp : option string;
  j_int : option Z;
  j_mode : option Z;
  j_sp1 : option Q;
  j_sp2 : option Q;
  j_ssid : option (option string);
  j_pass : option (option string)
}.

(** The ["data"] key of the ["app_conf"] namespace. *)
Inductive Stored :=
| NoKey
| Unparsable
| Doc (d : JsonDoc).

(** An element [{"s": ssid, "p": pass}] of the ["nets"] array. *)
Definition Credential : Type := string * string.

(** A directory entry of the SD card's root: name and content. *)
Definition SdFile : Type := string * string.

Inductive Payload :=
| Text (msg : string)
| SsidList (ssids : list string)
| ConfDump (type : Z) (c : Config).

(** What the firmware does to the outside world. *)
Inductive Event :=
| Notify (p : Payload)
| HttpGet (url : string)
| SdRemove (path : string)
| BleDisconnect
| BleAdvertise
| ModbusRead
| ModbusWrite (reg : Z) (value : option Z)
| WifiDisconnect
| WifiErase
| WifiBegin (ssid pass : string)
| WifiScan
| ConfigTime (server : string)
| Restart
| Crash
| BleInit (name : string).

(** What the outside world answers, per query number. *)
Record Env := {
  millis_at : nat -> Z;
  wifi_at : nat -> bool;
  ssid_at : nat -> string;
  ip_at : nat -> string;
  http_at : nat -> string -> Z * string;
  modbus_at : nat -> option Z;
  localtime_at : nat -> option Z;
  strftime_at : nat -> string;
  sd_open_at : nat -> string -> bool;
  scan_at : nat -> list string;
  sd_begin_at : nat -> bool;
  sd_card_at : nat -> bool;
  efuse_mac : Z
}.

Record State := {
  cfg : Config;
  sdReady : bool;
  deviceConnected : bool;
  notifyReady : bool;
  triggerWifiScan : bool;
  wifiConfigReceived : bool;
  watchdogPaused : bool;
  forceHttpNow : bool;
  lastFileCheckTime : Z;
  lastHttpTime : Z;
  lastWatchdogTime : Z;
  lastWifiCheck : Z;
  lastClockMinute : Z;
  targetSSID : string;
  targetPass : string;
  nvs_conf : Stored;
  nvs_nets : list Credential;
  sd_files : list SdFile;
  env : Env;
  asked : nat;
  trace : list Event
}.

Definition set_cfg (v : Config) (s : State) : State :=
  {| cfg := v; sdReady := sdReady s; deviceConnected := deviceConnected s;
     notifyReady := notifyReady s; triggerWifiScan := triggerWifiScan s;
     wifiConfigReceived := wifiConfigReceived s;
     watchdogPaused := watchdogPaused s; forceHttpNow := forceHttpNow s;
     lastFileCheckTime := lastFileCheckTime s;
     lastHttpTime := lastHttpTime s; lastWatchdogTime := lastWatchdogTime s;
     lastWifiCheck := lastWifiCheck s; lastClockMinute := lastClockMinute s;
     targetSSID := targetSSID s; targetPass := targetPass s;
     nvs_conf := nvs_conf s; nvs_nets := nvs_nets s; sd_files := sd_files s;
     env := env s; asked := asked s; trace := trace s |}.

Definition set_sdReady (v : bool) (s : State) : State :=
  {| cfg := cfg s; sdReady := v; deviceConnected := deviceConnected s;
     notifyReady := notifyReady s; triggerWifiScan := triggerWifiScan s;
     wifiConfigReceived := wifiConfigReceived s;
     watchdogPaused := watchdogPaused s; forceHttpNow := forceHttpNow s;
     lastFileCheckTime := lastFileCheckTime s;
     lastHttpTime := lastHttpTime s; lastWatchdogTime := lastWatchdogTime s;
     lastWifiCheck := lastWifiCheck s; lastClockMinute := lastClockMinute s;
     targetSSID := targetSSID s; targetPass := targetPass s;
     nvs_conf := nvs_conf s; nvs_nets := nvs_nets s; sd_files := sd_files s;
     env := env s; asked := asked s; trace := trace s |}.

Definition set_notifyReady (v : bool) (s : State) : State :=
  {| cfg := cfg s; sdReady := sdReady s; deviceConnected := deviceConnected s;
     notifyReady := v; triggerWifiScan := triggerWifiScan s;
     wifiConfigReceived := wifiConfigReceived s;
     watchdogPaused := watchdogPaused s; forceHttpNow := forceHttpNow s;
     lastFileCheckTime := lastFileCheckTime s;
     lastHttpTime := lastHttpTime s; lastWatchdogTime := lastWatchdogTime s;
     lastWifiCheck := lastWifiCheck s; lastClockMinute := lastClockMinute s;
     targetSSID := targetSSID s; targetPass := targetPass s;
     nvs_conf := nvs_conf s; nvs_nets := nvs_nets s; sd_files := sd_files s;
     env := env s; asked := asked s; trace := trace s |}.

Definition set_deviceConnected (v : bool) (s : State) : State :=
  {| cfg := cfg s; sdReady := sdReady s; deviceConnected := v;
     notifyReady := notifyReady s; triggerWifiScan := triggerWifiScan s;
     wifiConfigReceived := wifiConfigReceived s;
     watchdogPaused := watchdogPaused s; forceHttpNow := forceHttpNow s;
     lastFileCheckTime := lastFileCheckTime s;
     lastHttpTime := lastHttpTime s; lastWatchdogTime := lastWatchdogTime s;
     lastWifiCheck := lastWifiCheck s; lastClockMinute := lastClockMinute s;
     targetSSID := targetSSID s; targetPass := targetPass s;
     nvs_conf := nvs_conf s; nvs_nets := nvs_nets s; sd_files := sd_files s;
     env := env s; asked := asked s; trace := trace s |}.

Definition set_triggerWifiScan (v : bool) (s : State) : State :=
  {| cfg := cfg s; sdReady := sdReady s;
     deviceConnected := deviceConnected s; notifyReady := notifyReady s;
     triggerWifiScan := v; wifiConfigReceived := wifiConfigReceived s;
     watchdogPaused := watchdogPaused s; forceHttpNow := forceHttpNow s;
     lastFileCheckTime := lastFileCheckTime s;
     lastHttpTime := lastHttpTime s; lastWatchdogTime := lastWatchdogTime s;
     lastWifiCheck := lastWifiCheck s; lastClockMinute := lastClockMinute s;
     targetSSID := targetSSID s; targetPass := targetPass s;
     nvs_conf := nvs_conf s; nvs_nets := nvs_nets s; sd_files := sd_files s;
     env := env s; asked := asked s; trace := trace s |}.

Definition set_wifiConfigReceived (v : bool) (s : State) : State :=
  {| cfg := cfg s; sdReady := sdReady s;
     deviceConnected := deviceConnected s; notifyReady := notifyReady s;
     triggerWifiScan := triggerWifiScan s; wifiConfigReceived := v;
     watchdogPaused := watchdogPaused s; forceHttpNow := forceHttpNow s;
     lastFileCheckTime := lastFileCheckTime s;
     lastHttpTime := lastHttpTime s; lastWatchdogTime := lastWatchdogTime s;
     lastWifiCheck := lastWifiCheck s; lastClockMinute := lastClockMinute s;
     targetSSID := targetSSID s; targetPass := targetPass s;
     nvs_conf := nvs_conf s; nvs_nets := nvs_nets s; sd_files := sd_files s;
     env := env s; asked := asked s; trace := trace s |}.

Definition set_watchdogPaused (v : bool) (s : State) : State :=
  {| cfg := cfg s; sdReady := sdReady s;
     deviceConnected := deviceConnected s; notifyReady := notifyReady s;
     triggerWifiScan := triggerWifiScan s;
     wifiConfigReceived := wifiConfigReceived s; watchdogPaused := v;
     forceHttpNow := forceHttpNow s;
     lastFileCheckTime := lastFileCheckTime s;
     lastHttpTime := lastHttpTime s; lastWatchdogTime := lastWatchdogTime s;
     lastWifiCheck := lastWifiCheck s; lastClockMinute := lastClockMinute s;
     targetSSID := targetSSID s; targetPass := targetPass s;
     nvs_conf := nvs_conf s; nvs_nets := nvs_nets s; sd_files := sd_files s;
     env := env s; asked := asked s; trace := trace s |}.

Definition set_forceHttpNow (v : bool) (s : State) : State :=
  {| cfg := cfg s; sdReady := sdReady s;
     deviceConnected := deviceConnected s; notifyReady := notifyReady s;
     triggerWifiScan := triggerWifiScan s;
     wifiConfigReceived := wifiConfigReceived s;
     watchdogPaused := watchdogPaused s; forceHttpNow := v;
     lastFileCheckTime := lastFileCheckTime s;
     lastHttpTime := lastHttpTime s; lastWatchdogTime := lastWatchdogTime s;
     lastWifiCheck := lastWifiCheck s; lastClockMinute := lastClockMinute s;
     targetSSID := targetSSID s; targetPass := targetPass s;
     nvs_conf := nvs_conf s; nvs_nets := nvs_nets s; sd_files := sd_files s;
     env := env s; asked := asked s; trace := trace s |}.

Definition set_lastFileCheckTime (v : Z) (s : State) : State :=
  {| cfg := cfg s; sdReady := sdReady s;
     deviceConnected := deviceConnected s; notifyReady := notifyReady s;
     triggerWifiScan := triggerWifiScan s;
     wifiConfigReceived := wifiConfigReceived s;
     watchdogPaused := watchdogPaused s; forceHttpNow := forceHttpNow s;
     lastFileCheckTime := v; lastHttpTime := lastHttpTime s;
     lastWatchdogTime := lastWatchdogTime s;
     lastWifiCheck := lastWifiCheck s; lastClockMinute := lastClockMinute s;
     targetSSID := targetSSID s; targetPass := targetPass s;
     nvs_conf := nvs_conf s; nvs_nets := nvs_nets s; sd_files := sd_files s;
     env := env s; asked := asked s; trace := trace s |}.

Definition set_lastHttpTime (v : Z) (s : State) : State :=
  {| cfg := cfg s; sdReady := sdReady s;
     deviceConnected := deviceConnected s; notifyReady := notifyReady s;
     triggerWifiScan := triggerWifiScan s;
     wifiConfigReceived := wifiConfigReceived s;
     watchdogPaused := watchdogPaused s; forceHttpNow := forceHttpNow s;
     lastFileCheckTime := lastFileCheckTime s; lastHttpTime := v;
     lastWatchdogTime := lastWatchdogTime s;
     lastWifiCheck := lastWifiCheck s; lastClockMinute := lastClockMinute s;
     targetSSID := targetSSID s; targetPass := targetPass s;
     nvs_conf := nvs_conf s; nvs_nets := nvs_nets s; sd_files := sd_files s;
     env := env s; asked := asked s; trace := trace s |}.

Definition set_lastWatchdogTime (v : Z) (s : State) : State :=
  {| cfg := cfg s; sdReady := sdReady s;
     deviceConnected := deviceConnected s; notifyReady := notifyReady s;
     triggerWifiScan := triggerWifiScan s;
     wifiConfigReceived := wifiConfigReceived s;
     watchdogPaused := watchdogPaused s; forceHttpNow := forceHttpNow s;
     lastFileCheckTime := lastFileCheckTime s;
     lastHttpTime := lastHttpTime s; lastWatchdogTime := v;
     lastWifiCheck := lastWifiCheck s; lastClockMinute := lastClockMinute s;
     targetSSID := targetSSID s; targetPass := targetPass s;
     nvs_conf := nvs_conf s; nvs_nets := nvs_nets s; sd_files := sd_files s;
     env := env s; asked := asked s; trace := trace s |}.

Definition set_lastWifiCheck (v : Z) (s : State) : State :=
  {| cfg := cfg s; sdReady := sdReady s;
     deviceConnected := deviceConnected s; notifyReady := notifyReady s;
     triggerWifiScan := triggerWifiScan s;
     wifiConfigReceived := wifiConfigReceived s;
     watchdogPaused := watchdogPaused s; forceHttpNow := forceHttpNow s;
     lastFileCheckTime := lastFileCheckTime s;
     lastHttpTime := lastHttpTime s; lastWatchdogTime := lastWatchdogTime s;
     lastWifiCheck := v; lastClockMinute := lastClockMinute s;
     targetSSID := targetSSID s; targetPass := targetPass s;
     nvs_conf := nvs_conf s; nvs_nets := nvs_nets s; sd_files := sd_files s;
     env := env s; asked := asked s; trace := trace s |}.

Definition set_lastClockMinute (v : Z) (s : State) : State :=
  {| cfg := cfg s; sdReady := sdReady s;
     deviceConnected := deviceConnected s; notifyReady := notifyReady s;
     triggerWifiScan := triggerWifiScan s;
     wifiConfigReceived := wifiConfigReceived s;
     watchdogPaused := watchdogPaused s; forceHttpNow := forceHttpNow s;
     lastFileCheckTime := lastFileCheckTime s;
     lastHttpTime := lastHttpTime s; lastWatchdogTime := lastWatchdogTime s;
     lastWifiCheck := lastWifiCheck s; lastClockMinute := v;
     targetSSID := targetSSID s; targetPass := targetPass s;
     nvs_conf := nvs_conf s; nvs_nets := nvs_nets s; sd_files := sd_files s;
     env := env s; asked := asked s; trace := trace s |}.

Definition set_targetSSID (v : string) (s : State) : State :=
  {| cfg := cfg s; sdReady := sdReady s;
     deviceConnected := deviceConnected s; notifyReady := notifyReady s;
     triggerWifiScan := triggerWifiScan s;
     wifiConfigReceived := wifiConfigReceived s;
     watchdogPaused := watchdogPaused s; forceHttpNow := forceHttpNow s;
     lastFileCheckTime := lastFileCheckTime s;
     lastHttpTime := lastHttpTime s; lastWatchdogTime := lastWatchdogTime s;
     lastWifiCheck := lastWifiCheck s; lastClockMinute := lastClockMinute s;
     targetSSID := v; targetPass := targetPass s; nvs_conf := nvs_conf s;
     nvs_nets := nvs_nets s; sd_files := sd_files s; env := env s;
     asked := asked s; trace := trace s |}.

Definition set_targetPass (v : string) (s : State) : State :=
  {| cfg := cfg s; sdReady := sdReady s;
     deviceConnected := deviceConnected s; notifyReady := notifyReady s;
     triggerWifiScan := triggerWifiScan s;
     wifiConfigReceived := wifiConfigReceived s;
     watchdogPaused := watchdogPaused s; forceHttpNow := forceHttpNow s;
     lastFileCheckTime := lastFileCheckTime s;
     lastHttpTime := lastHttpTime s; lastWatchdogTime := lastWatchdogTime s;
     lastWifiCheck := lastWifiCheck s; lastClockMinute := lastClockMinute s;
     targetSSID := targetSSID s; targetPass := v; nvs_conf := nvs_conf s;
     nvs_nets := nvs_nets s; sd_files := sd_files s; env := env s;
     asked := asked s; trace := trace s |}.

Definition set_nvs_conf (v : Stored) (s : State) : State :=
  {| cfg := cfg s; sdReady := sdReady s;
     deviceConnected := deviceConnected s; notifyReady := notifyReady s;
     triggerWifiScan := triggerWifiScan s;
     wifiConfigReceived := wifiConfigReceived s;
     watchdogPaused := watchdogPaused s; forceHttpNow := forceHttpNow s;
     lastFileCheckTime := lastFileCheckTime s;
     lastHttpTime := lastHttpTime s; lastWatchdogTime := lastWatchdogTime s;
     lastWifiCheck := lastWifiCheck s; lastClockMinute := lastClockMinute s;
     targetSSID := targetSSID s; targetPass := targetPass s; nvs_conf := v;
     nvs_nets := nvs_nets s; sd_files := sd_files s; env := env s;
     asked := asked s; trace := trace s |}.

Definition set_nvs_nets (v : list Credential) (s : State) : State :=
  {| cfg := cfg s; sdReady := sdReady s;
     deviceConnected := deviceConnected s; notifyReady := notifyReady s;
     triggerWifiScan := triggerWifiScan s;
     wifiConfigReceived := wifiConfigReceived s;
     watchdogPaused := watchdogPaused s; forceHttpNow := forceHttpNow s;
     lastFileCheckTime := lastFileCheckTime s;
     lastHttpTime := lastHttpTime s; lastWatchdogTime := lastWatchdogTime s;
     lastWifiCheck := lastWifiCheck s; lastClockMinute := lastClockMinute s;
     targetSSID := targetSSID s; targetPass := targetPass s;
     nvs_conf := nvs_conf s; nvs_nets := v; sd_files := sd_files s;
     env := env s; asked := asked s; trace := trace s |}.

Definition set_sd_files (v : list SdFile) (s : State) : State :=
  {| cfg := cfg s; sdReady := sdReady s;
     deviceConnected := deviceConnected s; notifyReady := notifyReady s;
     triggerWifiScan := triggerWifiScan s;
     wifiConfigReceived := wifiConfigReceived s;
     watchdogPaused := watchdogPaused s; forceHttpNow := forceHttpNow s;
     lastFileCheckTime := lastFileCheckTime s;
     lastHttpTime := lastHttpTime s; lastWatchdogTime := lastWatchdogTime s;
     lastWifiCheck := lastWifiCheck s; lastClockMinute := lastClockMinute s;
     targetSSID := targetSSID s; targetPass := targetPass s;
     nvs_conf := nvs_conf s; nvs_nets := nvs_nets s; sd_files := v;
     env := env s; asked := asked s; trace := trace s |}.

Definition set_asked (v : nat) (s : State) : State :=
  {| cfg := cfg s; sdReady := sdReady s;
     deviceConnected := deviceConnected s; notifyReady := notifyReady s;
     triggerWifiScan := triggerWifiScan s;
     wifiConfigReceived := wifiConfigReceived s;
     watchdogPaused := watchdogPaused s; forceHttpNow := forceHttpNow s;
     lastFileCheckTime := lastFileCheckTime s;
     lastHttpTime := lastHttpTime s; lastWatchdogTime := lastWatchdogTime s;
     lastWifiCheck := lastWifiCheck s; lastClockMinute := lastClockMinute s;
     targetSSID := targetSSID s; targetPass := targetPass s;
     nvs_conf := nvs_conf s; nvs_nets := nvs_nets s; sd_files := sd_files s;
     env := env s; asked := v; trace := trace s |}.

Definition set_trace (v : list Event) (s : State) : State :=
  {| cfg := cfg s; sdReady := sdReady s;
     deviceConnected := deviceConnected s; notifyReady := notifyReady s;
     triggerWifiScan := triggerWifiScan s;
     wifiConfigReceived := wifiConfigReceived s;
     watchdogPaused := watchdogPaused s; forceHttpNow := forceHttpNow s;
     lastFileCheckTime := lastFileCheckTime s;
     lastHttpTime := lastHttpTime s; lastWatchdogTime := lastWatchdogTime s;
     lastWifiCheck := lastWifiCheck s; lastClockMinute := lastClockMinute s;
     targetSSID := targetSSID s; targetPass := targetPass s;
     nvs_conf := nvs_conf s; nvs_nets := nvs_nets s; sd_files := sd_files s;
     env := env s; asked := asked s; trace := v |}.

Definition with_name (v : string) (c : Config) : Config :=
  {| DEVICE_NICKNAME := v; DEVICE_ID := DEVICE_ID c; API_URL := API_URL c;
     NTP_SERVER := NTP_SERVER c; UPDATE_INTERVAL := UPDATE_INTERVAL c;
     UPDATE_MODE := UPDATE_MODE c; setPoint1 := setPoint1 c;
     setPoint2 := setPoint2 c |}.

Definition with_id (v : string) (c : Config) : Config :=
  {| DEVICE_NICKNAME := DEVICE_NICKNAME c; DEVICE_ID := v; API_URL := API_URL c;
     NTP_SERVER := NTP_SERVER c; UPDATE_INTERVAL := UPDATE_INTERVAL c;
     UPDATE_MODE := UPDATE_MODE c; setPoint1 := setPoint1 c;
     setPoint2 := setPoint2 c |}.

Definition with_url (v : string) (c : Config) : Config :=
  {| DEVICE_NICKNAME := DEVICE_NICKNAME c; DEVICE_ID := DEVICE_ID c;
     API_URL := v; NTP_SERVER := NTP_SERVER c;
     UPDATE_INTERVAL := UPDATE_INTERVAL c; UPDATE_MODE := UPDATE_MODE c;
     setPoint1 := setPoint1 c; setPoint2 := setPoint2 c |}.

Definition with_ntp (v : string) (c : Config) : Config :=
  {| DEVICE_NICKNAME := DEVICE_NICKNAME c; DEVICE_ID := DEVICE_ID c;
     API_URL := API_URL c; NTP_SERVER := v;
     UPDATE_INTERVAL := UPDATE_INTERVAL c; UPDATE_MODE := UPDATE_MODE c;
     setPoint1 := setPoint1 c; setPoint2 := setPoint2 c |}.

Definition with_interval (v : Z) (c : Config) : Config :=
  {| DEVICE_NICKNAME := DEVICE_NICKNAME c; DEVICE_ID := DEVICE_ID c;
     API_URL := API_URL c; NTP_SERVER := NTP_SERVER c; UPDATE_INTERVAL := v;
     UPDATE_MODE := UPDATE_MODE c; setPoint1 := setPoint1 c;
     setPoint2 := setPoint2 c |}.

Definition with_mode (v : Z) (c : Config) : Config :=
  {| DEVICE_NICKNAME := DEVICE_NICKNAME c; DEVICE_ID := DEVICE_ID c;
     API_URL := API_URL c; NTP_SERVER := NTP_SERVER c;
     UPDATE_INTERVAL := UPDATE_INTERVAL c; UPDATE_MODE := v;
     setPoint1 := setPoint1 c; setPoint2 := setPoint2 c |}.

Definition with_sp1 (v : Q) (c : Config) : Config :=
  {| DEVICE_NICKNAME := DEVICE_NICKNAME c; DEVICE_ID := DEVICE_ID c;
     API_URL := API_URL c; NTP_SERVER := NTP_SERVER c;
     UPDATE_INTERVAL := UPDATE_INTERVAL c; UPDATE_MODE := UPDATE_MODE c;
     setPoint1 := v; setPoint2 := setPoint2 c |}.

Definition with_sp2 (v : Q) (c : Config) : Config :=
  {| DEVICE_NICKNAME := DEVICE_NICKNAME c; DEVICE_ID := DEVICE_ID c;
     API_URL := API_URL c; NTP_SERVER := NTP_SERVER c;
     UPDATE_INTERVAL := UPDATE_INTERVAL c; UPDATE_MODE := UPDATE_MODE c;
     setPoint1 := setPoint1 c; setPoint2 := v |}.

(** ** Talking to the outside world *)

(** Every question put to the environment uses up one query number. *)
Definition tick (s : State) : State := set_asked (S (asked s)) s.

Definition emit (e : Event) (s : State) : State := set_trace (e :: trace s) s.

(** [millis()], as an [unsigned long]. *)
Definition millis (s : State) : Z := u32 (millis_at (env s) (asked s)).

(** [WiFi.status() == WL_CONNECTED]. *)
Definition wifiConnected (s : State) : bool := wifi_at (env s) (asked s).

(** ** Helper functions *)

Definition safeNotify (message : Payload) (s : State) : State :=
  if deviceConnected s && notifyReady s then emit (Notify message) s else s.

Definition validateInterval (interval : Z) : bool :=
  (MIN_UPDATE_INTERVAL <=? interval) && (interval <=? MAX_UPDATE_INTERVAL).

Definition validateSetpoint (value : Q) : bool :=
  Qle_bool MIN_SETPOINT value && Qle_bool value MAX_SETPOINT.

(** ** The Durable Queue on the SD card *)

(** [SD.open(path, FILE_WRITE)] followed by prints and [close]: on the ESP32
    [FILE_WRITE] truncates, so an existing entry of that name gets the new
    content in place, and a new name gets a new directory entry. *)
Fixpoint sd_put (path content : string) (files : list SdFile) : list SdFile :=
  match files with
  | [] => [(path, content)]
  | f :: rest =>
      if String.eqb (fst f) path then (path, content) :: rest
      else f :: sd_put path content rest
  end.

(** [SD.remove(path)]. *)
Definition sd_remove (path : string) (files : list SdFile) : list SdFile :=
  filter (fun f => negb (String.eqb (fst f) path)) files.

Definition SD_remove (path : string) (s : State) : State :=
  emit (SdRemove path) (set_sd_files (sd_remove path (sd_files s)) s).

(** The name of the queue entry of a reading: the timestamp without its
    separators. *)
Definition queueFilename (timestamp : string) : string :=
  Str.replaceChar ":" ""
    (Str.replaceChar "-" ""
       (Str.replaceChar " " "" ("/" ++ timestamp))) ++ ".txt".

Definition newline : ascii := ascii_of_nat 10.

Definition queueLine (timestamp sensorData : string) : string :=
  timestamp ++ "," ++ sensorData ++ String newline "".

Definition saveDataOffline (timestamp sensorData : string) (s : State)
  : bool * State :=
  if negb (sdReady s) then (false, s)
  else
    let start := millis s in
    let s := tick s in
    let filename := queueFilename timestamp in
    let opened := sd_open_at (env s) (asked s) filename in
    let s := tick s in
    if negb opened then (false, s)
    else
      let s := set_sd_files
                 (sd_put filename (queueLine timestamp sensorData) (sd_files s))
                 s in
      let now := millis s in
      let s := tick s in
      if u32 (now - start) >? SD_OPERATION_TIMEOUT then (false, s)
      else (true, s).

(** The delivery request of a reading. *)
Definition deliveryUrl (c : Config) (val ts : string) : string :=
  Str.replaceChar " " "%20"
    (API_URL c ++ "?device_code=" ++ DEVICE_ID c ++
     "&field1=" ++ val ++ "&timestamp=" ++ ts).

(** [http.GET()] and [http.getString()]. *)
Definition httpGet (url : string) (s : State) : Z * string :=
  http_at (env s) (asked s) url.

(** The acceptance check of both delivery paths. *)
Definition accepted (code : Z) (resp : string) : bool :=
  (code =? 200) && (0 <=? Str.indexOf "true" resp).

Definition MAX_FILES : Z := 5.

(** The [while (processed < MAX_FILES)] loop of [processOfflineFiles];
    [dir] is what [root.openNextFile()] has still to return, [content] the
    first line of the entry. *)
Fixpoint drainLoop (dir : list SdFile) (start : Z) (processed : Z)
    (s : State) : State :=
  if processed <? MAX_FILES then
    match dir with
    | [] => s
    | file :: dir =>
        let now := millis s in
        let s := tick s in
        if u32 (now - start) >? SD_OPERATION_TIMEOUT then s
        else
          let filename := fst file in
          if negb (Str.endsWith ".txt" filename) then
            drainLoop dir start processed s
          else
            let content := Str.readStringUntil newline (snd file) in
            let comma := Str.indexOfChar "," content in
            if comma <? 0 then
              drainLoop dir start processed (SD_remove filename s)
            else
              let ts := Str.substringTo (Z.to_nat comma) content in
              let val := Str.substringFrom (Z.to_nat (comma + 1)) content in
              let url := deliveryUrl (cfg s) val ts in
              let '(code, resp) := httpGet url s in
              let s := tick (emit (HttpGet url) s) in
              if accepted code resp then
                drainLoop dir start (processed + 1) (SD_remove filename s)
              else s
    end
  else s.

Definition processOfflineFiles (s : State) : State :=
  if negb (sdReady s) then s
  else
    let up := wifiConnected s in
    let s := tick s in
    if negb up then s
    else
      let start := millis s in
      let s := tick s in
      let root := sd_open_at (env s) (asked s) "/" in
      let s := tick s in
      if negb root then s
      else drainLoop (sd_files s) start 0 s.

(** ** Configuration Store *)

Definition onKey {A : Type} (field : option A) (f : A -> Config -> Config)
    (c : Config) : Config :=
  match field with
  | Some v => f v c
  | None => c
  end.

(** The body of [loadConfig] once the record has been parsed. *)
Definition loadFields (doc : JsonDoc) (c : Config) : Config :=
  let c := onKey (j_name doc) with_name c in
  let c := onKey (j_id doc) with_id c in
  let c := onKey (j_url doc) with_url c in
  let c := onKey (j_ntp doc) with_ntp c in
  let c := onKey (j_int doc)
             (fun interval =>
                with_interval (if validateInterval interval then interval
                               else 60)) c in
  let c := onKey (j_mode doc)
             (fun mode =>
                with_mode (if (mode =? 0) || (mode =? 1) then mode else 0)) c in
  let c := onKey (j_sp1 doc)
             (fun sp1 => with_sp1 (if validateSetpoint sp1 then sp1 else 0%Q))
             c in
  let c := onKey (j_sp2 doc)
             (fun sp2 => with_sp2 (if validateSetpoint sp2 then sp2 else 0%Q))
             c in
  c.

Definition loadConfig (s : State) : State :=
  match nvs_conf s with
  | NoKey => s
  | Unparsable => s
  | Doc doc => set_cfg (loadFields doc (cfg s)) s
  end.

(** The record [saveConfig] serialises. *)
Definition configDoc (c : Config) : JsonDoc :=
  {| j_action := None;
     j_name := Some (DEVICE_NICKNAME c); j_id := Some (DEVICE_ID c);
     j_url := Some (API_URL c); j_ntp := Some (NTP_SERVER c);
     j_int := Some (UPDATE_INTERVAL c); j_mode := Some (UPDATE_MODE c);
     j_sp1 := Some (setPoint1 c); j_sp2 := Some (setPoint2 c);
     j_ssid := None; j_pass := None |}.

Definition saveConfig (s : State) : State :=
  set_nvs_conf (Doc (configDoc (cfg s))) s.

(** ** Credential Store *)

(** The [for (JsonObject obj : array)] loop of [saveNetworkToMemory]: the
    first element whose ["s"] is [ssid] gets [pass]; the flag is [found]. *)
Fixpoint overwriteFirst (ssid pass : string) (array : list Credential)
  : bool * list Credential :=
  match array with
  | [] => (false, [])
  | obj :: rest =>
      if String.eqb (fst obj) ssid then (true, (fst obj, pass) :: rest)
      else let '(found, rest') := overwriteFirst ssid pass rest in
           (found, obj :: rest')
  end.

(** [while (array.size() >= MAX_WIFI_NETWORKS_SAVED) array.remove(0);] *)
Fixpoint evictOldest (array : list Credential) : list Credential :=
  match array with
  | [] => []
  | _ :: rest =>
      if (MAX_WIFI_NETWORKS_SAVED <=? List.length array)%nat
      then evictOldest rest
      else array
  end.

(** [saveNetworkToMemory] on the array held under ["nets"]. *)
Definition upsert (ssid pass : string) (array : list Credential)
  : list Credential :=
  if (String.length ssid =? 0)%nat then array
  else
    let '(found, array') := overwriteFirst ssid pass array in
    if found then array'
    else evictOldest array' ++ [(ssid, pass)].

Definition saveNetworkToMemory (ssid pass : string) (s : State) : State :=
  set_nvs_nets (upsert ssid pass (nvs_nets s)) s.

(** [preferences.clear()] on ["wifi_db"], and the radio's own store. *)
Definition clearSavedWifi (s : State) : State :=
  emit WifiErase (set_nvs_nets [] s).

(** ** Connectivity *)

(** [while (WiFi.status() != WL_CONNECTED && attempts < n) { delay(500);
    attempts++; }] with [n - attempts = budget]. *)
Fixpoint awaitLink (budget : nat) (s : State) : State :=
  let up := wifiConnected s in
  let s := tick s in
  if up then s
  else match budget with
       | O => s
       | S budget => awaitLink budget s
       end.

Fixpoint tryNetworks (savedNets : list Credential) (s : State)
  : bool * State :=
  match savedNets with
  | [] => (false, s)
  | obj :: rest =>
      let s := emit WifiDisconnect s in
      let s := emit (WifiBegin (fst obj) (snd obj)) s in
      let s := awaitLink 8 s in
      let up := wifiConnected s in
      let s := tick s in
      if up then (true, s) else tryNetworks rest s
  end.

Definition tryAutoConnect (s : State) : bool * State :=
  match nvs_nets s with
  | [] => (false, s)
  | savedNets => tryNetworks savedNets s
  end.

Definition setupTime (s : State) : State :=
  emit (ConfigTime (NTP_SERVER (cfg s))) s.

(** [uint16_t(sp)] for a [float]: the fractional part is discarded, and the
    behaviour is undefined when what is left is not a [uint16_t]; [None]
    stands for the result of such a conversion. *)
Definition truncate (value : Q) : Z :=
  Z.quot (Qnum value) (Zpos (Qden value)).

Definition toUint16 (value : Q) : option Z :=
  let t := truncate value in
  if (0 <=? t) && (t <? 2 ^ 16) then Some t else None.

Definition writeModbusRegister (reg : Z) (value : option Z) (s : State)
  : State :=
  tick (emit (ModbusWrite reg value) s).

(** ** Delivery Pipeline *)

(** Lines 462-490 of [sendSensorData]: the request, the acceptance check and
    the fallback to the SD card. *)
Definition deliverReading (timeStr sensorData : string) (s : State) : State :=
  let fullUrl := deliveryUrl (cfg s) sensorData timeStr in
  let '(httpResponseCode, response) := httpGet fullUrl s in
  let s := tick (emit (HttpGet fullUrl) s) in
  if accepted httpResponseCode response then s
  else snd (saveDataOffline timeStr sensorData s).

Definition sendSensorData (s : State) : State :=
  let result := modbus_at (env s) (asked s) in
  let s := tick (emit ModbusRead s) in
  let sensorData :=
    match result with
    | Some buffer0 => formatSensor (u16 buffer0)
    | None => ""
    end in
  if (String.length sensorData =? 0)%nat then s
  else
    let s := tick (set_lastWatchdogTime (millis s) s) in
    let timeStr := strftime_at (env s) (asked s) in
    let s := tick s in
    deliverReading timeStr sensorData s.

(** ** Control channel callbacks *)

Definition onConnect (s : State) : State :=
  tick (set_lastWatchdogTime (millis s) (set_deviceConnected true s)).

Definition onDisconnect (s : State) : State :=
  emit BleAdvertise (set_deviceConnected false s).

(** The value written to the characteristic. *)
Inductive Inbound :=
| EmptyValue
| Garbage
| Json (doc : JsonDoc).

Definition isKey {A : Type} (field : option A) : bool :=
  match field with
  | Some _ => true
  | None => false
  end.

(** [String((const char* ) v)]: the empty string for a null pointer. *)
Definition ofCString (v : option string) : string :=
  match v with
  | Some str => str
  | None => ""
  end.

Definition handleAction (act : string) (s : State) : State :=
  if String.eqb act "scan" then set_triggerWifiScan true s
  else if String.eqb act "get_conf" then
    safeNotify (ConfDump SENSOR_TYPE (cfg s)) s
  else if String.eqb act "get_status" then
    let up := wifiConnected s in
    let s := tick s in
    if up then
      let ssid := ssid_at (env s) (asked s) in
      let s := tick s in
      let ip := ip_at (env s) (asked s) in
      let s := tick s in
      safeNotify (Text ("Connected! SSID: " ++ ssid ++ " | IP: " ++ ip)) s
    else safeNotify (Text "Status: Not Connected") s
  else if String.eqb act "forget_wifi" then
    let s := clearSavedWifi s in
    let s := if deviceConnected s
             then safeNotify (Text "Wi-Fi credentials erased.") s
             else s in
    emit WifiDisconnect s
  else s.

Definition isConfigPatch (doc : JsonDoc) : bool :=
  isKey (j_name doc) || isKey (j_id doc) || isKey (j_url doc) ||
  isKey (j_ntp doc) || isKey (j_int doc) || isKey (j_mode doc) ||
  isKey (j_sp1 doc) || isKey (j_sp2 doc).

Definition intervalError : Payload := Text "Error: Invalid interval (1-86400)".

(** The interval field of a patch; the flag is [changed]. *)
Definition patchInterval (doc : JsonDoc) (st : bool * State) : bool * State :=
  let '(changed, s) := st in
  match j_int doc with
  | Some interval =>
      if validateInterval interval
      then (true, set_cfg (with_interval interval (cfg s)) s)
      else (changed, safeNotify intervalError s)
  | None => (changed, s)
  end.

Definition patchString (field : option string)
    (f : string -> Config -> Config) (st : bool * State) : bool * State :=
  let '(changed, s) := st in
  match field with
  | Some v => (true, set_cfg (f v (cfg s)) s)
  | None => (changed, s)
  end.

Definition patchMode (doc : JsonDoc) (st : bool * State) : bool * State :=
  let '(changed, s) := st in
  match j_mode doc with
  | Some mode =>
      if (mode =? 0) || (mode =? 1)
      then (true, set_cfg (with_mode mode (cfg s)) s)
      else (changed, s)
  | None => (changed, s)
  end.

Definition patchSetpoint (field : option Q) (f : Q -> Config -> Config)
    (reg : Z) (error : string) (st : bool * State) : bool * State :=
  let '(changed, s) := st in
  match field with
  | Some sp =>
      if validateSetpoint sp
      then (true, writeModbusRegister reg (toUint16 sp)
                    (set_cfg (f sp (cfg s)) s))
      else (changed, safeNotify (Text error) s)
  | None => (changed, s)
  end.

(** The configuration branch of [onWrite].  [ESP.restart()] does not
    return: the state that [handlePatch] gives for a patch with a name is the
    state in which the firmware goes down, its last event [Restart]; what
    the device does next is [boot]. *)
Definition handlePatch (doc : JsonDoc) (s : State) : State :=
  let nameChanged := isKey (j_name doc) in
  let st := (false, s) in
  let st := patchString (j_name doc) with_name st in
  let st := patchString (j_id doc) with_id st in
  let st := patchString (j_url doc) with_url st in
  let st := patchString (j_ntp doc) with_ntp st in
  let st := patchInterval doc st in
  let st := patchMode doc st in
  let st := patchSetpoint (j_sp1 doc) with_sp1 SET_POINT_1
              "Error: Invalid setpoint 1" st in
  let st := patchSetpoint (j_sp2 doc) with_sp2 SET_POINT_2
              "Error: Invalid setpoint 2" st in
  let '(changed, s) := st in
  if changed then
    let s := saveConfig s in
    let s := set_forceHttpNow true s in
    let s := if deviceConnected s
             then safeNotify (Text (if nameChanged
                                    then "Name Saved. Restarting..."
                                    else "Settings Saved.")) s
             else s in
    if nameChanged then emit Restart s else s
  else s.

(** The credentials branch of [onWrite]. *)
Definition handleCredentials (ssid : option string) (doc : JsonDoc)
    (s : State) : State :=
  let s := set_targetSSID (ofCString ssid) s in
  let s := set_targetPass
             (match j_pass doc with
              | Some pass => ofCString pass
              | None => ""
              end) s in
  let s := set_targetSSID (Str.trim (targetSSID s)) s in
  let s := set_targetPass (Str.trim (targetPass s)) s in
  if (0 <? String.length (targetSSID s))%nat
  then set_wifiConfigReceived true s
  else s.

Definition onWrite (value : Inbound) (s : State) : State :=
  match value with
  | EmptyValue => s
  | Garbage => tick (set_lastWatchdogTime (millis s) s)
  | Json doc =>
      let s := tick (set_lastWatchdogTime (millis s) s) in
      match j_action doc with
      | Some (Some act) => handleAction act s
      | Some None => emit Crash s
      | None =>
          if isConfigPatch doc then handlePatch doc s
          else match j_ssid doc with
               | Some ssid => handleCredentials ssid doc s
               | None => s
               end
      end
  end.

(** ** Main loop *)

(** 1. Watchdog. *)
Definition watchdogStep (s : State) : State :=
  if deviceConnected s && negb (watchdogPaused s) then
    let now := millis s in
    let s := tick s in
    if u32 (now - lastWatchdogTime s) >? WATCHDOG_TIMEOUT
    then emit BleDisconnect s
    else s
  else s.

(** 2. Process offline files. *)
Definition drainStep (s : State) : State :=
  let up := wifiConnected s in
  let s := tick s in
  if up then
    let now := millis s in
    let s := tick s in
    if u32 (now - lastFileCheckTime s) >? FILE_CHECK_INTERVAL then
      let s := tick (set_lastFileCheckTime (millis s) s) in
      let s := set_watchdogPaused true s in
      let s := processOfflineFiles s in
      let s := set_watchdogPaused false s in
      tick (set_lastWatchdogTime (millis s) s)
    else s
  else s.

(** [minInterval] of the clock-aligned mode; [/] and [%] of C truncate
    towards zero. *)
Definition minInterval (c : Config) : Z :=
  let m := Z.quot (UPDATE_INTERVAL c) 60 in
  if m <? 1 then 1 else m.

(** 3. The two update modes: [shouldTrigger] before the force flag is
    looked at. *)
Definition modeTrigger (s : State) : bool * State :=
  if UPDATE_MODE (cfg s) =? 0 then
    let now := millis s in
    let s := tick s in
    if u32 (now - lastHttpTime s) >? u32 (UPDATE_INTERVAL (cfg s) * 1000)
    then (true, tick (set_lastHttpTime (millis s) s))
    else (false, s)
  else if UPDATE_MODE (cfg s) =? 1 then
    let timeinfo := localtime_at (env s) (asked s) in
    let s := tick s in
    match timeinfo with
    | Some tm_min =>
        if (Z.rem tm_min (minInterval (cfg s)) =? 0) &&
           negb (tm_min =? lastClockMinute s)
        then (true, set_lastClockMinute tm_min s)
        else (false, s)
    | None => (false, s)
    end
  else (false, s).

Definition shouldTrigger (s : State) : bool * State :=
  let '(trigger, s) := modeTrigger s in
  if forceHttpNow s then (true, set_forceHttpNow false s) else (trigger, s).

Definition telemetryStep (s : State) : State :=
  let '(trigger, s) := shouldTrigger s in
  if trigger then sendSensorData s else s.

(** 4. WiFi scan request. *)
Definition scanStep (s : State) : State :=
  if triggerWifiScan s then
    let s := set_triggerWifiScan false s in
    let s := set_watchdogPaused true s in
    let s := safeNotify (Text "Scanning...") s in
    let s := emit WifiDisconnect s in
    let found := scan_at (env s) (asked s) in
    let s := tick (emit WifiScan s) in
    let array :=
      filter (fun ssid => (0 <? String.length ssid)%nat)
             (firstn MAX_SCAN_RESULTS found) in
    let s := safeNotify (SsidList array) s in
    let s := set_watchdogPaused false s in
    tick (set_lastWatchdogTime (millis s) s)
  else s.

(** 5. WiFi connection request: what is done once the wait is over, [up]
    telling whether the link came up. *)
Definition provisionResult (up : bool) (s : State) : State :=
  if up then
    let ssid := ssid_at (env s) (asked s) in
    let s := tick s in
    let ip := ip_at (env s) (asked s) in
    let s := tick s in
    let s := safeNotify
               (Text ("Connected! SSID: " ++ ssid ++ " | IP: " ++ ip)) s in
    let s := saveNetworkToMemory (targetSSID s) (targetPass s) s in
    let s := setupTime s in
    set_forceHttpNow true s
  else safeNotify (Text "Connection Failed.") s.

Definition provisionStep (s : State) : State :=
  if wifiConfigReceived s then
    let s := set_wifiConfigReceived false s in
    let s := set_watchdogPaused true s in
    let s := safeNotify (Text "Connecting...") s in
    let s := emit WifiDisconnect s in
    let s := emit (WifiBegin (targetSSID s) (targetPass s)) s in
    let s := awaitLink WIFI_CONNECT_ATTEMPTS s in
    let up := wifiConnected s in
    let s := tick s in
    let s := provisionResult up s in
    let s := set_watchdogPaused false s in
    tick (set_lastWatchdogTime (millis s) s)
  else s.

(** 6. Auto-reconnect. *)
Definition reconnectStep (s : State) : State :=
  let up := wifiConnected s in
  let s := tick s in
  if negb up && negb (deviceConnected s) then
    let now := millis s in
    let s := tick s in
    if u32 (now - lastWifiCheck s) >? WIFI_RECONNECT_INTERVAL then
      let s := tick (set_lastWifiCheck (millis s) s) in
      snd (tryAutoConnect s)
    else s
  else s.

Definition loop (s : State) : State :=
  let s := watchdogStep s in
  let s := drainStep s in
  let s := telemetryStep s in
  let s := scanStep s in
  let s := provisionStep s in
  reconnectStep s.

(** ** Runs: loop iterations interleaved with control-channel events *)

Inductive Step :=
| Loop
| Connect
| Disconnect
| Write (value : Inbound).

Definition step (e : Step) (s : State) : State :=
  match e with
  | Loop => loop s
  | Connect => onConnect s
  | Disconnect => onDisconnect s
  | Write value => onWrite value s
  end.

(** The steps as the firmware takes them while it is up.  Where a step
    restarts or crashes, [deviceRun] below goes on with the [boot]. *)
Definition run (steps : list Step) (s : State) : State :=
  fold_left (fun s e => step e s) steps s.

(** [n] iterations of the loop with no control-channel event in between. *)
Fixpoint loops (n : nat) (s : State) : State :=
  match n with
  | O => s
  | S n => loop (loops n s)
  end.

(** ** The state the firmware boots with *)

Definition bootConfig : Config :=
  {| DEVICE_NICKNAME := ""; DEVICE_ID := "ESP_001";
     API_URL := "https://cloudbases.in/iot_demo24/Api";
     NTP_SERVER := "1.in.pool.ntp.org";
     UPDATE_INTERVAL := 60; UPDATE_MODE := 0;
     setPoint1 := 0%Q; setPoint2 := 0%Q |}.

(** The globals as initialised, on a device whose SD card is [sd] and whose
    notify characteristic has been created. *)
Definition bootState (e : Env) (sd : list SdFile) : State :=
  {| cfg := bootConfig; sdReady := true; deviceConnected := false;
     notifyReady := true; triggerWifiScan := false;
     wifiConfigReceived := false; watchdogPaused := false;
     forceHttpNow := false; lastFileCheckTime := 0; lastHttpTime := 0;
     lastWatchdogTime := 0; lastWifiCheck := 0; lastClockMinute := -1;
     targetSSID := ""; targetPass := ""; nvs_conf := NoKey; nvs_nets := [];
     sd_files := sd; env := e; asked := 0; trace := [] |}.

(** ** Restart *)

(** What a restart leaves: the globals are back at their initialisers (no
    card, no notify characteristic yet); the two NVS namespaces, the card
    and the outside world go on. *)
Definition reset (s : State) : State :=
  {| cfg := bootConfig; sdReady := false; deviceConnected := false;
     notifyReady := false; triggerWifiScan := false;
     wifiConfigReceived := false; watchdogPaused := false;
     forceHttpNow := false; lastFileCheckTime := 0; lastHttpTime := 0;
     lastWatchdogTime := 0; lastWifiCheck := 0; lastClockMinute := -1;
     targetSSID := ""; targetPass := ""; nvs_conf := nvs_conf s;
     nvs_nets := nvs_nets s; sd_files := sd_files s; env := env s;
     asked := asked s; trace := trace s |}.

(** [sdReady] is set when [SD.begin] succeeds and a card is there. *)
Definition setupSD (s : State) : State :=
  let began := sd_begin_at (env s) (asked s) in
  let s := tick s in
  if negb began then set_sdReady false s
  else
    let card := sd_card_at (env s) (asked s) in
    let s := tick s in
    set_sdReady card s.

(** ["ESP_Setup_" + String(lowBytes, HEX)], in upper case. *)
Definition defaultName (mac : Z) : string :=
  Str.toUpperCase ("ESP_Setup_" ++ hex (u32 mac)).

(** [setup]: the card, the configuration (loaded twice), the control
    channel under the nickname, or under the default name when there is no
    nickname, the watchdog timestamp, and a first attempt at the saved
    networks.  The ["nets"] key that [setup] creates when it is missing
    holds the empty array, which is what [nvs_nets] is then.  The serial
    port of the Modbus, set up between the two loads, has no event or
    global of its own. *)
Definition setup (s : State) : State :=
  let s := setupSD s in
  let s := loadConfig s in
  let s := loadConfig s in
  let broadcastName :=
    if (0 <? String.length (DEVICE_NICKNAME (cfg s)))%nat
    then DEVICE_NICKNAME (cfg s)
    else defaultName (efuse_mac (env s)) in
  let s := emit (BleInit broadcastName) s in
  let s := set_notifyReady true s in
  let s := emit BleAdvertise s in
  let s := tick (set_lastWatchdogTime (millis s) s) in
  let s := emit WifiDisconnect s in
  let '(up, s) := tryAutoConnect s in
  if up then setupTime s else s.

Definition boot (s : State) : State := setup (reset s).

(** The firmware has gone down: the last thing it did is [ESP.restart()],
    or it crashed. *)
Definition wentDown (s : State) : bool :=
  match trace s with
  | Restart :: _ | Crash :: _ => true
  | _ => false
  end.

(** A step of a device that comes back: when the step ends with the
    firmware down, the device boots (after a crash too: the panic handler
    of the platform restarts it). *)
Definition deviceStep (e : Step) (s : State) : State :=
  let s := step e s in
  if wentDown s then boot s else s.

Definition deviceRun (steps : list Step) (s : State) : State :=
  fold_left (fun s e => deviceStep e s) steps s.

(** ** Credential Store histories *)

(** The ["nets"] array after a sequence of [saveNetworkToMemory] calls on
    the empty array [setup] stores. *)
Definition upserts (calls : list Credential) : list Credential :=
  fold_left (fun array c => upsert (fst c) (snd c) array) calls [].

Definition ssids (array : list Credential) : list string := map fst array.

(** The steps before the interval's. *)
Definition patchHead (doc : JsonDoc) (s : State) : bool * State :=
  patchString (j_ntp doc) with_ntp
    (patchString (j_url doc) with_url
       (patchString (j_id doc) with_id
          (patchString (j_name doc) with_name (false, s)))).

(** The steps after the interval's, up to the [if (changed)]. *)
Definition patchTail (doc : JsonDoc) (st : bool * State) : bool * State :=
  patchSetpoint (j_sp2 doc) with_sp2 SET_POINT_2 "Error: Invalid setpoint 2"
    (patchSetpoint (j_sp1 doc) with_sp1 SET_POINT_1 "Error: Invalid setpoint 1"
       (patchMode doc st)).

(** The body of [if (changed)]. *)
Definition patchCommit (nameChanged : bool) (s : State) : State :=
  let s := set_forceHttpNow true (saveConfig s) in
  let s := if deviceConnected s
           then safeNotify (Text (if nameChanged
                                  then "Name Saved. Restarting..."
                                  else "Settings Saved.")) s
           else s in
  if nameChanged then emit Restart s else s.

(** ** Names for the points the properties speak of *)

(** What [saveDataOffline], entered in state [s], will be answered by
    [SD.open], and the time it will measure when the file is closed. *)
Definition sdOpens (path : string) (s : State) : bool :=
  sd_open_at (env s) (S (asked s)) path.

Definition writeElapsed (s : State) : Z :=
  u32 (u32 (millis_at (env s) (S (S (asked s)))) - millis s).

(** The outcome names of the specification, read off the paths of
    [deliverReading]. *)
Inductive DeliveryOutcome :=
| Delivered
| QueuedOffline
| Lost.

Definition deliveryOutcome (timeStr sensorData : string) (s : State)
  : DeliveryOutcome :=
  let fullUrl := deliveryUrl (cfg s) sensorData timeStr in
  let '(httpResponseCode, response) := httpGet fullUrl s in
  let s := tick (emit (HttpGet fullUrl) s) in
  if accepted httpResponseCode response then Delivered
  else if fst (saveDataOffline timeStr sensorData s) then QueuedOffline
       else Lost.

(** The drainer's view of a directory entry in state [s]: whether the
    time budget is spent when the entry is opened, the line it reads, and
    the request it makes for it. *)
Definition timedOut (start : Z) (s : State) : bool :=
  u32 (millis s - start) >? SD_OPERATION_TIMEOUT.

Definition entryLine (file : SdFile) : string :=
  Str.readStringUntil newline (snd file).

Definition entryUrl (c : Config) (file : SdFile) : string :=
  let content := entryLine file in
  let comma := Str.indexOfChar "," content in
  deliveryUrl c (Str.substringFrom (Z.to_nat (comma + 1)) content)
              (Str.substringTo (Z.to_nat comma) content).

(** The state in which the drainer asks the server about an entry, and the
    state it is in once it has the answer. *)
Definition entryAnswer (file : SdFile) (s : State) : Z * string :=
  httpGet (entryUrl (cfg s) file) (tick s).

Definition afterRequest (file : SdFile) (s : State) : State :=
  tick (emit (HttpGet (entryUrl (cfg s) file)) (tick s)).

(** ** Sample environments and messages *)

Definition quietEnv : Env :=
  {| millis_at := fun _ => 0; wifi_at := fun _ => false;
     ssid_at := fun _ => ""; ip_at := fun _ => "";
     http_at := fun _ _ => (-1, ""); modbus_at := fun _ => None;
     localtime_at := fun _ => None;
     strftime_at := fun _ => "2024-05-01 10:00:00";
     sd_open_at := fun _ _ => true; scan_at := fun _ => [];
     sd_begin_at := fun _ => true; sd_card_at := fun _ => true;
     efuse_mac := 48879 |}.

Definition emptyDoc : JsonDoc :=
  {| j_action := None; j_name := None; j_id := None; j_url := None;
     j_ntp := None; j_int := None; j_mode := None; j_sp1 := None;
     j_sp2 := None; j_ssid := None; j_pass := None |}.

Definition intervalPatch (v : Z) : JsonDoc :=
  {| j_action := None; j_name := None; j_id := None; j_url := None;
     j_ntp := None; j_int := Some v; j_mode := None; j_sp1 := None;
     j_sp2 := None; j_ssid := None; j_pass := None |}.

(** A booted device with a client connected. *)
Definition pairedState (e : Env) (sd : list SdFile) : State :=
  set_deviceConnected true (bootState e sd).

(** A card that takes six seconds to write an entry, and a server that
    answers 500. *)
Definition slowCardEnv : Env :=
  {| millis_at := fun q => if (q <? 3)%nat then 0 else 6000;
     wifi_at := fun _ => true;
     ssid_at := fun _ => ""; ip_at := fun _ => "";
     http_at := fun _ _ => (500, ""); modbus_at := fun _ => None;
     localtime_at := fun _ => None;
     strftime_at := fun _ => "2024-05-01 10:00:00";
     sd_open_at := fun _ _ => true; scan_at := fun _ => [];
     sd_begin_at := fun _ => true; sd_card_at := fun _ => true;
     efuse_mac := 48879 |}.

(** The reading of C3 as stated: a reading whose outcome is [Lost] has been
    dropped, the queue being as it was before the attempt. *)
Definition lostIsDropped (timeStr sensorData : string) (s : State) : Prop :=
  deliveryOutcome timeStr sensorData s = Lost ->
  sd_files (deliverReading timeStr sensorData s) = sd_files s.

(** A server that accepts every reading, and one that refuses every
    reading; the link is up and the clock stands still. *)
Definition acceptingEnv : Env :=
  {| millis_at := fun _ => 0; wifi_at := fun _ => true;
     ssid_at := fun _ => ""; ip_at := fun _ => "";
     http_at := fun _ _ => (200, "{status:true}");
     modbus_at := fun _ => None; localtime_at := fun _ => None;
     strftime_at := fun _ => "2024-05-01 10:00:00";
     sd_open_at := fun _ _ => true; scan_at := fun _ => [];
     sd_begin_at := fun _ => true; sd_card_at := fun _ => true;
     efuse_mac := 48879 |}.

Definition refusingEnv : Env :=
  {| millis_at := fun _ => 0; wifi_at := fun _ => true;
     ssid_at := fun _ => ""; ip_at := fun _ => "";
     http_at := fun _ _ => (500, "Internal Server Error");
     modbus_at := fun _ => None; localtime_at := fun _ => None;
     strftime_at := fun _ => "2024-05-01 10:00:00";
     sd_open_at := fun _ _ => true; scan_at := fun _ => [];
     sd_begin_at := fun _ => true; sd_card_at := fun _ => true;
     efuse_mac := 48879 |}.

(** Two well-formed queue entries and a malformed one. *)
Definition entryA : SdFile :=
  (queueFilename "2024-05-01 10:00:00", queueLine "2024-05-01 10:00:00" "23.40").

Definition entryBad : SdFile := ("/20240501100100.txt", "no separator here").

Definition entryC : SdFile :=
  (queueFilename "2024-05-01 10:02:00", queueLine "2024-05-01 10:02:00" "23.60").

(** Six entries without a separator. *)
Definition sixMalformed : list SdFile :=
  [("/1.txt", "a"); ("/2.txt", "b"); ("/3.txt", "c"); ("/4.txt", "d");
   ("/5.txt", "e"); ("/6.txt", "f")].

(** Counting what an invocation did. *)
Definition isHttpGet (e : Event) : bool :=
  match e with
  | HttpGet _ => true
  | _ => false
  end.

Definition attempts (s : State) : nat :=
  List.length (filter isHttpGet (trace s)).

Definition removedCount (before after : State) : nat :=
  List.length (sd_files before) - List.length (sd_files after).

(** The reading of C6 as stated: an invocation handles, and so removes, at
    most five entries. *)
Definition batchOfFive (s : State) : Prop :=
  (removedCount s (processOfflineFiles s) <= 5)%nat.

(** The paths removed by a stretch of trace, latest first as the trace. *)
Fixpoint removedPaths (evs : list Event) : list string :=
  match evs with
  | [] => []
  | SdRemove path :: evs => path :: removedPaths evs
  | _ :: evs => removedPaths evs
  end.

(** [a] is [l] with some elements left out. *)
Inductive Subseq {A : Type} : list A -> list A -> Prop :=
| Subseq_nil (l : list A) : Subseq [] l
| Subseq_take (x : A) (a l : list A) : Subseq a l -> Subseq (x :: a) (x :: l)
| Subseq_skip (x : A) (a l : list A) : Subseq a l -> Subseq a (x :: l).

(** ** Steps that only do input and output *)

Definition isModbusRead (e : Event) : bool :=
  match e with
  | ModbusRead => true
  | _ => false
  end.

(** The number of sensor reads so far: one per call of [sendSensorData]. *)
Definition fires (s : State) : nat :=
  List.length (filter isModbusRead (trace s)).

Definition touch (q : nat) (t : list Event) (files : list SdFile)
    (s : State) : State :=
  set_sd_files files (set_trace t (set_asked q s)).

(** [s'] is [s] after some questions to the environment, some events other
    than sensor reads, and some changes to the card: no global variable and
    no persisted record has changed. *)
Inductive OnlyIO (s : State) : State -> Prop :=
| OnlyIO_intro (q : nat) (evs : list Event) (files : list SdFile) :
    filter isModbusRead evs = [] ->
    OnlyIO s (touch q (evs ++ trace s) files s).

(** What the telemetry scheduler depends on, and the count of its fires. *)
Definition sched (s : State)
  : Config * Env * Z * bool * bool * nat :=
  (cfg s, env s, lastClockMinute s, forceHttpNow s, wifiConfigReceived s,
   fires s).

(** What the watchdog and the pending requests depend on. *)
Definition session (s : State)
  : bool * bool * Z * bool * bool * list Credential * Env :=
  (deviceConnected s, watchdogPaused s, lastWatchdogTime s,
   triggerWifiScan s, wifiConfigReceived s, nvs_nets s, env s).

(** Whether the clock-aligned rule lets minute [m] fire in state [s]. *)
Definition aligned (m : Z) (s : State) : bool :=
  (Z.rem m (minInterval (cfg s)) =? 0) && negb (m =? lastClockMinute s).

(** Clock-aligned mode, every five minutes; the sensor answers 23.4 and
    the wall clock shows minute [m] whenever it is read. *)
Definition minuteEnv (m : Z) : Env :=
  {| millis_at := fun _ => 0; wifi_at := fun _ => false;
     ssid_at := fun _ => ""; ip_at := fun _ => "";
     http_at := fun _ _ => (200, "true"); modbus_at := fun _ => Some 234;
     localtime_at := fun _ => Some m;
     strftime_at := fun _ => "2024-05-01 10:00:00";
     sd_open_at := fun _ _ => true; scan_at := fun _ => [];
     sd_begin_at := fun _ => true; sd_card_at := fun _ => true;
     efuse_mac := 48879 |}.

Definition clockState (m : Z) : State :=
  set_cfg (with_mode 1 (with_interval 300 bootConfig))
          (pairedState (minuteEnv m) []).

(** The reading of C4 as stated: in clock-aligned mode the scheduler fires
    only in a minute the rule lets through. *)
Definition firesOnlyAligned (s : State) : Prop :=
  forall m,
    UPDATE_MODE (cfg s) = 1 -> localtime_at (env s) (asked s) = Some m ->
    fst (shouldTrigger s) = true ->
    Z.rem m (Z.max 1 (Z.quot (UPDATE_INTERVAL (cfg s)) 60)) = 0 /\
    m <> lastClockMinute s.

(** A client that pings once and then stays silent, a sensor that keeps
    answering, telemetry every second, and a clock that reads 0 for the
    ping, 2000 during the first loop iteration and 4000 afterwards. *)
Definition pingDoc : JsonDoc :=
  {| j_action := Some (Some "ping"); j_name := None; j_id := None; j_url := None;
     j_ntp := None; j_int := None; j_mode := None; j_sp1 := None;
     j_sp2 := None; j_ssid := None; j_pass := None |}.

Definition silentEnv : Env :=
  {| millis_at := fun q => if (q <? 1)%nat then 0
                           else if (q <? 10)%nat then 2000 else 4000;
     wifi_at := fun _ => false;
     ssid_at := fun _ => ""; ip_at := fun _ => "";
     http_at := fun _ _ => (200, "true"); modbus_at := fun _ => Some 234;
     localtime_at := fun _ => None;
     strftime_at := fun _ => "2024-05-01 10:00:00";
     sd_open_at := fun _ _ => true; scan_at := fun _ => [];
     sd_begin_at := fun _ => true; sd_card_at := fun _ => true;
     efuse_mac := 48879 |}.

Definition silentState : State :=
  set_cfg (with_interval 1 bootConfig) (pairedState silentEnv []).

(** The reading of C5 as stated: a connected, unpaused session whose last
    inbound message was seen at [lastMessage] is disconnected by the next
    loop iteration once the clock is more than 3000 ms past that. *)
Definition silenceDisconnects (lastMessage : Z) (s : State) : Prop :=
  deviceConnected s = true -> watchdogPaused s = false ->
  WATCHDOG_TIMEOUT < u32 (millis s - lastMessage) ->
  In BleDisconnect (trace (loop s)).

(** The state in which a loop iteration started in [s] decides whether to
    fire, whether it fires with the sensor answering, and the clock reading
    [sendSensorData] then takes for the watchdog. *)
Definition decision (s : State) : bool * State :=
  shouldTrigger (drainStep (watchdogStep s)).

Definition feeds (s : State) : Prop :=
  fst (decision s) = true /\
  modbus_at (env s) (asked (snd (decision s))) <> None.

Definition readAt (s : State) : Z := millis (tick (snd (decision s))).

(** A provisioning message whose ssid is three spaces. *)
Definition blankSsidDoc : JsonDoc :=
  {| j_action := None; j_name := None; j_id := None; j_url := None;
     j_ntp := None; j_int := None; j_mode := None; j_sp1 := None;
     j_sp2 := None; j_ssid := Some (Some "   ");
     j_pass := Some (Some "secret") |}.

(** What a provisioning attempt would store, and under which ssid. *)
Definition stored (s : State) : list Credential * string :=
  (nvs_nets s, targetSSID s).

(** What the steps of a patch other than the interval's leave alone: the
    interval, the session, the persisted record; and they only add events. *)
Record Kept (s s' : State) : Prop := {
  kept_interval : UPDATE_INTERVAL (cfg s') = UPDATE_INTERVAL (cfg s);
  kept_session : deviceConnected s' = deviceConnected s /\
                 notifyReady s' = notifyReady s;
  kept_conf : nvs_conf s' = nvs_conf s;
  kept_watchdog : lastWatchdogTime s' = lastWatchdogTime s;
  kept_trace : exists evs, trace s' = (evs ++ trace s)%list
}.

(** ** Names for the further properties *)

(** A configuration every field of which passes the firmware's checks. *)
Definition validConfig (c : Config) : Prop :=
  validateInterval (UPDATE_INTERVAL c) = true /\
  (UPDATE_MODE c = 0 \/ UPDATE_MODE c = 1) /\
  validateSetpoint (setPoint1 c) = true /\
  validateSetpoint (setPoint2 c) = true.

(** The persisted configuration record is the one [saveConfig] would write
    now. *)
Definition synced (s : State) : Prop :=
  nvs_conf s = Doc (configDoc (cfg s)).

(** The configuration in memory, the one persisted, and the force flag. *)
Definition conf (s : State) : Config * Stored * bool :=
  (cfg s, nvs_conf s, forceHttpNow s).

(** A patch that carries a mode and nothing else. *)
Definition modePatch (v : Z) : JsonDoc :=
  {| j_action := None; j_name := None; j_id := None; j_url := None;
     j_ntp := None; j_int := None; j_mode := Some v; j_sp1 := None;
     j_sp2 := None; j_ssid := None; j_pass := None |}.

(** What a loop iteration never writes: the configuration and its
    persisted record, the card and session flags, the provisioning target. *)
Definition loopFixed (s : State)
  : Config * Stored * bool * bool * bool * string * string * Env :=
  (cfg s, nvs_conf s, sdReady s, deviceConnected s, notifyReady s,
   targetSSID s, targetPass s, env s).

(** What an inbound message never writes: the card, the session and paused
    flags, the timers of the loop. *)
Definition writeFixed (s : State)
  : bool * list SdFile * bool * bool * bool * Z * Z * Z * Z * Env :=
  (sdReady s, sd_files s, deviceConnected s, notifyReady s, watchdogPaused s,
   lastFileCheckTime s, lastHttpTime s, lastClockMinute s, lastWifiCheck s,
   env s).

(** [s'] has the trace of [s] with some events added, all of which satisfy
    [P]. *)
Definition Adds (P : Event -> bool) (s s' : State) : Prop :=
  exists evs, trace s' = (evs ++ trace s)%list /\ forallb P evs = true.

(** Kinds of events. *)
Definition isNotify (e : Event) : bool :=
  match e with
  | Notify _ => true
  | _ => false
  end.

Definition isWifiOp (e : Event) : bool :=
  match e with
  | WifiDisconnect | WifiErase | WifiBegin _ _ | WifiScan | ConfigTime _ =>
      true
  | _ => false
  end.

(** What no loop iteration does: restart or crash the device, initialise
    the control channel, write a Modbus register, erase the WiFi
    credentials, restart advertising. *)
Definition loopEvent (e : Event) : bool :=
  match e with
  | Restart | Crash | ModbusWrite _ _ | WifiErase | BleAdvertise
  | BleInit _ => false
  | _ => true
  end.

(** The view of the pending requests and of the session. *)
Definition pending (s : State) : bool * bool * bool :=
  (deviceConnected s, triggerWifiScan s, wifiConfigReceived s).

Definition notRestart (e : Event) : bool :=
  match e with
  | Restart => false
  | _ => true
  end.

(** Every event but a write to Modbus register [reg]. *)
Definition notWriteTo (reg : Z) (e : Event) : bool :=
  match e with
  | ModbusWrite r _ => negb (r =? reg)
  | _ => true
  end.

(** A patch that carries the first setpoint and nothing else, and one that
    carries a name and nothing else. *)
Definition setpointPatch (v : Q) : JsonDoc :=
  {| j_action := None; j_name := None; j_id := None; j_url := None;
     j_ntp := None; j_int := None; j_mode := None; j_sp1 := Some v;
     j_sp2 := None; j_ssid := None; j_pass := None |}.

Definition namePatch (name : string) : JsonDoc :=
  {| j_action := None; j_name := Some name; j_id := None; j_url := None;
     j_ntp := None; j_int := None; j_mode := None; j_sp1 := None;
     j_sp2 := None; j_ssid := None; j_pass := None |}.

(** [s'] has the trace of [s] with some events added, [e] among them. *)
Definition Emits (e : Event) (s s' : State) : Prop :=
  exists evs, trace s' = (evs ++ trace s)%list /\ In e evs.

Definition anyEvent (e : Event) : bool := true.

(** The networks that the events [evs] (latest first) try to join, in the
    order of the attempts. *)
Definition begins (evs : list Event) : list Credential :=
  flat_map (fun e => match e with
                     | WifiBegin ssid pass => [(ssid, pass)]
                     | _ => []
                     end) (rev evs).

(** A message that carries an action and, beside it, an interval and an
    ssid. *)
Definition actionDoc (act : string) : JsonDoc :=
  {| j_action := Some (Some act); j_name := None; j_id := None; j_url := None;
     j_ntp := None; j_int := Some 30; j_mode := None; j_sp1 := None;
     j_sp2 := None; j_ssid := Some (Some "plant"); j_pass := None |}.

Definition credentialsDoc (ssid pass : string) : JsonDoc :=
  {| j_action := None; j_name := None; j_id := None; j_url := None;
     j_ntp := None; j_int := None; j_mode := None; j_sp1 := None;
     j_sp2 := None; j_ssid := Some (Some ssid); j_pass := Some (Some pass) |}.

(** The pending connection request. *)
Definition target (s : State) : string * string * bool :=
  (targetSSID s, targetPass s, wifiConfigReceived s).

(** Neither a restart, nor a crash, nor a Modbus write. *)
Definition notActuation (e : Event) : bool :=
  match e with
  | Restart | Crash | ModbusWrite _ _ => false
  | _ => true
  end.

Definition notBegin (e : Event) : bool :=
  match e with
  | WifiBegin _ _ => false
  | _ => true
  end.

(** [s'] has the trace of [s] with some events added, whose join attempts
    are [nets], in this order. *)
Definition Joins (nets : list Credential) (s s' : State) : Prop :=
  exists evs, trace s' = (evs ++ trace s)%list /\ begins evs = nets.

(** Whether the link is up when the wait of a connection request that
    starts in [s] is over. *)
Definition linkAfterWait (s : State) : bool :=
  wifiConnected (awaitLink WIFI_CONNECT_ATTEMPTS s).

(** A booted device with a request to join the network [plant]. *)
Definition requestState : State :=
  set_wifiConfigReceived true
    (set_targetPass "secret" (set_targetSSID "plant" (bootState quietEnv []))).

(** Clock-aligned mode, every hour, after a fire at minute 0; the wall
    clock shows minute [m] whenever it is read. *)
Definition hourlyState (m : Z) : State :=
  set_lastClockMinute 0
    (set_cfg (with_mode 1 (with_interval 3600 bootConfig))
       (pairedState (minuteEnv m) [])).

(** The wall clock of [s] gives minutes of the hour. *)
Definition clockInRange (s : State) : Prop :=
  forall q m, localtime_at (env s) q = Some m -> 0 <= m < 60.

(** The files on the card that are not queue entries: those whose name
    does not end in [.txt]. *)
Definition notQueued (f : SdFile) : bool :=
  negb (Str.endsWith ".txt" (fst f)).

Definition foreign (s : State) : list SdFile := filter notQueued (sd_files s).

(** Neither a restart nor a crash. *)
Definition staysUp (e : Event) : bool :=
  match e with
  | Restart | Crash => false
  | _ => true
  end.

(** The messages that bring the firmware down: a patch that carries a name
    ([ESP.restart()]) and a message whose action is not a string ([strcmp]
    on a null pointer). *)
Definition goesDown (value : Inbound) : bool :=
  match value with
  | Json doc =>
      match j_action doc with
      | Some None => true
      | Some (Some _) => false
      | None => isKey (j_name doc)
      end
  | _ => false
  end.

(** A message whose action is a number, and which carries an interval and
    an ssid beside it. *)
Definition brokenActionDoc : JsonDoc :=
  {| j_action := Some None; j_name := None; j_id := None; j_url := None;
     j_ntp := None; j_int := Some 30; j_mode := None; j_sp1 := None;
     j_sp2 := None; j_ssid := Some (Some "plant"); j_pass := None |}.

(** The reading of C9 as stated: once a message with a blank ssid has been
    handled, the loop begins no connection and pushes no response. *)
Definition blankSsidInert (doc : JsonDoc) (s : State) : Prop :=
  let s' := onWrite (Json doc) s in
  Adds (fun e => notBegin e && negb (isNotify e)) s' (loop s').

(** A session with a request to join the network [plant] pending. *)
Definition pendingState : State :=
  set_wifiConfigReceived true
    (set_targetPass "pw" (set_targetSSID "plant" (pairedState quietEnv []))).

(** ** Names for the watchdog and the clock *)

(** The clock does not run backwards; [millis_at] is the time in
    milliseconds before [millis] cuts it to 32 bits. *)
Definition clockMonotone (s : State) : Prop :=
  forall q q' : nat,
    (q <= q')%nat -> millis_at (env s) q <= millis_at (env s) q'.

(** [s'] comes after [s] in the same environment, and its watchdog
    timestamp is the one of [s] or a reading of the clock taken in
    between. *)
Definition Stamped (s s' : State) : Prop :=
  env s' = env s /\ (asked s <= asked s')%nat /\
  (lastWatchdogTime s' = lastWatchdogTime s \/
   exists q, (asked s <= q <= asked s')%nat /\
             lastWatchdogTime s' = u32 (millis_at (env s) q)).

(** The watchdog timestamp of [s] is a reading of the clock taken at query
    [q] or later. *)
Definition Fresh (q : nat) (s : State) : Prop :=
  exists q', (q <= q' <= asked s)%nat /\
             lastWatchdogTime s = u32 (millis_at (env s) q').

(** The query that reads the clock after the sensor read of an iteration
    that starts in [s]. *)
Definition readQuery (s : State) : nat := S (asked (snd (decision s))).

(** At the watchdog check of iteration [k], at most 3000 ms have passed
    since the clock reading (at query [q0]) of the timestamp the run starts
    with, or since the sensor read of an earlier iteration. *)
Definition fedInTime (s : State) (q0 k : nat) : Prop :=
  let now := millis_at (env s) (asked (loops k s)) in
  now - millis_at (env s) q0 <= WATCHDOG_TIMEOUT \/
  exists j, (j < k)%nat /\ feeds (loops j s) /\
            now - millis_at (env s) (readQuery (loops j s))
            <= WATCHDOG_TIMEOUT.

Definition notBleDisconnect (e : Event) : bool :=
  match e with
  | BleDisconnect => false
  | _ => true
  end.

(** A session on a device whose clock advances by 100 ms from one query to
    the next, with telemetry every second, a sensor that answers and a
    server that accepts. *)
Definition tickingEnv : Env :=
  {| millis_at := fun q => 100 * Z.of_nat q; wifi_at := fun _ => true;
     ssid_at := fun _ => ""; ip_at := fun _ => "";
     http_at := fun _ _ => (200, "true"); modbus_at := fun _ => Some 234;
     localtime_at := fun _ => None;
     strftime_at := fun _ => "2024-05-01 10:00:00";
     sd_open_at := fun _ _ => true; scan_at := fun _ => [];
     sd_begin_at := fun _ => true; sd_card_at := fun _ => true;
     efuse_mac := 48879 |}.

Definition tickingState : State :=
  set_cfg (with_interval 1 bootConfig) (pairedState tickingEnv []).

(** * Properties *)

(** ** Strings *)

Module StrFacts.
Import Str.

Lemma prefix_app (p b : string) : String.prefix p (p ++ b) = true.
Proof.
  induction p as [|a p IH]; simpl.
  - now destruct b.
  - destruct (ascii_dec a a) as [_|ne]; [exact IH|now elim ne].
Qed.

Lemma prefix_split (p s : string) :
  String.prefix p s = true -> exists b, s = p ++ b.
Proof.
  revert s; induction p as [|a p IH]; intros s H.
  - now exists s.
  - destruct s as [|c s]; simpl in H; [discriminate|].
    destruct (ascii_dec a c) as [->|]; [|discriminate].
    destruct (IH _ H) as [b ->]. now exists b.
Qed.

Lemma indexOf_lower (pat s : string) : -1 <= indexOf pat s.
Proof.
  induction s as [|c s IH]; cbn [indexOf].
  - destruct (String.prefix pat ""); lia.
  - destruct (String.prefix pat (String c s)); [lia|].
    destruct (indexOf pat s <? 0) eqn:E; [lia|].
    apply Z.ltb_ge in E. lia.
Qed.

(** [indexOf] finds the pattern exactly when the text contains it. *)
Lemma indexOf_found (pat s : string) :
  0 <= indexOf pat s <-> exists a b, s = a ++ pat ++ b.
Proof.
  split.
  - induction s as [|c s IH]; cbn [indexOf].
    + destruct (String.prefix pat "") eqn:P; [|lia].
      intros _. destruct (prefix_split _ _ P) as [b ->]. now exists "", b.
    + destruct (String.prefix pat (String c s)) eqn:P.
      * intros _. destruct (prefix_split _ _ P) as [b E]. exists "", b.
        exact E.
      * destruct (indexOf pat s <? 0) eqn:E; [lia|].
        apply Z.ltb_ge in E. intros _.
        destruct (IH E) as (a & b & ->). now exists (String c a), b.
  - intros (a & b & ->). induction a as [|c a IH].
    + change ("" ++ pat ++ b) with (pat ++ b).
      pose proof (prefix_app pat b) as P.
      destruct (pat ++ b) eqn:E; cbn [indexOf]; rewrite P; lia.
    + change (String c a ++ pat ++ b) with (String c (a ++ pat ++ b)).
      cbn [indexOf].
      destruct (String.prefix pat (String c (a ++ pat ++ b))); [lia|].
      destruct (indexOf pat (a ++ pat ++ b) <? 0) eqn:E; [|lia].
      apply Z.ltb_lt in E. lia.
Qed.

Ltac unroll :=
  cbn [indexOfChar indexOf append readStringUntil substringTo substringFrom
       String.length].

Lemma indexOfChar_lower (c : ascii) (s : string) : -1 <= indexOfChar c s.
Proof.
  induction s as [|a s IH]; unroll; [lia|].
  destruct (Ascii.eqb a c); [lia|].
  destruct (indexOfChar c s <? 0) eqn:E; [lia|].
  apply Z.ltb_ge in E. lia.
Qed.

(** A line that starts with a comma-free text and a comma has its first
    comma right after that text. *)
Lemma indexOfChar_app (c : ascii) (a b : string) :
  indexOfChar c a < 0 ->
  indexOfChar c (a ++ String c b) = Z.of_nat (String.length a).
Proof.
  induction a as [|x a IH]; unroll; intros H.
  - now rewrite Ascii.eqb_refl.
  - destruct (Ascii.eqb x c); [lia|].
    destruct (indexOfChar c a <? 0) eqn:E; [|lia].
    apply Z.ltb_lt in E. rewrite (IH E).
    destruct (Z.of_nat (String.length a) <? 0) eqn:F; [|lia].
    apply Z.ltb_lt in F. lia.
Qed.

Lemma indexOfChar_absent_app (c : ascii) (a b : string) :
  indexOfChar c (a ++ b) < 0 -> indexOfChar c a < 0 /\ indexOfChar c b < 0.
Proof.
  induction a as [|x a IH]; unroll; intros H.
  - lia.
  - destruct (Ascii.eqb x c); [lia|].
    destruct (indexOfChar c (a ++ b) <? 0) eqn:E.
    + apply Z.ltb_lt in E. destruct (IH E) as [Ha Hb].
      apply Z.ltb_lt in Ha. rewrite Ha. lia.
    + pose proof (indexOfChar_lower c (a ++ b)). apply Z.ltb_ge in E. lia.
Qed.

Lemma readStringUntil_app (c : ascii) (a b : string) :
  indexOfChar c a < 0 -> readStringUntil c (a ++ String c b) = a.
Proof.
  induction a as [|x a IH]; unroll; intros H.
  - now rewrite Ascii.eqb_refl.
  - destruct (Ascii.eqb x c); [lia|].
    destruct (indexOfChar c a <? 0) eqn:E; [|lia].
    apply Z.ltb_lt in E. now rewrite (IH E).
Qed.

(** Reading a line never brings in a character the content lacks. *)
Lemma readStringUntil_absent (c d : ascii) (s : string) :
  indexOfChar d s < 0 -> indexOfChar d (readStringUntil c s) < 0.
Proof.
  induction s as [|x s IH]; unroll; intros H; [lia|].
  destruct (Ascii.eqb x d) eqn:X; [lia|].
  destruct (indexOfChar d s <? 0) eqn:E; [|lia].
  apply Z.ltb_lt in E. specialize (IH E).
  destruct (Ascii.eqb x c); unroll; [lia|].
  rewrite X. apply Z.ltb_lt in IH. rewrite IH. lia.
Qed.

Lemma substringTo_app (a b : string) :
  substringTo (String.length a) (a ++ b) = a.
Proof.
  induction a as [|x a IH]; simpl.
  - now destruct b.
  - now rewrite IH.
Qed.

Lemma substringFrom_app (a b : string) :
  substringFrom (String.length a) (a ++ b) = b.
Proof. induction a as [|x a IH]; simpl; [now destruct b|exact IH]. Qed.

Lemma length_app (a b : string) :
  String.length (a ++ b) = (String.length a + String.length b)%nat.
Proof. induction a as [|x a IH]; simpl; [reflexivity|now rewrite IH]. Qed.

Lemma endsWith_app (a suffix : string) : endsWith suffix (a ++ suffix) = true.
Proof.
  unfold endsWith. rewrite length_app.
  destruct (Nat.ltb_spec (String.length a + String.length suffix)
                         (String.length suffix)) as [H|_]; [lia|].
  replace (String.length a + String.length suffix - String.length suffix)%nat
    with (String.length a) by lia.
  rewrite substringFrom_app. apply String.eqb_refl.
Qed.

Lemma append_assoc (a b c : string) : (a ++ b) ++ c = a ++ b ++ c.
Proof. induction a as [|x a IH]; cbn [append]; [reflexivity|now rewrite IH]. Qed.

Lemma indexOfChar_absent_join (c : ascii) (a b : string) :
  indexOfChar c a < 0 -> indexOfChar c b < 0 -> indexOfChar c (a ++ b) < 0.
Proof.
  induction a as [|x a IH]; unroll; intros Ha Hb; [exact Hb|].
  destruct (Ascii.eqb x c); [lia|].
  destruct (indexOfChar c a <? 0) eqn:E; [|lia].
  apply Z.ltb_lt in E. specialize (IH E Hb).
  apply Z.ltb_lt in IH. rewrite IH. lia.
Qed.

(** The line of a queue entry reads back as its timestamp and value. *)
Lemma queue_line_parts (nl sep : ascii) (ts val : string) :
  indexOfChar nl ts < 0 -> indexOfChar nl val < 0 -> nl <> sep ->
  indexOfChar sep ts < 0 ->
  let line := readStringUntil nl (ts ++ String sep (val ++ String nl "")) in
  let comma := indexOfChar sep line in
  0 <= comma /\
  substringTo (Z.to_nat comma) line = ts /\
  substringFrom (Z.to_nat (comma + 1)) line = val.
Proof.
  intros nts nval ne sts. cbv zeta.
  assert (L : readStringUntil nl (ts ++ String sep (val ++ String nl ""))
              = ts ++ String sep val).
  { assert (E : ts ++ String sep (val ++ String nl "")
                = (ts ++ String sep val) ++ String nl "")
      by (now rewrite append_assoc).
    rewrite E. apply readStringUntil_app.
    apply indexOfChar_absent_join; [exact nts|].
    cbn [indexOfChar].
    destruct (Ascii.eqb_spec sep nl) as [e|_]; [now elim ne|].
    apply Z.ltb_lt in nval. rewrite nval. lia. }
  rewrite L, (indexOfChar_app sep ts val sts).
  split; [lia|]. split.
  - rewrite Nat2Z.id. apply substringTo_app.
  - replace (Z.to_nat (Z.of_nat (String.length ts) + 1))
      with (String.length (ts ++ String sep "")).
    + assert (E : ts ++ String sep val = (ts ++ String sep "") ++ val)
        by (now rewrite append_assoc).
      rewrite E. apply substringFrom_app.
    + rewrite length_app. cbn [String.length]. lia.
Qed.

End StrFacts.

(** ** Credential Store *)

Section CredentialStore.

Variables ssid pass : string.

Lemma overwriteFirst_absent (array : list Credential) :
  ~ In ssid (ssids array) -> overwriteFirst ssid pass array = (false, array).
Proof.
  induction array as [|obj rest IH]; cbn [overwriteFirst ssids map]; intros H.
  - reflexivity.
  - destruct (String.eqb_spec (fst obj) ssid) as [E|_].
    + elim H. now left.
    + rewrite IH; [reflexivity|]. intros I. apply H. now right.
Qed.

Lemma overwriteFirst_present (array : list Credential) :
  In ssid (ssids array) ->
  exists pre old post,
    array = (pre ++ (ssid, old) :: post)%list /\
    ~ In ssid (ssids pre) /\
    overwriteFirst ssid pass array = (true, (pre ++ (ssid, pass) :: post)%list).
Proof.
  induction array as [|[s0 p0] rest IH]; cbn [overwriteFirst ssids map fst];
    intros H.
  - destruct H.
  - destruct (String.eqb_spec s0 ssid) as [->|ne].
    + exists [], p0, rest. repeat split. intros [].
    + destruct H as [H|H]; [contradiction|].
      destruct (IH H) as (pre & old & post & -> & fresh & ->).
      exists ((s0, p0) :: pre), old, post. repeat split.
      intros [I|I]; [contradiction|now apply fresh].
Qed.

Lemma evictOldest_below (array : list Credential) :
  (List.length array < MAX_WIFI_NETWORKS_SAVED)%nat ->
  evictOldest array = array.
Proof.
  destruct array as [|obj rest]; cbn [evictOldest]; intros H; [reflexivity|].
  destruct (Nat.leb_spec MAX_WIFI_NETWORKS_SAVED (List.length (obj :: rest)));
    [lia|reflexivity].
Qed.

Lemma evictOldest_full (array : list Credential) :
  List.length array = MAX_WIFI_NETWORKS_SAVED ->
  evictOldest array = tl array.
Proof.
  destruct array as [|obj rest]; cbn [evictOldest tl]; intros H;
    [discriminate|].
  destruct (Nat.leb_spec MAX_WIFI_NETWORKS_SAVED (List.length (obj :: rest)));
    [|lia].
  apply evictOldest_below. cbn [List.length] in H. lia.
Qed.

Lemma upsert_empty (array : list Credential) :
  ssid = "" -> upsert ssid pass array = array.
Proof. intros ->. reflexivity. Qed.

Lemma nonempty_length : ssid <> "" -> (String.length ssid =? 0)%nat = false.
Proof. destruct ssid; [congruence|reflexivity]. Qed.

Lemma upsert_present (array : list Credential) :
  ssid <> "" -> In ssid (ssids array) ->
  exists pre old post,
    array = (pre ++ (ssid, old) :: post)%list /\
    ~ In ssid (ssids pre) /\
    upsert ssid pass array = (pre ++ (ssid, pass) :: post)%list.
Proof.
  intros ne H. destruct (overwriteFirst_present array H)
    as (pre & old & post & E & fresh & O).
  exists pre, old, post. repeat split; trivial.
  unfold upsert. now rewrite (nonempty_length ne), O.
Qed.

Lemma upsert_append (array : list Credential) :
  ssid <> "" -> ~ In ssid (ssids array) ->
  (List.length array < MAX_WIFI_NETWORKS_SAVED)%nat ->
  upsert ssid pass array = (array ++ [(ssid, pass)])%list.
Proof.
  intros ne H L. unfold upsert.
  now rewrite (nonempty_length ne), (overwriteFirst_absent array H),
    evictOldest_below.
Qed.

Lemma upsert_evict (array : list Credential) :
  ssid <> "" -> ~ In ssid (ssids array) ->
  List.length array = MAX_WIFI_NETWORKS_SAVED ->
  upsert ssid pass array = (tl array ++ [(ssid, pass)])%list.
Proof.
  intros ne H L. unfold upsert.
  now rewrite (nonempty_length ne), (overwriteFirst_absent array H),
    evictOldest_full.
Qed.

Lemma ssids_app (a b : list Credential) : ssids (a ++ b) = (ssids a ++ ssids b)%list.
Proof. apply map_app. Qed.

Lemma NoDup_snoc (l : list string) :
  NoDup l -> ~ In ssid l -> NoDup (l ++ [ssid])%list.
Proof.
  induction 1 as [|x l nx nd IH]; cbn [app]; intros H.
  - constructor; [intros []|constructor].
  - constructor.
    + rewrite in_app_iff. intros [I|[->|[]]]; [contradiction|].
      apply H. now left.
    + apply IH. intros I. apply H. now right.
Qed.

(** One call keeps the array within capacity and its ssids distinct. *)
Lemma upsert_invariant (array : list Credential) :
  (List.length array <= MAX_WIFI_NETWORKS_SAVED)%nat ->
  NoDup (ssids array) ->
  (List.length (upsert ssid pass array) <= MAX_WIFI_NETWORKS_SAVED)%nat /\
  NoDup (ssids (upsert ssid pass array)).
Proof.
  intros L nd.
  destruct (string_dec ssid "") as [e|ne].
  { now rewrite (upsert_empty array e). }
  destruct (in_dec string_dec ssid (ssids array)) as [H|H].
  - destruct (upsert_present array ne H) as (pre & old & post & E & _ & ->).
    subst array. rewrite ssids_app in *. rewrite length_app in *.
    cbn [ssids map fst List.length] in *. now split.
  - destruct (Nat.eq_dec (List.length array) MAX_WIFI_NETWORKS_SAVED)
      as [full|room].
    + rewrite (upsert_evict array ne H full).
      destruct array as [|obj rest]; [discriminate|].
      cbn [tl]. rewrite length_app, ssids_app. cbn [List.length] in *.
      split; [lia|].
      cbn [ssids map] in nd, H. inversion nd; subst.
      apply NoDup_snoc; trivial. intros I. apply H. now right.
    + rewrite (upsert_append array ne H) by lia.
      rewrite length_app, ssids_app. cbn [List.length].
      split; [lia|]. now apply NoDup_snoc.
Qed.

End CredentialStore.

Lemma upserts_snoc (calls : list Credential) (c : Credential) :
  upserts (calls ++ [c])%list = upsert (fst c) (snd c) (upserts calls).
Proof. unfold upserts. now rewrite fold_left_app. Qed.

Lemma upserts_invariant (calls : list Credential) :
  (List.length (upserts calls) <= MAX_WIFI_NETWORKS_SAVED)%nat /\
  NoDup (ssids (upserts calls)).
Proof.
  induction calls as [|c calls IH] using rev_ind.
  - split; [cbn; lia|constructor].
  - rewrite upserts_snoc. now apply upsert_invariant.
Qed.

(** C2. Whatever [saveNetworkToMemory] calls have been made, the stored
    array holds at most 5 entries with distinct ssids; a further call with
    an empty ssid changes nothing; with an ssid already stored it replaces
    that entry's password where the entry stands, every other entry and
    the order staying as they were; with a new ssid it appends the entry,
    after dropping the entry at index 0 when the array already holds 5. *)
Theorem C2_credential_store (calls : list Credential) :
  let array := upserts calls in
  (List.length array <= 5)%nat /\
  NoDup (ssids array) /\
  forall ssid pass : string,
    (ssid = "" -> upsert ssid pass array = array) /\
    (ssid <> "" -> In ssid (ssids array) ->
     exists pre old post,
       array = (pre ++ (ssid, old) :: post)%list /\
       upsert ssid pass array = (pre ++ (ssid, pass) :: post)%list /\
       List.length (upsert ssid pass array) = List.length array) /\
    (ssid <> "" -> ~ In ssid (ssids array) -> List.length array = 5%nat ->
     upsert ssid pass array = (tl array ++ [(ssid, pass)])%list) /\
    (ssid <> "" -> ~ In ssid (ssids array) -> (List.length array < 5)%nat ->
     upsert ssid pass array = (array ++ [(ssid, pass)])%list).
Proof.
  intros array. destruct (upserts_invariant calls) as [L nd].
  split; [exact L|]. split; [exact nd|]. intros ssid pass.
  split; [apply upsert_empty|]. split; [|split].
  - intros ne H.
    destruct (upsert_present ssid pass array ne H)
      as (pre & old & post & E & _ & U).
    exists pre, old, post. split; [exact E|]. split; [exact U|].
    rewrite U.
    transitivity (List.length (pre ++ (ssid, old) :: post)%list);
      [now rewrite !length_app|now rewrite <- E].
  - apply upsert_evict.
  - apply upsert_append.
Qed.

(** Five networks stored, a sixth arrives: the first one goes. *)
Lemma C2_credential_store_witness :
  upsert "f" "6" (upserts [("a", "1"); ("b", "2"); ("c", "3"); ("d", "4");
                           ("e", "5")])
  = [("b", "2"); ("c", "3"); ("d", "4"); ("e", "5"); ("f", "6")].
Proof.
  refine (proj1 (proj2 (proj2 (proj2
    (proj2 (C2_credential_store
              [("a", "1"); ("b", "2"); ("c", "3"); ("d", "4"); ("e", "5")]))
    "f" "6"))) _ _ _).
  - discriminate.
  - cbn. intuition discriminate.
  - reflexivity.
Defined.

(** ** Configuration Store *)

Lemma validateInterval_spec (interval : Z) :
  validateInterval interval = true <-> 1 <= interval <= 86400.
Proof.
  unfold validateInterval, MIN_UPDATE_INTERVAL, MAX_UPDATE_INTERVAL.
  rewrite andb_true_iff, !Z.leb_le. tauto.
Qed.

Lemma validateInterval_outside (interval : Z) :
  validateInterval interval = false <-> interval < 1 \/ 86400 < interval.
Proof.
  destruct (validateInterval interval) eqn:V.
  - apply validateInterval_spec in V. split; [discriminate|lia].
  - split; [intros _|reflexivity].
    destruct (Z_lt_dec interval 1); [now left|].
    destruct (Z_lt_dec 86400 interval); [now right|].
    assert (validateInterval interval = true) by (apply validateInterval_spec; lia).
    congruence.
Qed.

Lemma Kept_refl (s : State) : Kept s s.
Proof. split; trivial; [now split|now exists []]. Qed.

Lemma Kept_trans (s1 s2 s3 : State) : Kept s1 s2 -> Kept s2 s3 -> Kept s1 s3.
Proof.
  intros [i1 [d1 n1] c1 w1 [e1 t1]] [i2 [d2 n2] c2 w2 [e2 t2]]. split.
  - congruence.
  - split; congruence.
  - congruence.
  - congruence.
  - exists (e2 ++ e1)%list. now rewrite t2, t1, app_assoc.
Qed.

Lemma Kept_safeNotify (message : Payload) (s : State) :
  Kept s (safeNotify message s).
Proof.
  unfold safeNotify. destruct (deviceConnected s && notifyReady s).
  - split; trivial; [now split|now exists [Notify message]].
  - apply Kept_refl.
Qed.

Lemma Kept_patchString (field : option string)
    (f : string -> Config -> Config) (st : bool * State) :
  (forall v c, UPDATE_INTERVAL (f v c) = UPDATE_INTERVAL c) ->
  Kept (snd st) (snd (patchString field f st)).
Proof.
  intros keep. destruct st as [changed s], field as [v|]; cbn.
  - split; cbn; trivial; [now split|now exists []].
  - apply Kept_refl.
Qed.

Lemma Kept_patchMode (doc : JsonDoc) (st : bool * State) :
  Kept (snd st) (snd (patchMode doc st)).
Proof.
  destruct st as [changed s]. unfold patchMode.
  destruct (j_mode doc) as [mode|]; [|apply Kept_refl].
  destruct ((mode =? 0) || (mode =? 1)); [|apply Kept_refl].
  split; cbn; trivial; [now split|now exists []].
Qed.

Lemma Kept_patchSetpoint (field : option Q) (f : Q -> Config -> Config)
    (reg : Z) (error : string) (st : bool * State) :
  (forall v c, UPDATE_INTERVAL (f v c) = UPDATE_INTERVAL c) ->
  Kept (snd st) (snd (patchSetpoint field f reg error st)).
Proof.
  intros keep. destruct st as [changed s]. unfold patchSetpoint.
  destruct field as [sp|]; [|apply Kept_refl].
  destruct (validateSetpoint sp); [|apply Kept_safeNotify].
  split; cbn; trivial; [now split|now exists [ModbusWrite reg (toUint16 sp)]].
Qed.

Lemma handlePatch_unfold (doc : JsonDoc) (s : State) :
  handlePatch doc s =
  let st := patchTail doc (patchInterval doc (patchHead doc s)) in
  if fst st then patchCommit (isKey (j_name doc)) (snd st) else snd st.
Proof.
  unfold handlePatch, patchTail, patchHead. cbv zeta.
  destruct (patchSetpoint _ _ _ _ _) as [changed s']. reflexivity.
Qed.

Lemma Kept_patchHead (doc : JsonDoc) (s : State) :
  Kept s (snd (patchHead doc s)).
Proof.
  unfold patchHead.
  eapply Kept_trans; [|now apply Kept_patchString].
  eapply Kept_trans; [|now apply Kept_patchString].
  eapply Kept_trans; [|now apply Kept_patchString].
  now apply (Kept_patchString _ _ (false, s)).
Qed.

Lemma Kept_patchTail (doc : JsonDoc) (st : bool * State) :
  Kept (snd st) (snd (patchTail doc st)).
Proof.
  unfold patchTail.
  eapply Kept_trans; [|now apply Kept_patchSetpoint].
  eapply Kept_trans; [|now apply Kept_patchSetpoint].
  apply Kept_patchMode.
Qed.

(** Committing rewrites the persisted record from the globals. *)
Lemma patchCommit_spec (nameChanged : bool) (s : State) :
  UPDATE_INTERVAL (cfg (patchCommit nameChanged s)) = UPDATE_INTERVAL (cfg s) /\
  nvs_conf (patchCommit nameChanged s) = Doc (configDoc (cfg s)) /\
  exists evs, trace (patchCommit nameChanged s) = (evs ++ trace s)%list.
Proof.
  unfold patchCommit, safeNotify, saveConfig. cbn.
  destruct (deviceConnected s), (notifyReady s), nameChanged; cbn;
    repeat split; trivial;
    first [now exists [] | now eexists [_] | now eexists [_; _]].
Qed.

Lemma patchInterval_rejected (doc : JsonDoc) (v : Z) (st : bool * State) :
  j_int doc = Some v -> validateInterval v = false ->
  patchInterval doc st = (fst st, safeNotify intervalError (snd st)).
Proof.
  intros J V. destruct st as [changed s]. unfold patchInterval.
  now rewrite J, V.
Qed.

Lemma patchInterval_accepted (doc : JsonDoc) (v : Z) (st : bool * State) :
  j_int doc = Some v -> validateInterval v = true ->
  patchInterval doc st =
  (true, set_cfg (with_interval v (cfg (snd st))) (snd st)).
Proof.
  intros J V. destruct st as [changed s]. unfold patchInterval.
  now rewrite J, V.
Qed.

Lemma onWrite_patch (doc : JsonDoc) (s : State) :
  j_action doc = None -> isConfigPatch doc = true ->
  onWrite (Json doc) s =
  handlePatch doc (tick (set_lastWatchdogTime (millis s) s)).
Proof. intros A P. unfold onWrite. now rewrite A, P. Qed.

Lemma isConfigPatch_int (doc : JsonDoc) (v : Z) :
  j_int doc = Some v -> isConfigPatch doc = true.
Proof.
  intros J. unfold isConfigPatch. rewrite J. cbn [isKey].
  now rewrite !orb_true_r.
Qed.

(** A patch whose interval is out of range: the interval stays, the error
    is pushed, and the persisted record is either left alone or rewritten
    with the interval that stayed. *)
Lemma patch_rejected (doc : JsonDoc) (v : Z) (s : State) :
  j_action doc = None -> j_int doc = Some v -> validateInterval v = false ->
  deviceConnected s = true -> notifyReady s = true ->
  let s' := onWrite (Json doc) s in
  UPDATE_INTERVAL (cfg s') = UPDATE_INTERVAL (cfg s) /\
  (exists before after,
      trace s' = (after ++ Notify intervalError :: before ++ trace s)%list) /\
  (nvs_conf s' = nvs_conf s \/
   exists c, nvs_conf s' = Doc (configDoc c) /\
             UPDATE_INTERVAL c = UPDATE_INTERVAL (cfg s)).
Proof.
  intros A J V dc nr s'. subst s'.
  rewrite (onWrite_patch doc s A (isConfigPatch_int doc v J)).
  set (s0 := tick (set_lastWatchdogTime (millis s) s)).
  rewrite handlePatch_unfold. cbv zeta.
  rewrite (patchInterval_rejected doc v _ J V).
  pose proof (Kept_patchHead doc s0) as [hi [hd hn] hc _ [e1 ht]].
  set (s1 := snd (patchHead doc s0)) in *.
  assert (N : safeNotify intervalError s1 = emit (Notify intervalError) s1).
  { unfold safeNotify. rewrite hd, hn. cbn. now rewrite dc, nr. }
  rewrite N.
  set (st2 := (fst (patchHead doc s0), emit (Notify intervalError) s1)).
  pose proof (Kept_patchTail doc st2) as [ti [td tn] tc _ [e2 tt]].
  set (st3 := patchTail doc st2) in *.
  cbn [snd st2] in ti, td, tn, tc, tt. cbn in ti, tc, tt.
  assert (T : trace (snd st3) =
              (e2 ++ Notify intervalError :: e1 ++ trace s)%list).
  { rewrite tt, ht. reflexivity. }
  assert (I : UPDATE_INTERVAL (cfg (snd st3)) = UPDATE_INTERVAL (cfg s)).
  { rewrite ti, hi. reflexivity. }
  destruct (fst st3).
  - destruct (patchCommit_spec (isKey (j_name doc)) (snd st3))
      as (ci & cc & e3 & ct).
    split; [congruence|]. split.
    + exists e1, (e3 ++ e2)%list. rewrite ct, T. now rewrite app_assoc.
    + right. exists (cfg (snd st3)). now split.
  - split; [exact I|]. split.
    + now exists e1, e2.
    + left. rewrite tc, hc. reflexivity.
Qed.

(** A patch whose interval is in range: the interval is taken as it is, in
    the globals and in the persisted record. *)
Lemma patch_accepted (doc : JsonDoc) (v : Z) (s : State) :
  j_action doc = None -> j_int doc = Some v -> validateInterval v = true ->
  let s' := onWrite (Json doc) s in
  UPDATE_INTERVAL (cfg s') = v /\
  exists c, nvs_conf s' = Doc (configDoc c) /\ UPDATE_INTERVAL c = v.
Proof.
  intros A J V s'. subst s'.
  rewrite (onWrite_patch doc s A (isConfigPatch_int doc v J)).
  set (s0 := tick (set_lastWatchdogTime (millis s) s)).
  rewrite handlePatch_unfold. cbv zeta.
  rewrite (patchInterval_accepted doc v _ J V).
  set (st2 := (true, set_cfg (with_interval v (cfg (snd (patchHead doc s0))))
                       (snd (patchHead doc s0)))).
  pose proof (Kept_patchTail doc st2) as [ti _ _ _ _].
  cbn in ti.
  assert (C : fst (patchTail doc st2) = true).
  { unfold patchTail, patchSetpoint, patchMode, st2.
    destruct (j_mode doc) as [m|]; [destruct ((m =? 0) || (m =? 1))|];
      (destruct (j_sp1 doc) as [a|]; [destruct (validateSetpoint a)|]);
      (destruct (j_sp2 doc) as [b|]; [destruct (validateSetpoint b)|]);
      reflexivity. }
  rewrite C.
  destruct (patchCommit_spec (isKey (j_name doc)) (snd (patchTail doc st2)))
    as (ci & cc & _).
  split; [congruence|].
  exists (cfg (snd (patchTail doc st2))). now split.
Qed.

Lemma loadConfig_interval (doc : JsonDoc) (v : Z) (s : State) :
  nvs_conf s = Doc doc -> j_int doc = Some v ->
  UPDATE_INTERVAL (cfg (loadConfig s)) = if validateInterval v then v else 60.
Proof.
  intros N J. unfold loadConfig. rewrite N. cbn [cfg set_cfg].
  unfold loadFields. rewrite J.
  destruct (j_mode doc), (j_sp1 doc), (j_sp2 doc); reflexivity.
Qed.

(** C7. An interval below 1 or above 86400: a configuration patch that
    carries it, received over a connected session, leaves the update
    interval as it was and pushes the error message, and a persisted record
    that carries it loads with the interval 60.  An interval within
    [1, 86400] is taken as it is by both. *)
Theorem C7_interval_validation (v : Z) :
  (v < 1 \/ 86400 < v ->
   (forall doc s,
       j_action doc = None -> j_int doc = Some v ->
       deviceConnected s = true -> notifyReady s = true ->
       let s' := onWrite (Json doc) s in
       UPDATE_INTERVAL (cfg s') = UPDATE_INTERVAL (cfg s) /\
       (exists before after,
           trace s' =
           (after ++ Notify intervalError :: before ++ trace s)%list) /\
       (nvs_conf s' = nvs_conf s \/
        exists c, nvs_conf s' = Doc (configDoc c) /\
                  UPDATE_INTERVAL c = UPDATE_INTERVAL (cfg s))) /\
   (forall doc s,
       nvs_conf s = Doc doc -> j_int doc = Some v ->
       UPDATE_INTERVAL (cfg (loadConfig s)) = 60)) /\
  (1 <= v <= 86400 ->
   (forall doc s,
       j_action doc = None -> j_int doc = Some v ->
       let s' := onWrite (Json doc) s in
       UPDATE_INTERVAL (cfg s') = v /\
       exists c, nvs_conf s' = Doc (configDoc c) /\ UPDATE_INTERVAL c = v) /\
   (forall doc s,
       nvs_conf s = Doc doc -> j_int doc = Some v ->
       UPDATE_INTERVAL (cfg (loadConfig s)) = v)).
Proof.
  split.
  - intros out. apply validateInterval_outside in out. split.
    + intros doc s A J dc nr. now apply (patch_rejected doc v s).
    + intros doc s N J. now rewrite (loadConfig_interval doc v s N J), out.
  - intros within. apply validateInterval_spec in within. split.
    + intros doc s A J. now apply (patch_accepted doc v s).
    + intros doc s N J. now rewrite (loadConfig_interval doc v s N J), within.
Qed.

(** The scenario of the specification: [{int: 999999}] is turned down. *)
Lemma C7_interval_validation_witness :
  let s := pairedState quietEnv [] in
  let s' := onWrite (Json (intervalPatch 999999)) s in
  UPDATE_INTERVAL (cfg s') = UPDATE_INTERVAL (cfg s) /\
  (exists before after,
      trace s' = (after ++ Notify intervalError :: before ++ trace s)%list) /\
  (nvs_conf s' = nvs_conf s \/
   exists c, nvs_conf s' = Doc (configDoc c) /\
             UPDATE_INTERVAL c = UPDATE_INTERVAL (cfg s)).
Proof.
  assert (out : 999999 < 1 \/ 86400 < 999999) by (right; reflexivity).
  apply (proj1 (proj1 (C7_interval_validation 999999) out)); reflexivity.
Defined.

(** ** Sensor text *)

Lemma digits_plain (c : ascii) (d : Decimal.uint) :
  (nat_of_ascii c < 48)%nat ->
  Str.indexOfChar c (NilEmpty.string_of_uint d) < 0.
Proof.
  intros low.
  assert (ne : forall k, (48 <= k < 58)%nat ->
                         Ascii.eqb (ascii_of_nat k) c = false).
  { intros k range. apply Ascii.eqb_neq. intros <-.
    rewrite nat_ascii_embedding in low; lia. }
  induction d as [|d IH|d IH|d IH|d IH|d IH|d IH|d IH|d IH|d IH|d IH];
    cbn [NilEmpty.string_of_uint Str.indexOfChar]; [lia|..].
  1: change "0"%char with (ascii_of_nat 48).
  2: change "1"%char with (ascii_of_nat 49).
  3: change "2"%char with (ascii_of_nat 50).
  4: change "3"%char with (ascii_of_nat 51).
  5: change "4"%char with (ascii_of_nat 52).
  6: change "5"%char with (ascii_of_nat 53).
  7: change "6"%char with (ascii_of_nat 54).
  8: change "7"%char with (ascii_of_nat 55).
  9: change "8"%char with (ascii_of_nat 56).
  10: change "9"%char with (ascii_of_nat 57).
  all: rewrite ne by lia; apply Z.ltb_lt in IH; rewrite IH; lia.
Qed.

Lemma decimal_plain (c : ascii) (n : Z) :
  (nat_of_ascii c < 48)%nat -> Str.indexOfChar c (decimal n) < 0.
Proof.
  intros low. unfold decimal, NilZero.string_of_uint.
  pose proof (digits_plain c (N.to_uint (Z.to_N n)) low) as D.
  destruct (N.to_uint (Z.to_N n)); try exact D.
  cbn [Str.indexOfChar]. change "0"%char with (ascii_of_nat 48).
  destruct (Ascii.eqb_spec (ascii_of_nat 48) c) as [<-|_]; [|reflexivity].
  rewrite nat_ascii_embedding in low; lia.
Qed.

(** The text of a sensor value holds digits and one dot: no line end and no
    comma. *)
Lemma formatSensor_plain (c : ascii) (sensorValue : Z) :
  (nat_of_ascii c < 46)%nat ->
  Str.indexOfChar c (formatSensor sensorValue) < 0.
Proof.
  intros low. unfold formatSensor.
  assert (low' : (nat_of_ascii c < 48)%nat) by lia.
  apply StrFacts.indexOfChar_absent_join; [now apply decimal_plain|].
  change ("." ++ decimal (sensorValue mod 10) ++ "0")
    with (String "." (decimal (sensorValue mod 10) ++ "0")).
  cbn [Str.indexOfChar]. change "."%char with (ascii_of_nat 46).
  destruct (Ascii.eqb_spec (ascii_of_nat 46) c) as [<-|_].
  { rewrite nat_ascii_embedding in low; lia. }
  assert (T : Str.indexOfChar c (decimal (sensorValue mod 10) ++ "0") < 0).
  { apply StrFacts.indexOfChar_absent_join; [now apply decimal_plain|].
    cbn [Str.indexOfChar]. change "0"%char with (ascii_of_nat 48).
    destruct (Ascii.eqb_spec (ascii_of_nat 48) c) as [<-|_]; [|reflexivity].
    rewrite nat_ascii_embedding in low; lia. }
  apply Z.ltb_lt in T. rewrite T. lia.
Qed.

(** ** Delivery Pipeline and Durable Queue *)

Lemma accepted_spec (code : Z) (resp : string) :
  accepted code resp = true <->
  code = 200 /\ exists a b, resp = a ++ "true" ++ b.
Proof.
  unfold accepted. rewrite andb_true_iff, Z.eqb_eq, Z.leb_le.
  now rewrite StrFacts.indexOf_found.
Qed.

Lemma sd_put_In (path content : string) (files : list SdFile) :
  In (path, content) (sd_put path content files).
Proof.
  induction files as [|f rest IH]; cbn [sd_put]; [now left|].
  destruct (String.eqb (fst f) path); [now left|now right].
Qed.

(** The two ways [saveDataOffline] can go: the card is not ready or the
    entry does not open, and nothing is written; or the entry is written,
    and the result only tells whether that took more than the time limit. *)
Lemma saveDataOffline_spec (timestamp sensorData : string) (s : State) :
  let r := saveDataOffline timestamp sensorData s in
  if sdReady s && sdOpens (queueFilename timestamp) s then
    sd_files (snd r) =
      sd_put (queueFilename timestamp) (queueLine timestamp sensorData)
             (sd_files s) /\
    fst r = (writeElapsed s <=? SD_OPERATION_TIMEOUT)
  else
    sd_files (snd r) = sd_files s /\ fst r = false.
Proof.
  unfold saveDataOffline, sdOpens, writeElapsed. cbv zeta.
  destruct (sdReady s); cbn [negb andb]; [|now split].
  change (asked (tick s)) with (S (asked s)).
  change (env (tick s)) with (env s).
  destruct (sd_open_at (env s) (S (asked s)) (queueFilename timestamp));
    cbn [negb]; [|now split].
  change (sd_files (tick (tick s))) with (sd_files s).
  set (files := sd_put _ _ (sd_files s)).
  change (millis (set_sd_files files (tick (tick s))))
    with (u32 (millis_at (env s) (S (S (asked s))))).
  rewrite Z.gtb_ltb, Z.leb_antisym.
  destruct (SD_OPERATION_TIMEOUT <? _); split; reflexivity.
Qed.

Lemma deliverReading_unfold (timeStr sensorData : string) (s : State) :
  let url := deliveryUrl (cfg s) sensorData timeStr in
  let s1 := tick (emit (HttpGet url) s) in
  deliverReading timeStr sensorData s =
  if accepted (fst (httpGet url s)) (snd (httpGet url s)) then s1
  else snd (saveDataOffline timeStr sensorData s1).
Proof.
  unfold deliverReading. cbv zeta.
  now destruct (httpGet _ s) as [code resp].
Qed.

Lemma deliveryOutcome_unfold (timeStr sensorData : string) (s : State) :
  let url := deliveryUrl (cfg s) sensorData timeStr in
  let s1 := tick (emit (HttpGet url) s) in
  deliveryOutcome timeStr sensorData s =
  if accepted (fst (httpGet url s)) (snd (httpGet url s)) then Delivered
  else if fst (saveDataOffline timeStr sensorData s1) then QueuedOffline
       else Lost.
Proof.
  unfold deliveryOutcome. cbv zeta.
  now destruct (httpGet _ s) as [code resp].
Qed.

(** C3, as the code has it.  A delivery attempt is [Delivered] exactly
    when the status is 200 and the body contains [true], and then the queue
    is not touched.  Otherwise: if the card is not ready or the entry does
    not open, nothing is written and the reading is [Lost]; if the entry
    opens, the line [timestamp,value] is written under the name made from
    the timestamp, and the outcome is [QueuedOffline] when that took at most
    5000 ms and [Lost] when it took longer, the entry staying on the card
    in both cases. *)
Theorem C3_delivery_outcome (timeStr sensorData : string) (s : State) :
  let url := deliveryUrl (cfg s) sensorData timeStr in
  let code := fst (httpGet url s) in
  let body := snd (httpGet url s) in
  let s1 := tick (emit (HttpGet url) s) in
  let s' := deliverReading timeStr sensorData s in
  let outcome := deliveryOutcome timeStr sensorData s in
  (outcome = Delivered <->
   code = 200 /\ exists a b, body = a ++ "true" ++ b) /\
  (outcome = Delivered -> s' = s1 /\ sd_files s' = sd_files s) /\
  (outcome <> Delivered ->
   if sdReady s && sdOpens (queueFilename timeStr) s1 then
     sd_files s' =
       sd_put (queueFilename timeStr)
              (timeStr ++ "," ++ sensorData ++ String newline "")
              (sd_files s) /\
     outcome = (if writeElapsed s1 <=? 5000 then QueuedOffline else Lost)
   else
     sd_files s' = sd_files s /\ outcome = Lost).
Proof.
  cbv zeta.
  rewrite deliverReading_unfold, deliveryOutcome_unfold. cbv zeta.
  rewrite <- accepted_spec.
  set (url := deliveryUrl (cfg s) sensorData timeStr).
  set (s1 := tick (emit (HttpGet url) s)).
  pose proof (saveDataOffline_spec timeStr sensorData s1) as S.
  cbv zeta in S. change (sdReady s1) with (sdReady s) in S.
  change (sd_files s1) with (sd_files s) in S.
  destruct (accepted _ _).
  - split; [tauto|]. split; [now split|congruence].
  - split; [|split].
    + split; [|discriminate].
      destruct (fst (saveDataOffline timeStr sensorData s1)); discriminate.
    + destruct (fst (saveDataOffline timeStr sensorData s1)); discriminate.
    + intros _.
      destruct (sdReady s && sdOpens (queueFilename timeStr) s1).
      * destruct S as [F R]. split; [exact F|]. rewrite R.
        unfold SD_OPERATION_TIMEOUT. now destruct (writeElapsed s1 <=? 5000).
      * destruct S as [F R]. split; [exact F|]. now rewrite R.
Qed.

(** The scenario of the specification: the server answers with an error,
    the card is fine, and the reading becomes one queue entry. *)
Lemma C3_delivery_outcome_witness :
  let s := bootState quietEnv [] in
  let timeStr := "2024-05-01 10:00:00" in
  sd_files (deliverReading timeStr "23.40" s) =
    [(queueFilename timeStr, queueLine timeStr "23.40")] /\
  deliveryOutcome timeStr "23.40" s = QueuedOffline.
Proof.
  assert (ne : deliveryOutcome "2024-05-01 10:00:00" "23.40"
                 (bootState quietEnv []) <> Delivered)
    by (vm_compute; discriminate).
  exact (proj2 (proj2 (C3_delivery_outcome "2024-05-01 10:00:00" "23.40"
                         (bootState quietEnv []))) ne).
Defined.

(** C3 as stated fails when the write is slow: the reading is classified
    [Lost], and yet its entry is on the card. *)
Lemma C3_counterexample :
  let s := bootState slowCardEnv [] in
  let timeStr := "2024-05-01 10:00:00" in
  deliveryOutcome timeStr "23.40" s = Lost /\
  sd_files (deliverReading timeStr "23.40" s) =
    [("/20240501100000.txt", queueLine timeStr "23.40")] /\
  ~ lostIsDropped timeStr "23.40" s.
Proof.
  cbv zeta. split; [reflexivity|]. split; [reflexivity|].
  intros H. specialize (H eq_refl). vm_compute in H. discriminate H.
Qed.

(** ** Queue Drainer *)

(** One turn of the drainer's loop. *)
Lemma drainLoop_cons (file : SdFile) (dir : list SdFile) (start processed : Z)
    (s : State) :
  drainLoop (file :: dir) start processed s =
  if processed <? MAX_FILES then
    if timedOut start s then tick s
    else if negb (Str.endsWith ".txt" (fst file)) then
      drainLoop dir start processed (tick s)
    else if Str.indexOfChar "," (entryLine file) <? 0 then
      drainLoop dir start processed (SD_remove (fst file) (tick s))
    else if accepted (fst (entryAnswer file s)) (snd (entryAnswer file s)) then
      drainLoop dir start (processed + 1)
                (SD_remove (fst file) (afterRequest file s))
    else afterRequest file s
  else s.
Proof.
  cbn [drainLoop]. unfold timedOut, entryAnswer, afterRequest, entryUrl,
    entryLine. cbv zeta. change (cfg (tick s)) with (cfg s).
  destruct (processed <? MAX_FILES); [|reflexivity].
  destruct (_ >? _); [reflexivity|].
  destruct (negb _); [reflexivity|].
  destruct (_ <? 0); [reflexivity|].
  now destruct (httpGet _ (tick s)) as [code resp].
Qed.

Lemma drainLoop_nil (start processed : Z) (s : State) :
  drainLoop [] start processed s = s.
Proof. cbn [drainLoop]. now destruct (processed <? MAX_FILES). Qed.

Lemma sd_remove_gone (path content : string) (files : list SdFile) :
  ~ In (path, content) (sd_remove path files).
Proof.
  unfold sd_remove. rewrite filter_In. cbn [fst].
  rewrite String.eqb_refl. intros [_ H]. discriminate H.
Qed.

Lemma sd_remove_incl (path : string) (files : list SdFile) (f : SdFile) :
  In f (sd_remove path files) -> In f files.
Proof. unfold sd_remove. rewrite filter_In. tauto. Qed.

(** The drainer never writes: what is on the card afterwards was there. *)
Lemma drainLoop_only_removes (dir : list SdFile) (start : Z) :
  forall processed s f,
    In f (sd_files (drainLoop dir start processed s)) -> In f (sd_files s).
Proof.
  induction dir as [|file dir IH]; intros processed s f.
  - now rewrite drainLoop_nil.
  - rewrite drainLoop_cons.
    destruct (processed <? MAX_FILES); [|trivial].
    destruct (timedOut start s); [trivial|].
    destruct (negb _); [intros H; exact (IH _ _ _ H)|].
    destruct (_ <? 0).
    { intros H. apply IH in H. exact (sd_remove_incl _ _ _ H). }
    destruct (accepted _ _); [|trivial].
    intros H. apply IH in H. exact (sd_remove_incl _ _ _ H).
Qed.

(** C1. When the drainer comes to a [.txt] entry with batch and time budget
    left: if the line it reads has no comma, the entry is removed, is not
    on the card when the invocation ends, and the loop goes on with the
    next entry; if the line has a comma and the delivery fails (status other
    than 200, or a body without [true]), the loop ends there, having made
    that one request: the card holds what it held, this entry and all later
    ones included. *)
Theorem C1_drain_malformed_and_failed (file : SdFile) (dir : list SdFile)
    (start processed : Z) (s : State) :
  processed < MAX_FILES -> timedOut start s = false ->
  Str.endsWith ".txt" (fst file) = true ->
  let s' := drainLoop (file :: dir) start processed s in
  (Str.indexOfChar "," (entryLine file) < 0 ->
   s' = drainLoop dir start processed (SD_remove (fst file) (tick s)) /\
   sd_files (SD_remove (fst file) (tick s)) = sd_remove (fst file) (sd_files s) /\
   forall content, ~ In (fst file, content) (sd_files s')) /\
  (0 <= Str.indexOfChar "," (entryLine file) ->
   (fst (entryAnswer file s) <> 200 \/
    ~ exists a b, snd (entryAnswer file s) = a ++ "true" ++ b) ->
   sd_files s' = sd_files s /\
   trace s' = HttpGet (entryUrl (cfg s) file) :: trace s).
Proof.
  intros room intime txt s'. subst s'. rewrite drainLoop_cons.
  apply Z.ltb_lt in room. rewrite room, intime, txt. cbn [negb].
  split.
  - intros bad. apply Z.ltb_lt in bad. rewrite bad.
    split; [reflexivity|]. split; [reflexivity|].
    intros content H. apply drainLoop_only_removes in H.
    exact (sd_remove_gone _ _ _ H).
  - intros good failed.
    assert (G : (Str.indexOfChar "," (entryLine file) <? 0) = false)
      by (apply Z.ltb_ge; exact good).
    rewrite G.
    destruct (accepted _ _) eqn:A.
    + apply accepted_spec in A. tauto.
    + split; reflexivity.
Qed.

(** An entry whose whole content has no comma has none in its first line. *)
Lemma drain_malformed_content (file : SdFile) :
  Str.indexOfChar "," (snd file) < 0 -> Str.indexOfChar "," (entryLine file) < 0.
Proof. apply StrFacts.readStringUntil_absent. Qed.

(** A refused first entry stops the batch. *)
Lemma C1_drain_malformed_and_failed_witness :
  let s := bootState refusingEnv [entryA; entryBad; entryC] in
  let s' := drainLoop [entryA; entryBad; entryC] 0 0 s in
  sd_files s' = sd_files s /\
  trace s' = HttpGet (entryUrl (cfg s) entryA) :: trace s.
Proof.
  refine (proj2 (C1_drain_malformed_and_failed entryA [entryBad; entryC] 0 0
                   (bootState refusingEnv [entryA; entryBad; entryC])
                   _ _ _) _ _).
  - vm_compute. reflexivity.
  - vm_compute. reflexivity.
  - vm_compute. reflexivity.
  - vm_compute. discriminate.
  - left. vm_compute. discriminate.
Defined.

(** The scenarios of the specification.  Valid, malformed, valid, with a
    server that accepts: the malformed entry is removed between the two
    deliveries (the trace reads latest first). *)
Example drain_valid_malformed_valid :
  let s' := processOfflineFiles
              (bootState acceptingEnv [entryA; entryBad; entryC]) in
  sd_files s' = [] /\
  trace s' =
    [SdRemove (fst entryC); HttpGet (entryUrl bootConfig entryC);
     SdRemove (fst entryBad);
     SdRemove (fst entryA); HttpGet (entryUrl bootConfig entryA)].
Proof. split; vm_compute; reflexivity. Qed.

(** The first entry refused: the two after it are not looked at. *)
Example drain_first_fails :
  let s' := processOfflineFiles
              (bootState refusingEnv [entryA; entryC; entryBad]) in
  sd_files s' = [entryA; entryC; entryBad] /\
  trace s' = [HttpGet (entryUrl bootConfig entryA)].
Proof. split; vm_compute; reflexivity. Qed.

(** C10. When the card is ready, the entry opens and the write takes more
    than 5000 ms, [saveDataOffline] reports failure although the entry is
    on the card with the line of the reading; and such an entry, when the
    drainer later comes to it with budget left, makes the same request as
    the live delivery and is removed once the server accepts. *)
Theorem C10_timeout_entry_survives (timestamp sensorData : string)
    (s : State) :
  sdReady s = true -> sdOpens (queueFilename timestamp) s = true ->
  SD_OPERATION_TIMEOUT < writeElapsed s ->
  Str.indexOfChar "," timestamp < 0 ->
  Str.indexOfChar newline timestamp < 0 ->
  Str.indexOfChar newline sensorData < 0 ->
  let r := saveDataOffline timestamp sensorData s in
  let entry := (queueFilename timestamp, queueLine timestamp sensorData) in
  fst r = false /\
  In entry (sd_files (snd r)) /\
  forall dir start processed later,
    processed < MAX_FILES -> timedOut start later = false ->
    entryUrl (cfg later) entry = deliveryUrl (cfg later) sensorData timestamp /\
    (accepted (fst (entryAnswer entry later)) (snd (entryAnswer entry later))
     = true ->
     drainLoop (entry :: dir) start processed later =
     drainLoop dir start (processed + 1)
               (SD_remove (queueFilename timestamp) (afterRequest entry later))).
Proof.
  intros ready opens slow nocomma nonl1 nonl2 r entry.
  pose proof (saveDataOffline_spec timestamp sensorData s) as S.
  cbv zeta in S. rewrite ready, opens in S. cbn [andb] in S.
  destruct S as [F R]. fold r in F, R.
  split. { rewrite R. apply Z.leb_gt. exact slow. }
  split. { rewrite F. apply sd_put_In. }
  intros dir start processed later room intime.
  assert (ne : newline <> ","%char) by discriminate.
  destruct (StrFacts.queue_line_parts newline "," timestamp sensorData
              nonl1 nonl2 ne nocomma) as (C & T & V).
  assert (U : entryUrl (cfg later) entry
              = deliveryUrl (cfg later) sensorData timestamp).
  { unfold entryUrl, entryLine, entry, queueLine. cbn [snd].
    change (timestamp ++ "," ++ sensorData ++ String newline "")
      with (timestamp ++ String "," (sensorData ++ String newline "")).
    now rewrite T, V. }
  split; [exact U|]. intros A.
  rewrite drainLoop_cons. apply Z.ltb_lt in room. rewrite room, intime, A.
  unfold entry at 1. cbn [fst]. unfold queueFilename at 1.
  rewrite StrFacts.endsWith_app. cbn [negb].
  assert (G : (Str.indexOfChar "," (entryLine entry) <? 0) = false).
  { apply Z.ltb_ge. exact C. }
  rewrite G. reflexivity.
Qed.

Lemma C10_timeout_entry_survives_witness :
  let s := tick (bootState slowCardEnv []) in
  let r := saveDataOffline "2024-05-01 10:00:00" "23.40" s in
  fst r = false /\ In entryA (sd_files (snd r)).
Proof.
  pose proof (C10_timeout_entry_survives "2024-05-01 10:00:00" "23.40"
                (tick (bootState slowCardEnv []))) as H.
  cbv zeta in H |- *.
  split; apply H; vm_compute; reflexivity.
Defined.

Lemma attempts_afterRequest (file : SdFile) (s : State) :
  attempts (afterRequest file s) = S (attempts s).
Proof. reflexivity. Qed.

Lemma attempts_SD_remove (path : string) (s : State) :
  attempts (SD_remove path s) = attempts s.
Proof. reflexivity. Qed.

(** Every request but the last raises [processed], so there are at most
    [MAX_FILES - processed] of them. *)
Lemma drainLoop_attempts (dir : list SdFile) (start : Z) :
  forall processed s,
    0 <= processed <= MAX_FILES ->
    (attempts (drainLoop dir start processed s)
     <= attempts s + Z.to_nat (MAX_FILES - processed))%nat.
Proof.
  induction dir as [|file dir IH]; intros processed s range.
  - rewrite drainLoop_nil. lia.
  - rewrite drainLoop_cons.
    destruct (Z.ltb_spec processed MAX_FILES) as [room|_]; [|lia].
    destruct (timedOut start s); [change (attempts (tick s)) with (attempts s); lia|].
    destruct (negb _).
    { specialize (IH processed (tick s) range).
      change (attempts (tick s)) with (attempts s) in IH. exact IH. }
    destruct (_ <? 0).
    { specialize (IH processed (SD_remove (fst file) (tick s)) range).
      rewrite attempts_SD_remove in IH.
      change (attempts (tick s)) with (attempts s) in IH. exact IH. }
    destruct (accepted _ _).
    + assert (range' : 0 <= processed + 1 <= MAX_FILES) by lia.
      specialize (IH (processed + 1)
                     (SD_remove (fst file) (afterRequest file s)) range').
      rewrite attempts_SD_remove, attempts_afterRequest in IH.
      unfold MAX_FILES in *. lia.
    + rewrite attempts_afterRequest. unfold MAX_FILES in *. lia.
Qed.

Lemma removedPaths_app (a b : list Event) :
  removedPaths (a ++ b) = (removedPaths a ++ removedPaths b)%list.
Proof.
  induction a as [|e a IH]; cbn [app removedPaths]; [reflexivity|].
  destruct e; cbn [app]; now rewrite ?IH.
Qed.

(** The entries removed, in the order of their removal, are entries of the
    directory in the order of the directory. *)
Lemma drainLoop_order (dir : list SdFile) (start : Z) :
  forall processed s,
  exists evs,
    trace (drainLoop dir start processed s) = (evs ++ trace s)%list /\
    Subseq (rev (removedPaths evs)) (map fst dir).
Proof.
  induction dir as [|file dir IH]; intros processed s.
  - rewrite drainLoop_nil. exists []. split; [reflexivity|constructor].
  - rewrite drainLoop_cons.
    destruct (processed <? MAX_FILES);
      [|exists []; split; [reflexivity|constructor]].
    destruct (timedOut start s);
      [exists []; split; [reflexivity|constructor]|].
    destruct (negb _).
    { destruct (IH processed (tick s)) as (evs & T & O).
      exists evs. split; [exact T|]. now apply Subseq_skip. }
    destruct (_ <? 0).
    { destruct (IH processed (SD_remove (fst file) (tick s))) as (evs & T & O).
      exists (evs ++ [SdRemove (fst file)])%list. split.
      - rewrite T, <- app_assoc. reflexivity.
      - rewrite removedPaths_app, rev_app_distr. cbn [removedPaths rev app map].
        now apply Subseq_take. }
    destruct (accepted _ _).
    + destruct (IH (processed + 1) (SD_remove (fst file) (afterRequest file s)))
        as (evs & T & O).
      exists (evs ++ [SdRemove (fst file); HttpGet (entryUrl (cfg s) file)])%list.
      split.
      * rewrite T, <- app_assoc. reflexivity.
      * rewrite removedPaths_app, rev_app_distr. cbn [removedPaths rev app map].
        now apply Subseq_take.
    + exists [HttpGet (entryUrl (cfg s) file)]. split; [reflexivity|constructor].
Qed.

(** C6, as the code has it.  An invocation makes at most five delivery
    requests, so delivers at most five entries; entries without a comma are
    removed without being counted.  The entries it removes are taken in the
    order of the directory.  It does nothing when the card is not ready or
    the link is down, and when it finds more than 5000 ms elapsed on opening
    an entry it ends without touching that entry or any after it. *)
Theorem C6_drain_bounds (s : State) :
  let s' := processOfflineFiles s in
  (attempts s' <= attempts s + 5)%nat /\
  (exists evs,
      trace s' = (evs ++ trace s)%list /\
      Subseq (rev (removedPaths evs)) (map fst (sd_files s))) /\
  (sdReady s = false -> s' = s) /\
  (sdReady s = true -> wifiConnected s = false -> s' = tick s) /\
  (forall file dir start processed st,
      processed < MAX_FILES -> timedOut start st = true ->
      drainLoop (file :: dir) start processed st = tick st).
Proof.
  cbv zeta. unfold processOfflineFiles. cbv zeta.
  split; [|split; [|split; [|split]]].
  - destruct (sdReady s); cbn [negb]; [|lia].
    destruct (wifiConnected s); cbn [negb];
      [|change (attempts (tick s)) with (attempts s); lia].
    destruct (sd_open_at _ _ _); cbn [negb];
      [|change (attempts (tick (tick (tick s)))) with (attempts s); lia].
    pose proof (drainLoop_attempts (sd_files (tick (tick (tick s))))
                  (millis (tick s)) 0 (tick (tick (tick s)))) as B.
    change (attempts (tick (tick (tick s)))) with (attempts s) in B.
    unfold MAX_FILES in B. cbn [Z.sub Z.to_nat] in B.
    apply B. lia.
  - destruct (sdReady s); cbn [negb];
      [|exists []; split; [reflexivity|constructor]].
    destruct (wifiConnected s); cbn [negb];
      [|exists []; split; [reflexivity|constructor]].
    destruct (sd_open_at _ _ _); cbn [negb];
      [|exists []; split; [reflexivity|constructor]].
    exact (drainLoop_order (sd_files s) (millis (tick s)) 0
             (tick (tick (tick s)))).
  - intros off. now rewrite off.
  - intros ready down. now rewrite ready, down.
  - intros file dir start processed st room late.
    rewrite drainLoop_cons. apply Z.ltb_lt in room. now rewrite room, late.
Qed.

Lemma C6_drain_bounds_witness :
  let s := bootState quietEnv sixMalformed in
  processOfflineFiles s = tick s.
Proof.
  refine (proj1 (proj2 (proj2 (proj2
            (C6_drain_bounds (bootState quietEnv sixMalformed))))) _ _);
    vm_compute; reflexivity.
Defined.

(** C6 as stated fails: six entries without a comma, and one invocation
    removes all six. *)
Lemma C6_counterexample :
  let s := bootState acceptingEnv sixMalformed in
  sd_files (processOfflineFiles s) = [] /\
  removedCount s (processOfflineFiles s) = 6%nat /\
  ~ batchOfFive s.
Proof.
  cbv zeta. split; [vm_compute; reflexivity|].
  split; [vm_compute; reflexivity|].
  unfold batchOfFive. vm_compute. intros H.
  repeat (apply le_S_n in H). inversion H.
Qed.

(** ** Steps that only do input and output *)

Lemma OnlyIO_eq (s s' : State) (q : nat) (evs : list Event)
    (files : list SdFile) :
  filter isModbusRead evs = [] ->
  s' = touch q (evs ++ trace s) files s -> OnlyIO s s'.
Proof. intros H ->. now constructor. Qed.

Lemma OnlyIO_refl (s : State) : OnlyIO s s.
Proof.
  apply (OnlyIO_eq s s (asked s) [] (sd_files s)); [reflexivity|].
  now destruct s.
Qed.

Lemma OnlyIO_trans (s1 s2 s3 : State) :
  OnlyIO s1 s2 -> OnlyIO s2 s3 -> OnlyIO s1 s3.
Proof.
  intros [q1 e1 f1 n1] [q2 e2 f2 n2].
  apply (OnlyIO_eq s1 _ q2 (e2 ++ e1) f2).
  - now rewrite filter_app, n1, n2.
  - rewrite <- app_assoc. reflexivity.
Qed.

Lemma OnlyIO_tick (s : State) : OnlyIO s (tick s).
Proof.
  apply (OnlyIO_eq s _ (S (asked s)) [] (sd_files s)); [reflexivity|].
  now destruct s.
Qed.

Lemma OnlyIO_emit (e : Event) (s : State) :
  isModbusRead e = false -> OnlyIO s (emit e s).
Proof.
  intros H. apply (OnlyIO_eq s _ (asked s) [e] (sd_files s)).
  - cbn [filter]. now rewrite H.
  - now destruct s.
Qed.

Lemma OnlyIO_set_sd_files (files : list SdFile) (s : State) :
  OnlyIO s (set_sd_files files s).
Proof.
  apply (OnlyIO_eq s _ (asked s) [] files); [reflexivity|].
  now destruct s.
Qed.

Lemma OnlyIO_SD_remove (path : string) (s : State) :
  OnlyIO s (SD_remove path s).
Proof.
  unfold SD_remove.
  eapply OnlyIO_trans; [apply OnlyIO_set_sd_files|now apply OnlyIO_emit].
Qed.

(** Peels the input and output steps off the state on the right. *)
Ltac io_peel :=
  lazymatch goal with
  | |- OnlyIO _ (tick _) => eapply OnlyIO_trans; [|apply OnlyIO_tick]
  | |- OnlyIO _ (emit _ _) =>
      eapply OnlyIO_trans; [|apply OnlyIO_emit; reflexivity]
  | |- OnlyIO _ (set_sd_files _ _) =>
      eapply OnlyIO_trans; [|apply OnlyIO_set_sd_files]
  | |- OnlyIO _ (SD_remove _ _) =>
      eapply OnlyIO_trans; [|apply OnlyIO_SD_remove]
  end.

Ltac io := repeat io_peel; try apply OnlyIO_refl.

Lemma OnlyIO_saveDataOffline (timestamp sensorData : string) (s : State) :
  OnlyIO s (snd (saveDataOffline timestamp sensorData s)).
Proof.
  unfold saveDataOffline. cbv zeta.
  destruct (sdReady s); cbn [negb snd]; [|io].
  destruct (sd_open_at _ _ _); cbn [negb snd]; [|io].
  destruct (_ >? _); cbn [snd]; io.
Qed.

Lemma OnlyIO_deliverReading (timeStr sensorData : string) (s : State) :
  OnlyIO s (deliverReading timeStr sensorData s).
Proof.
  rewrite deliverReading_unfold. cbv zeta. destruct (accepted _ _); [io|].
  eapply OnlyIO_trans; [|apply OnlyIO_saveDataOffline]. io.
Qed.

Lemma OnlyIO_afterRequest (file : SdFile) (s : State) :
  OnlyIO s (afterRequest file s).
Proof. unfold afterRequest. io. Qed.

Lemma OnlyIO_drainLoop (dir : list SdFile) (start : Z) :
  forall processed s, OnlyIO s (drainLoop dir start processed s).
Proof.
  induction dir as [|file dir IH]; intros processed s.
  - rewrite drainLoop_nil. io.
  - rewrite drainLoop_cons.
    destruct (processed <? MAX_FILES); [|io].
    destruct (timedOut start s); [io|].
    destruct (negb _).
    { eapply OnlyIO_trans; [|apply IH]. io. }
    destruct (_ <? 0).
    { eapply OnlyIO_trans; [|apply IH]. io. }
    destruct (accepted _ _); [|apply OnlyIO_afterRequest].
    eapply OnlyIO_trans; [|apply IH]. io. apply OnlyIO_afterRequest.
Qed.

Lemma OnlyIO_processOfflineFiles (s : State) :
  OnlyIO s (processOfflineFiles s).
Proof.
  unfold processOfflineFiles. cbv zeta.
  destruct (sdReady s); cbn [negb]; [|io].
  destruct (wifiConnected s); cbn [negb]; [|io].
  destruct (sd_open_at _ _ _); cbn [negb]; [|io].
  eapply OnlyIO_trans; [|apply OnlyIO_drainLoop]. io.
Qed.

Lemma OnlyIO_awaitLink (budget : nat) :
  forall s, OnlyIO s (awaitLink budget s).
Proof.
  induction budget as [|budget IH]; intros s; cbn [awaitLink];
    destruct (wifiConnected s); try solve [io].
  eapply OnlyIO_trans; [|apply IH]. io.
Qed.

Lemma OnlyIO_tryNetworks (savedNets : list Credential) :
  forall s, OnlyIO s (snd (tryNetworks savedNets s)).
Proof.
  induction savedNets as [|obj rest IH]; intros s; cbn [tryNetworks snd].
  - io.
  - set (s1 := awaitLink 8 _).
    assert (O : OnlyIO s (tick s1)).
    { io. eapply OnlyIO_trans; [|apply OnlyIO_awaitLink]. io. }
    destruct (wifiConnected s1); cbn [snd]; [exact O|].
    eapply OnlyIO_trans; [exact O|apply IH].
Qed.

Lemma OnlyIO_tryAutoConnect (s : State) : OnlyIO s (snd (tryAutoConnect s)).
Proof.
  unfold tryAutoConnect. destruct (nvs_nets s); [io|].
  apply OnlyIO_tryNetworks.
Qed.

Lemma OnlyIO_watchdogStep (s : State) : OnlyIO s (watchdogStep s).
Proof.
  unfold watchdogStep. cbv zeta.
  destruct (deviceConnected s && negb (watchdogPaused s)); [|io].
  destruct (_ >? _); io.
Qed.

Lemma OnlyIO_sched (s s' : State) : OnlyIO s s' -> sched s' = sched s.
Proof.
  intros [q evs files none]. unfold sched, fires, touch. cbn.
  now rewrite filter_app, none.
Qed.

Lemma OnlyIO_session (s s' : State) : OnlyIO s s' -> session s' = session s.
Proof. intros [q evs files none]. reflexivity. Qed.

(** ** Telemetry Scheduler *)

Lemma minInterval_max (c : Config) :
  minInterval c = Z.max 1 (Z.quot (UPDATE_INTERVAL c) 60).
Proof. unfold minInterval. destruct (Z.ltb_spec (UPDATE_INTERVAL c ÷ 60) 1); lia. Qed.

Lemma aligned_spec (m : Z) (s : State) :
  aligned m s = true <->
  Z.rem m (Z.max 1 (Z.quot (UPDATE_INTERVAL (cfg s)) 60)) = 0 /\
  m <> lastClockMinute s.
Proof.
  unfold aligned. rewrite minInterval_max, andb_true_iff, negb_true_iff,
    Z.eqb_eq, Z.eqb_neq. tauto.
Qed.

Lemma modeTrigger_clock (s : State) (m : Z) :
  UPDATE_MODE (cfg s) = 1 -> localtime_at (env s) (asked s) = Some m ->
  modeTrigger s =
  if aligned m s then (true, set_lastClockMinute m (tick s))
  else (false, tick s).
Proof.
  intros mode time. unfold modeTrigger. rewrite mode, time. cbn [Z.eqb].
  reflexivity.
Qed.

Lemma shouldTrigger_clock (s : State) (m : Z) :
  UPDATE_MODE (cfg s) = 1 -> localtime_at (env s) (asked s) = Some m ->
  forceHttpNow s = false ->
  shouldTrigger s =
  if aligned m s then (true, set_lastClockMinute m (tick s))
  else (false, tick s).
Proof.
  intros mode time force. unfold shouldTrigger.
  rewrite (modeTrigger_clock s m mode time).
  destruct (aligned m s); cbn; now rewrite force.
Qed.

(** A pending force flag fires whatever the mode says, and is cleared. *)
Lemma shouldTrigger_forced (s : State) :
  forceHttpNow s = true ->
  fst (shouldTrigger s) = true /\ forceHttpNow (snd (shouldTrigger s)) = false.
Proof.
  intros force. unfold shouldTrigger.
  assert (F : forceHttpNow (snd (modeTrigger s)) = true).
  { unfold modeTrigger.
    destruct (UPDATE_MODE (cfg s) =? 0);
      [destruct (_ >? _); exact force|].
    destruct (UPDATE_MODE (cfg s) =? 1); [|exact force].
    destruct (localtime_at _ _) as [m|]; [|exact force].
    destruct (_ && _); exact force. }
  destruct (modeTrigger s) as [trigger s1]. cbn [snd] in F.
  rewrite F. now split.
Qed.

(** The assignments of the loop that the scheduler's view does not see. *)
Lemma sched_tick (x : State) : sched (tick x) = sched x.
Proof. reflexivity. Qed.

Lemma sched_emit (e : Event) (x : State) :
  isModbusRead e = false -> sched (emit e x) = sched x.
Proof. intros H. unfold sched, fires. cbn. now rewrite H. Qed.

Lemma sched_set_lastWatchdogTime (v : Z) (x : State) :
  sched (set_lastWatchdogTime v x) = sched x.
Proof. reflexivity. Qed.

Lemma sched_set_watchdogPaused (v : bool) (x : State) :
  sched (set_watchdogPaused v x) = sched x.
Proof. reflexivity. Qed.

Lemma sched_set_lastFileCheckTime (v : Z) (x : State) :
  sched (set_lastFileCheckTime v x) = sched x.
Proof. reflexivity. Qed.

Lemma sched_set_lastWifiCheck (v : Z) (x : State) :
  sched (set_lastWifiCheck v x) = sched x.
Proof. reflexivity. Qed.

Lemma sched_set_triggerWifiScan (v : bool) (x : State) :
  sched (set_triggerWifiScan v x) = sched x.
Proof. reflexivity. Qed.

Lemma sched_safeNotify (message : Payload) (x : State) :
  sched (safeNotify message x) = sched x.
Proof. unfold safeNotify. now destruct (_ && _). Qed.

Lemma sched_processOfflineFiles (x : State) :
  sched (processOfflineFiles x) = sched x.
Proof. apply OnlyIO_sched, OnlyIO_processOfflineFiles. Qed.

Lemma sched_deliverReading (timeStr sensorData : string) (x : State) :
  sched (deliverReading timeStr sensorData x) = sched x.
Proof. apply OnlyIO_sched, OnlyIO_deliverReading. Qed.

Lemma sched_tryAutoConnect (x : State) :
  sched (snd (tryAutoConnect x)) = sched x.
Proof. apply OnlyIO_sched, OnlyIO_tryAutoConnect. Qed.

Lemma sched_watchdogStep (x : State) : sched (watchdogStep x) = sched x.
Proof. apply OnlyIO_sched, OnlyIO_watchdogStep. Qed.


Create Rewrite HintDb sched.

#[local] Hint Rewrite sched_tick sched_set_lastWatchdogTime
  sched_set_watchdogPaused sched_set_lastFileCheckTime sched_set_lastWifiCheck
  sched_set_triggerWifiScan sched_safeNotify sched_processOfflineFiles
  sched_deliverReading sched_tryAutoConnect sched_watchdogStep : sched.
#[local] Hint Rewrite sched_emit using reflexivity : sched.

Lemma sched_sendSensorData (s : State) :
  sched (sendSensorData s) =
  (cfg s, env s, lastClockMinute s, forceHttpNow s, wifiConfigReceived s,
   S (fires s)).
Proof.
  unfold sendSensorData. cbv zeta.
  destruct (String.length _ =? 0)%nat; autorewrite with sched; reflexivity.
Qed.

Lemma sched_drainStep (s : State) : sched (drainStep s) = sched s.
Proof.
  unfold drainStep. cbv zeta.
  destruct (wifiConnected s); [|apply sched_tick].
  destruct (_ >? _); now autorewrite with sched.
Qed.

Lemma sched_scanStep (s : State) : sched (scanStep s) = sched s.
Proof.
  unfold scanStep. cbv zeta. destruct (triggerWifiScan s); [|reflexivity].
  now autorewrite with sched.
Qed.

Lemma sched_reconnectStep (s : State) : sched (reconnectStep s) = sched s.
Proof.
  unfold reconnectStep. cbv zeta.
  destruct (negb (wifiConnected s) && _); [|apply sched_tick].
  destruct (_ >? _); now autorewrite with sched.
Qed.

Lemma provisionStep_idle (s : State) :
  wifiConfigReceived s = false -> provisionStep s = s.
Proof. intros idle. unfold provisionStep. now rewrite idle. Qed.

(** One loop iteration in clock-aligned mode, the minute being [m] at every
    reading of the clock and nothing forcing a fire. *)
Lemma sched_loop_clock (s : State) (m : Z) :
  UPDATE_MODE (cfg s) = 1 -> (forall q, localtime_at (env s) q = Some m) ->
  forceHttpNow s = false -> wifiConfigReceived s = false ->
  sched (loop s) =
  (cfg s, env s, (if aligned m s then m else lastClockMinute s), false, false,
   (if aligned m s then S (fires s) else fires s)).
Proof.
  intros mode time force idle. unfold loop. cbv zeta.
  set (s1 := drainStep (watchdogStep s)).
  assert (E1 : sched s1 = sched s).
  { unfold s1. now rewrite sched_drainStep, sched_watchdogStep. }
  unfold sched in E1. injection E1 as Ec Ee El Ef Ew En.
  assert (A : aligned m s1 = aligned m s).
  { unfold aligned. now rewrite Ec, El. }
  set (s2 := telemetryStep s1).
  assert (E2 : sched s2 =
               (cfg s, env s, (if aligned m s then m else lastClockMinute s),
                false, false, (if aligned m s then S (fires s) else fires s))).
  { unfold s2, telemetryStep.
    rewrite (shouldTrigger_clock s1 m); [|congruence|rewrite Ee; apply time|congruence].
    rewrite A. destruct (aligned m s).
    - rewrite sched_sendSensorData.
      change (fires (set_lastClockMinute m (tick s1))) with (fires s1).
      cbn [cfg env lastClockMinute forceHttpNow wifiConfigReceived
           set_lastClockMinute tick set_asked].
      now rewrite Ec, Ee, Ef, Ew, En, force, idle.
    - rewrite sched_tick. unfold sched.
      now rewrite Ec, Ee, El, Ef, Ew, En, force, idle. }
  assert (I2 : wifiConfigReceived s2 = false).
  { unfold sched in E2. now injection E2. }
  rewrite sched_reconnectStep.
  rewrite provisionStep_idle.
  - now rewrite sched_scanStep.
  - pose proof (sched_scanStep s2) as E3. unfold sched in E3.
    injection E3 as _ _ _ _ Ew3 _. congruence.
Qed.

(** While the minute stays [m] and nothing forces a fire, the loop fires at
    most once, and once it has fired it remembers the minute. *)
Lemma loop_clock_once (m : Z) (n : nat) :
  forall s,
    UPDATE_MODE (cfg s) = 1 -> (forall q, localtime_at (env s) q = Some m) ->
    forceHttpNow s = false -> wifiConfigReceived s = false ->
    let s' := loops n s in
    (cfg s' = cfg s /\ env s' = env s /\
     forceHttpNow s' = false /\ wifiConfigReceived s' = false) /\
    (fires s' <= fires s + 1)%nat /\
    (fires s' = (fires s + 1)%nat -> lastClockMinute s' = m).
Proof.
  induction n as [|n IH]; intros s mode time force idle; cbn [loops].
  - cbv zeta. repeat split; trivial; lia.
  - destruct (IH s mode time force idle) as ((Ec & Ee & Ef & Ew) & B & L).
    set (s' := loops n s) in *. cbv zeta.
    assert (mode' : UPDATE_MODE (cfg s') = 1) by congruence.
    assert (time' : forall q, localtime_at (env s') q = Some m)
      by (intros q; rewrite Ee; apply time).
    pose proof (sched_loop_clock s' m mode' time' Ef Ew) as E.
    unfold sched in E. injection E as Lc Le Ll Lf Lw Ln.
    split; [repeat split; congruence|].
    rewrite Ln, Ll. destruct (aligned m s') eqn:A.
    + destruct (Nat.eq_dec (fires s') (fires s + 1)) as [once|fresh].
      * specialize (L once). unfold aligned in A. rewrite L, Z.eqb_refl in A.
        rewrite andb_false_r in A. discriminate A.
      * split; [lia|reflexivity].
    + split; [exact B|exact L].
Qed.

(** C4, as the code has it.  In clock-aligned mode: with the wall clock
    giving minute [m] and no force flag pending, the scheduler fires exactly
    when [m] is a multiple of [max(1, interval / 60)] and differs from the
    minute of the last clock-aligned fire, which then becomes [m]; so as long
    as the minute stays [m] and no fire is forced, any number of loop
    iterations fire at most once.  A pending force flag fires once whatever
    the minute, and is cleared. *)
Theorem C4_clock_aligned (s : State) (m : Z) :
  UPDATE_MODE (cfg s) = 1 ->
  (forceHttpNow s = false -> localtime_at (env s) (asked s) = Some m ->
   (fst (shouldTrigger s) = true <->
    Z.rem m (Z.max 1 (Z.quot (UPDATE_INTERVAL (cfg s)) 60)) = 0 /\
    m <> lastClockMinute s) /\
   (fst (shouldTrigger s) = true ->
    lastClockMinute (snd (shouldTrigger s)) = m)) /\
  (forceHttpNow s = false -> wifiConfigReceived s = false ->
   (forall q, localtime_at (env s) q = Some m) ->
   forall n, (fires (loops n s) <= fires s + 1)%nat) /\
  (forceHttpNow s = true ->
   fst (shouldTrigger s) = true /\
   forceHttpNow (snd (shouldTrigger s)) = false).
Proof.
  intros mode. split; [|split].
  - intros force time. rewrite (shouldTrigger_clock s m mode time force).
    rewrite <- aligned_spec. destruct (aligned m s); cbn [fst snd].
    + split; [tauto|reflexivity].
    + split; [split; discriminate|discriminate].
  - intros force idle time n.
    apply (loop_clock_once m n s mode time force idle).
  - apply shouldTrigger_forced.
Qed.

(** Every five minutes, minute 5, forty loop iterations: one fire. *)
Lemma C4_clock_aligned_witness :
  (fires (loops 40 (clockState 5)) <= fires (clockState 5) + 1)%nat.
Proof.
  refine (proj1 (proj2 (C4_clock_aligned (clockState 5) 5 _)) _ _ _ 40%nat).
  - reflexivity.
  - reflexivity.
  - reflexivity.
  - intros q. reflexivity.
Defined.

Example clock_aligned_fires_once :
  fires (loops 40 (clockState 5)) = 1%nat /\
  fires (loops 40 (clockState 7)) = 0%nat.
Proof. split; vm_compute; reflexivity. Qed.

(** C4 as stated fails when a fire is forced: minute 7 is no multiple of 5,
    and a configuration patch received in minute 5, after that minute has
    fired, makes it fire again. *)
Lemma C4_counterexample :
  ~ firesOnlyAligned (set_forceHttpNow true (clockState 7)) /\
  fires (run [Loop; Write (Json (intervalPatch 300)); Loop] (clockState 5))
  = 2%nat.
Proof.
  split.
  - intros H. destruct (H 7 eq_refl eq_refl) as [R _].
    + vm_compute. reflexivity.
    + vm_compute in R. discriminate R.
  - vm_compute. reflexivity.
Qed.

(** ** Liveness Watchdog *)

Lemma lastWatchdogTime_safeNotify (message : Payload) (x : State) :
  lastWatchdogTime (safeNotify message x) = lastWatchdogTime x.
Proof. apply Kept_safeNotify. Qed.

Lemma lastWatchdogTime_handleAction (act : string) (x : State) :
  lastWatchdogTime (handleAction act x) = lastWatchdogTime x.
Proof.
  unfold handleAction. cbv zeta.
  destruct (String.eqb act "scan"); [reflexivity|].
  destruct (String.eqb act "get_conf"); [apply lastWatchdogTime_safeNotify|].
  destruct (String.eqb act "get_status").
  { destruct (wifiConnected x); now rewrite lastWatchdogTime_safeNotify. }
  destruct (String.eqb act "forget_wifi"); [|reflexivity].
  change (lastWatchdogTime
            (if deviceConnected (clearSavedWifi x)
             then safeNotify (Text "Wi-Fi credentials erased.")
                    (clearSavedWifi x)
             else clearSavedWifi x) = lastWatchdogTime x).
  destruct (deviceConnected _); [now rewrite lastWatchdogTime_safeNotify|].
  reflexivity.
Qed.

Lemma lastWatchdogTime_patchCommit (nameChanged : bool) (x : State) :
  lastWatchdogTime (patchCommit nameChanged x) = lastWatchdogTime x.
Proof.
  unfold patchCommit, safeNotify, saveConfig. cbn.
  now destruct (deviceConnected x), (notifyReady x), nameChanged.
Qed.

Lemma lastWatchdogTime_patchInterval (doc : JsonDoc) (st : bool * State) :
  lastWatchdogTime (snd (patchInterval doc st)) = lastWatchdogTime (snd st).
Proof.
  destruct st as [changed x]. unfold patchInterval.
  destruct (j_int doc) as [v|]; [|reflexivity].
  destruct (validateInterval v); [reflexivity|].
  apply lastWatchdogTime_safeNotify.
Qed.

Lemma lastWatchdogTime_handlePatch (doc : JsonDoc) (x : State) :
  lastWatchdogTime (handlePatch doc x) = lastWatchdogTime x.
Proof.
  rewrite handlePatch_unfold. cbv zeta.
  assert (E : lastWatchdogTime
                (snd (patchTail doc (patchInterval doc (patchHead doc x))))
              = lastWatchdogTime x).
  { rewrite (kept_watchdog _ _ (Kept_patchTail doc _)).
    rewrite lastWatchdogTime_patchInterval.
    apply (kept_watchdog _ _ (Kept_patchHead doc x)). }
  destruct (fst _); [now rewrite lastWatchdogTime_patchCommit|exact E].
Qed.

Lemma lastWatchdogTime_handleCredentials (ssid : option string)
    (doc : JsonDoc) (x : State) :
  lastWatchdogTime (handleCredentials ssid doc x) = lastWatchdogTime x.
Proof.
  unfold handleCredentials. cbv zeta. now destruct (0 <? _)%nat.
Qed.

(** Every value that is not empty refreshes the watchdog timestamp. *)
Lemma lastWatchdogTime_onWrite (value : Inbound) (s : State) :
  value <> EmptyValue -> lastWatchdogTime (onWrite value s) = millis s.
Proof.
  intros ne. destruct value as [| |doc]; [congruence|reflexivity|].
  unfold onWrite. set (x := tick (set_lastWatchdogTime (millis s) s)).
  change (millis s) with (lastWatchdogTime x).
  destruct (j_action doc) as [[act|]|];
    [apply lastWatchdogTime_handleAction|reflexivity|].
  destruct (isConfigPatch doc); [apply lastWatchdogTime_handlePatch|].
  destruct (j_ssid doc) as [ssid|]; [|reflexivity].
  apply lastWatchdogTime_handleCredentials.
Qed.

Lemma formatSensor_nonempty (v : Z) :
  (String.length (formatSensor v) =? 0)%nat = false.
Proof.
  unfold formatSensor. rewrite StrFacts.length_app. cbn [append String.length].
  apply Nat.eqb_neq. lia.
Qed.

(** A successful sensor read sets the watchdog timestamp to the clock
    reading taken right after it, and leaves the rest of the session. *)
Lemma session_sendSensorData (s : State) (v : Z) :
  modbus_at (env s) (asked s) = Some v ->
  session (sendSensorData s) =
  (deviceConnected s, watchdogPaused s, millis (tick s), triggerWifiScan s,
   wifiConfigReceived s, nvs_nets s, env s).
Proof.
  intros ok. unfold sendSensorData. cbv zeta. rewrite ok.
  rewrite formatSensor_nonempty.
  now rewrite (OnlyIO_session _ _ (OnlyIO_deliverReading _ _ _)).
Qed.

Lemma watchdogStep_fires (s : State) :
  deviceConnected s = true -> watchdogPaused s = false ->
  WATCHDOG_TIMEOUT < u32 (millis s - lastWatchdogTime s) ->
  watchdogStep s = emit BleDisconnect (tick s).
Proof.
  intros dc np late. unfold watchdogStep. rewrite dc, np. cbn [andb negb].
  change (lastWatchdogTime (tick s)) with (lastWatchdogTime s).
  apply Z.gtb_lt in late. now rewrite late.
Qed.

Lemma watchdogStep_fed (s : State) :
  deviceConnected s = true -> watchdogPaused s = false ->
  u32 (millis s - lastWatchdogTime s) <= WATCHDOG_TIMEOUT ->
  watchdogStep s = tick s.
Proof.
  intros dc np fed. unfold watchdogStep. rewrite dc, np. cbn [andb negb].
  change (lastWatchdogTime (tick s)) with (lastWatchdogTime s).
  destruct (Z.gtb_spec (u32 (millis s - lastWatchdogTime s)) WATCHDOG_TIMEOUT);
    [lia|reflexivity].
Qed.

Lemma watchdogStep_paused (s : State) :
  watchdogPaused s = true -> watchdogStep s = s.
Proof.
  intros p. unfold watchdogStep. rewrite p. now rewrite andb_false_r.
Qed.

(** C5, as the code has it.  With a session connected and the paused flag
    clear, a loop iteration disconnects the session exactly when the
    watchdog timestamp is more than 3000 ms behind the clock; with the
    paused flag set the watchdog does nothing.  The timestamp is refreshed
    by every non-empty inbound message, and also by a session connecting,
    by every successful sensor read, and at the end of a queue drain, a scan
    and a provisioning attempt. *)
Theorem C5_watchdog (s : State) :
  (deviceConnected s = true -> watchdogPaused s = false ->
   (WATCHDOG_TIMEOUT < u32 (millis s - lastWatchdogTime s) ->
    watchdogStep s = emit BleDisconnect (tick s)) /\
   (u32 (millis s - lastWatchdogTime s) <= WATCHDOG_TIMEOUT ->
    watchdogStep s = tick s)) /\
  (watchdogPaused s = true -> watchdogStep s = s) /\
  (forall value,
      value <> EmptyValue -> lastWatchdogTime (onWrite value s) = millis s) /\
  lastWatchdogTime (onConnect s) = millis s /\
  (forall v,
      modbus_at (env s) (asked s) = Some v ->
      lastWatchdogTime (sendSensorData s) = millis (tick s)) /\
  (triggerWifiScan s = true ->
   exists x, scanStep s = tick (set_lastWatchdogTime (millis x) x)) /\
  (wifiConfigReceived s = true ->
   exists x, provisionStep s = tick (set_lastWatchdogTime (millis x) x)) /\
  (wifiConnected s = true ->
   FILE_CHECK_INTERVAL < u32 (millis (tick s) - lastFileCheckTime s) ->
   exists x, drainStep s = tick (set_lastWatchdogTime (millis x) x)).
Proof.
  split; [|split; [|split; [|split; [|split; [|split; [|split]]]]]].
  - intros dc np. split.
    + now apply watchdogStep_fires.
    + now apply watchdogStep_fed.
  - apply watchdogStep_paused.
  - intros value. apply lastWatchdogTime_onWrite.
  - reflexivity.
  - intros v ok. pose proof (session_sendSensorData s v ok) as E.
    unfold session in E. now injection E.
  - intros scan. unfold scanStep. rewrite scan. cbv zeta. now eexists.
  - intros prov. unfold provisionStep. rewrite prov. cbv zeta. now eexists.
  - intros up due. unfold drainStep. rewrite up. cbv zeta.
    change (lastFileCheckTime (tick (tick s))) with (lastFileCheckTime s).
    apply Z.gtb_lt in due. rewrite due. now eexists.
Qed.

Lemma C5_watchdog_witness :
  let s := pairedState (minuteEnv 0) [] in
  watchdogStep s = tick s.
Proof.
  refine (proj2 (proj1 (C5_watchdog (pairedState (minuteEnv 0) [])) _ _) _);
    vm_compute; [reflexivity|reflexivity|discriminate].
Defined.

(** C5 as stated fails: the client pings at 0 ms and then stays silent;
    the sensor is read at 2000 ms; at 4000 ms, four seconds after the last
    inbound message, the loop leaves the session connected. *)
Lemma C5_counterexample :
  let s1 := onWrite (Json pingDoc) silentState in
  let s2 := loop s1 in
  lastWatchdogTime s1 = 0 /\
  millis s2 = 4000 /\
  trace (loop s2) = HttpGet (deliveryUrl (cfg s2) "23.40" "2024-05-01 10:00:00")
                    :: ModbusRead :: trace s2 /\
  ~ silenceDisconnects 0 s2.
Proof.
  cbv zeta. split; [vm_compute; reflexivity|].
  split; [vm_compute; reflexivity|].
  split; [vm_compute; reflexivity|].
  assert (N : ~ In BleDisconnect
                  (trace (loop (loop (onWrite (Json pingDoc) silentState))))).
  { vm_compute. intros I.
    repeat (destruct I as [I|I]; [discriminate I|]). exact I. }
  intros H. apply N, H; vm_compute; reflexivity.
Qed.

Lemma session_modeTrigger (x : State) :
  session (snd (modeTrigger x)) = session x.
Proof.
  unfold modeTrigger. cbv zeta.
  destruct (UPDATE_MODE (cfg x) =? 0); [now destruct (_ >? _)|].
  destruct (UPDATE_MODE (cfg x) =? 1); [|reflexivity].
  destruct (localtime_at _ _) as [m|]; [now destruct (_ && _)|reflexivity].
Qed.

Lemma session_shouldTrigger (x : State) :
  session (snd (shouldTrigger x)) = session x.
Proof.
  unfold shouldTrigger. rewrite <- (session_modeTrigger x).
  destruct (modeTrigger x) as [trigger y]. cbn [snd].
  now destruct (forceHttpNow y).
Qed.

(** The drain step leaves the session as it is, except that it ends with
    the paused flag clear and the watchdog timestamp refreshed. *)
Lemma drainStep_session (x : State) :
  deviceConnected (drainStep x) = deviceConnected x /\
  triggerWifiScan (drainStep x) = triggerWifiScan x /\
  wifiConfigReceived (drainStep x) = wifiConfigReceived x /\
  env (drainStep x) = env x /\
  (watchdogPaused x = false -> watchdogPaused (drainStep x) = false).
Proof.
  unfold drainStep. cbv zeta.
  destruct (wifiConnected x); [|now repeat split].
  destruct (_ >? _); [|now repeat split].
  set (y := set_watchdogPaused true _).
  pose proof (OnlyIO_session y _ (OnlyIO_processOfflineFiles y)) as E.
  unfold session in E. injection E as Ed _ _ Es Ew _ Ee.
  cbn [deviceConnected triggerWifiScan wifiConfigReceived env watchdogPaused
       tick set_asked set_lastWatchdogTime set_watchdogPaused].
  rewrite Ed, Es, Ew, Ee. now repeat split.
Qed.

Lemma scanStep_idle (x : State) : triggerWifiScan x = false -> scanStep x = x.
Proof. intros idle. unfold scanStep. now rewrite idle. Qed.

Lemma reconnectStep_connected (x : State) :
  deviceConnected x = true -> reconnectStep x = tick x.
Proof.
  intros dc. unfold reconnectStep. cbv zeta.
  change (deviceConnected (tick x)) with (deviceConnected x).
  now rewrite dc, andb_false_r.
Qed.

Lemma loops_S (k : nat) (s : State) : loops (S k) s = loop (loops k s).
Proof. reflexivity. Qed.

(** ** Provisioning *)

Lemma dropSpaces_blank (s : string) :
  Str.blank s = true -> Str.dropSpaces s = "".
Proof.
  induction s as [|a r IH]; cbn [Str.blank Str.dropSpaces]; [reflexivity|].
  destruct (Str.isspace a); [exact IH|discriminate].
Qed.

Lemma trim_blank (s : string) : Str.blank s = true -> Str.trim s = "".
Proof. intros B. unfold Str.trim. now rewrite (dropSpaces_blank s B). Qed.

Lemma session_safeNotify (message : Payload) (x : State) :
  session (safeNotify message x) = session x.
Proof. unfold safeNotify. now destruct (_ && _). Qed.

Lemma OnlyIO_stored (s s' : State) : OnlyIO s s' -> stored s' = stored s.
Proof. intros [q evs files none]. reflexivity. Qed.

Lemma stored_tick (x : State) : stored (tick x) = stored x.
Proof. reflexivity. Qed.

Lemma stored_emit (e : Event) (x : State) : stored (emit e x) = stored x.
Proof. reflexivity. Qed.

Lemma stored_safeNotify (message : Payload) (x : State) :
  stored (safeNotify message x) = stored x.
Proof. unfold safeNotify. now destruct (_ && _). Qed.

Lemma stored_awaitLink (budget : nat) (x : State) :
  stored (awaitLink budget x) = stored x.
Proof. apply OnlyIO_stored, OnlyIO_awaitLink. Qed.

Lemma stored_set_watchdogPaused (v : bool) (x : State) :
  stored (set_watchdogPaused v x) = stored x.
Proof. reflexivity. Qed.

Lemma stored_set_wifiConfigReceived (v : bool) (x : State) :
  stored (set_wifiConfigReceived v x) = stored x.
Proof. reflexivity. Qed.

Lemma stored_set_lastWatchdogTime (v : Z) (x : State) :
  stored (set_lastWatchdogTime v x) = stored x.
Proof. reflexivity. Qed.

(** The branch of a link that came up, for an empty target ssid:
    [saveNetworkToMemory] returns at once. *)
Lemma stored_linkUp_empty (x : State) :
  targetSSID x = "" ->
  stored (set_forceHttpNow true
            (setupTime (saveNetworkToMemory (targetSSID x) (targetPass x) x)))
  = stored x.
Proof.
  intros E. rewrite E. unfold stored, saveNetworkToMemory, upsert.
  cbn. now rewrite E.
Qed.

Create Rewrite HintDb stored.

#[local] Hint Rewrite stored_tick stored_emit stored_safeNotify
  stored_awaitLink stored_set_watchdogPaused stored_set_wifiConfigReceived
  stored_set_lastWatchdogTime : stored.

Lemma stored_target (x y : State) :
  stored x = stored y -> targetSSID y = "" -> targetSSID x = "".
Proof. unfold stored. intros E T. injection E as _ E. congruence. Qed.

Lemma stored_provisionResult (up : bool) (y : State) :
  targetSSID y = "" -> stored (provisionResult up y) = stored y.
Proof.
  intros empty. unfold provisionResult. destruct up; cbv zeta.
  - rewrite stored_linkUp_empty.
    + rewrite stored_safeNotify, !stored_tick. reflexivity.
    + apply (stored_target _ y); [|exact empty].
      rewrite stored_safeNotify, !stored_tick. reflexivity.
  - apply stored_safeNotify.
Qed.

(** With an empty target ssid, provisioning stores nothing, whether or not
    the link comes up. *)
Lemma provisionStep_empty_target (x : State) :
  targetSSID x = "" -> nvs_nets (provisionStep x) = nvs_nets x.
Proof.
  intros empty.
  enough (E : stored (provisionStep x) = stored x)
    by (unfold stored in E; injection E as E _; exact E).
  unfold provisionStep. destruct (wifiConfigReceived x); [|reflexivity].
  cbv zeta. rewrite stored_tick, stored_set_lastWatchdogTime,
    stored_set_watchdogPaused.
  rewrite stored_provisionResult.
  - autorewrite with stored. reflexivity.
  - apply (stored_target _ x); [|exact empty].
    autorewrite with stored. reflexivity.
Qed.

Lemma handleCredentials_blank (ssid : option string) (doc : JsonDoc)
    (x : State) :
  Str.blank (ofCString ssid) = true ->
  let pass := match j_pass doc with
              | Some pass => ofCString pass
              | None => ""
              end in
  handleCredentials ssid doc x =
  set_targetPass (Str.trim pass)
    (set_targetSSID "" (set_targetPass pass (set_targetSSID (ofCString ssid) x))).
Proof.
  intros B. unfold handleCredentials. cbv zeta.
  cbn [targetSSID targetPass set_targetSSID set_targetPass].
  now rewrite (trim_blank _ B).
Qed.

(** * Further properties of the code *)

(** ** Configuration Store: load, save, patch *)

Lemma loadFields_interval (doc : JsonDoc) (c : Config) :
  UPDATE_INTERVAL (loadFields doc c) =
  match j_int doc with
  | Some v => if validateInterval v then v else 60
  | None => UPDATE_INTERVAL c
  end.
Proof.
  unfold loadFields.
  destruct (j_name doc), (j_id doc), (j_url doc), (j_ntp doc), (j_int doc),
    (j_mode doc), (j_sp1 doc), (j_sp2 doc); reflexivity.
Qed.

Lemma loadFields_mode (doc : JsonDoc) (c : Config) :
  UPDATE_MODE (loadFields doc c) =
  match j_mode doc with
  | Some v => if (v =? 0) || (v =? 1) then v else 0
  | None => UPDATE_MODE c
  end.
Proof.
  unfold loadFields.
  destruct (j_name doc), (j_id doc), (j_url doc), (j_ntp doc), (j_int doc),
    (j_mode doc), (j_sp1 doc), (j_sp2 doc); reflexivity.
Qed.

Lemma loadFields_sp1 (doc : JsonDoc) (c : Config) :
  setPoint1 (loadFields doc c) =
  match j_sp1 doc with
  | Some v => if validateSetpoint v then v else 0%Q
  | None => setPoint1 c
  end.
Proof.
  unfold loadFields.
  destruct (j_name doc), (j_id doc), (j_url doc), (j_ntp doc), (j_int doc),
    (j_mode doc), (j_sp1 doc), (j_sp2 doc); reflexivity.
Qed.

Lemma loadFields_sp2 (doc : JsonDoc) (c : Config) :
  setPoint2 (loadFields doc c) =
  match j_sp2 doc with
  | Some v => if validateSetpoint v then v else 0%Q
  | None => setPoint2 c
  end.
Proof.
  unfold loadFields.
  destruct (j_name doc), (j_id doc), (j_url doc), (j_ntp doc), (j_int doc),
    (j_mode doc), (j_sp1 doc), (j_sp2 doc); reflexivity.
Qed.

Lemma loadFields_valid (doc : JsonDoc) (c : Config) :
  validConfig c -> validConfig (loadFields doc c).
Proof.
  intros (vi & vm & v1 & v2). unfold validConfig.
  rewrite loadFields_interval, loadFields_mode, loadFields_sp1, loadFields_sp2.
  repeat split.
  - destruct (j_int doc) as [v|]; [|exact vi].
    destruct (validateInterval v) eqn:V; [exact V|reflexivity].
  - destruct (j_mode doc) as [v|]; [|exact vm].
    destruct (Z.eqb_spec v 0) as [->|n0]; [now left|].
    destruct (Z.eqb_spec v 1) as [->|n1]; [now right|now left].
  - destruct (j_sp1 doc) as [v|]; [|exact v1].
    destruct (validateSetpoint v) eqn:V; [exact V|reflexivity].
  - destruct (j_sp2 doc) as [v|]; [|exact v2].
    destruct (validateSetpoint v) eqn:V; [exact V|reflexivity].
Qed.

(** X1. Whatever the persisted record holds (nothing, text that does not parse,
    a record with any keys and any values), loading it over a valid
    configuration gives a valid configuration: the interval is within
    [1, 86400], the mode is 0 or 1, the setpoints are within
    [-9999, 9999]. *)
Theorem loadConfig_keeps_valid (s : State) :
  validConfig (cfg s) -> validConfig (cfg (loadConfig s)).
Proof.
  intros V. unfold loadConfig. destruct (nvs_conf s) as [| |doc]; trivial.
  cbn [cfg set_cfg]. now apply loadFields_valid.
Qed.

Lemma loadConfig_keeps_valid_witness :
  validConfig
    (cfg (loadConfig
            (set_nvs_conf (Doc (intervalPatch 999999)) (bootState quietEnv [])))).
Proof.
  apply loadConfig_keeps_valid. unfold validConfig.
  repeat split; try reflexivity. now left.
Defined.

Lemma loadFields_configDoc (c afterBoot : Config) :
  validConfig c -> loadFields (configDoc c) afterBoot = c.
Proof.
  intros (vi & vm & v1 & v2). destruct c as [n i u t int m a b].
  cbn [UPDATE_INTERVAL UPDATE_MODE setPoint1 setPoint2] in *.
  unfold loadFields, configDoc. cbn.
  rewrite vi, v1, v2. destruct vm as [-> | ->]; reflexivity.
Qed.

(** X2. What [saveConfig] wrote loads back, over whatever the globals hold after
    a restart, as the configuration that was saved, provided that one was
    valid. *)
Theorem saveConfig_loadConfig_roundtrip (s : State) (afterBoot : Config) :
  validConfig (cfg s) ->
  cfg (loadConfig (set_cfg afterBoot (saveConfig s))) = cfg s.
Proof.
  intros V. unfold loadConfig, saveConfig.
  cbn [nvs_conf set_cfg set_nvs_conf cfg]. now apply loadFields_configDoc.
Qed.

Lemma saveConfig_loadConfig_roundtrip_witness :
  let s := set_cfg (with_interval 300 (with_mode 1 bootConfig))
                   (bootState quietEnv []) in
  cfg (loadConfig (set_cfg bootConfig (saveConfig s))) = cfg s.
Proof.
  apply saveConfig_loadConfig_roundtrip. unfold validConfig.
  repeat split; try reflexivity. now right.
Defined.

(** X3. Loading twice, as [setup] does, gives what loading once gives. *)
Theorem loadConfig_idempotent (s : State) :
  loadConfig (loadConfig s) = loadConfig s.
Proof.
  unfold loadConfig. destruct (nvs_conf s) as [| |doc] eqn:N;
    cbn [nvs_conf set_cfg]; rewrite ?N; try reflexivity.
  cbn [cfg set_cfg]. unfold set_cfg. cbn. f_equal.
  unfold loadFields.
  destruct (j_name doc), (j_id doc), (j_url doc), (j_ntp doc), (j_int doc),
    (j_mode doc), (j_sp1 doc), (j_sp2 doc); reflexivity.
Qed.

(** ** What the loop and the message handler leave alone *)

Lemma loopFixed_tick (x : State) :
  loopFixed (tick x) = loopFixed x.
Proof. reflexivity. Qed.

Lemma loopFixed_emit (e : Event) (x : State) :
  loopFixed (emit e x) = loopFixed x.
Proof. reflexivity. Qed.

Lemma loopFixed_set_triggerWifiScan (v : bool) (x : State) :
  loopFixed (set_triggerWifiScan v x) = loopFixed x.
Proof. reflexivity. Qed.

Lemma loopFixed_set_wifiConfigReceived (v : bool) (x : State) :
  loopFixed (set_wifiConfigReceived v x) = loopFixed x.
Proof. reflexivity. Qed.

Lemma loopFixed_set_watchdogPaused (v : bool) (x : State) :
  loopFixed (set_watchdogPaused v x) = loopFixed x.
Proof. reflexivity. Qed.

Lemma loopFixed_set_forceHttpNow (v : bool) (x : State) :
  loopFixed (set_forceHttpNow v x) = loopFixed x.
Proof. reflexivity. Qed.

Lemma loopFixed_set_lastFileCheckTime (v : Z) (x : State) :
  loopFixed (set_lastFileCheckTime v x) = loopFixed x.
Proof. reflexivity. Qed.

Lemma loopFixed_set_lastHttpTime (v : Z) (x : State) :
  loopFixed (set_lastHttpTime v x) = loopFixed x.
Proof. reflexivity. Qed.

Lemma loopFixed_set_lastWatchdogTime (v : Z) (x : State) :
  loopFixed (set_lastWatchdogTime v x) = loopFixed x.
Proof. reflexivity. Qed.

Lemma loopFixed_set_lastWifiCheck (v : Z) (x : State) :
  loopFixed (set_lastWifiCheck v x) = loopFixed x.
Proof. reflexivity. Qed.

Lemma loopFixed_set_lastClockMinute (v : Z) (x : State) :
  loopFixed (set_lastClockMinute v x) = loopFixed x.
Proof. reflexivity. Qed.

Lemma loopFixed_set_nvs_nets (v : list Credential) (x : State) :
  loopFixed (set_nvs_nets v x) = loopFixed x.
Proof. reflexivity. Qed.

Lemma loopFixed_set_sd_files (v : list SdFile) (x : State) :
  loopFixed (set_sd_files v x) = loopFixed x.
Proof. reflexivity. Qed.

Lemma loopFixed_safeNotify (message : Payload) (x : State) :
  loopFixed (safeNotify message x) = loopFixed x.
Proof. unfold safeNotify. now destruct (_ && _). Qed.

Lemma OnlyIO_loopFixed (s s' : State) : OnlyIO s s' -> loopFixed s' = loopFixed s.
Proof. intros [q evs files none]. reflexivity. Qed.

Lemma loopFixed_watchdogStep (x : State) :
  loopFixed (watchdogStep x) = loopFixed x.
Proof. apply OnlyIO_loopFixed, OnlyIO_watchdogStep. Qed.

Lemma loopFixed_processOfflineFiles (x : State) :
  loopFixed (processOfflineFiles x) = loopFixed x.
Proof. apply OnlyIO_loopFixed, OnlyIO_processOfflineFiles. Qed.

Lemma loopFixed_deliverReading (timeStr sensorData : string) (x : State) :
  loopFixed (deliverReading timeStr sensorData x) = loopFixed x.
Proof. apply OnlyIO_loopFixed, OnlyIO_deliverReading. Qed.

Lemma loopFixed_awaitLink (budget : nat) (x : State) :
  loopFixed (awaitLink budget x) = loopFixed x.
Proof. apply OnlyIO_loopFixed, OnlyIO_awaitLink. Qed.

Lemma loopFixed_tryAutoConnect (x : State) :
  loopFixed (snd (tryAutoConnect x)) = loopFixed x.
Proof. apply OnlyIO_loopFixed, OnlyIO_tryAutoConnect. Qed.

Lemma loopFixed_saveDataOffline (timestamp sensorData : string) (x : State) :
  loopFixed (snd (saveDataOffline timestamp sensorData x)) = loopFixed x.
Proof. apply OnlyIO_loopFixed, OnlyIO_saveDataOffline. Qed.

Create Rewrite HintDb loopFixed.

#[local] Hint Rewrite loopFixed_tick loopFixed_emit
  loopFixed_set_triggerWifiScan loopFixed_set_wifiConfigReceived
  loopFixed_set_watchdogPaused loopFixed_set_forceHttpNow
  loopFixed_set_lastFileCheckTime loopFixed_set_lastHttpTime
  loopFixed_set_lastWatchdogTime loopFixed_set_lastWifiCheck
  loopFixed_set_lastClockMinute loopFixed_set_nvs_nets loopFixed_set_sd_files
  loopFixed_safeNotify loopFixed_watchdogStep loopFixed_processOfflineFiles
  loopFixed_deliverReading loopFixed_awaitLink loopFixed_tryAutoConnect
  loopFixed_saveDataOffline : loopFixed.

Lemma writeFixed_tick (x : State) :
  writeFixed (tick x) = writeFixed x.
Proof. reflexivity. Qed.

Lemma writeFixed_emit (e : Event) (x : State) :
  writeFixed (emit e x) = writeFixed x.
Proof. reflexivity. Qed.

Lemma writeFixed_set_cfg (v : Config) (x : State) :
  writeFixed (set_cfg v x) = writeFixed x.
Proof. reflexivity. Qed.

Lemma writeFixed_set_triggerWifiScan (v : bool) (x : State) :
  writeFixed (set_triggerWifiScan v x) = writeFixed x.
Proof. reflexivity. Qed.

Lemma writeFixed_set_wifiConfigReceived (v : bool) (x : State) :
  writeFixed (set_wifiConfigReceived v x) = writeFixed x.
Proof. reflexivity. Qed.

Lemma writeFixed_set_forceHttpNow (v : bool) (x : State) :
  writeFixed (set_forceHttpNow v x) = writeFixed x.
Proof. reflexivity. Qed.

Lemma writeFixed_set_lastWatchdogTime (v : Z) (x : State) :
  writeFixed (set_lastWatchdogTime v x) = writeFixed x.
Proof. reflexivity. Qed.

Lemma writeFixed_set_targetSSID (v : string) (x : State) :
  writeFixed (set_targetSSID v x) = writeFixed x.
Proof. reflexivity. Qed.

Lemma writeFixed_set_targetPass (v : string) (x : State) :
  writeFixed (set_targetPass v x) = writeFixed x.
Proof. reflexivity. Qed.

Lemma writeFixed_set_nvs_conf (v : Stored) (x : State) :
  writeFixed (set_nvs_conf v x) = writeFixed x.
Proof. reflexivity. Qed.

Lemma writeFixed_set_nvs_nets (v : list Credential) (x : State) :
  writeFixed (set_nvs_nets v x) = writeFixed x.
Proof. reflexivity. Qed.

Lemma writeFixed_safeNotify (message : Payload) (x : State) :
  writeFixed (safeNotify message x) = writeFixed x.
Proof. unfold safeNotify. now destruct (_ && _). Qed.

Create Rewrite HintDb writeFixed.

#[local] Hint Rewrite writeFixed_tick writeFixed_emit writeFixed_set_cfg
  writeFixed_set_triggerWifiScan writeFixed_set_wifiConfigReceived
  writeFixed_set_forceHttpNow writeFixed_set_lastWatchdogTime
  writeFixed_set_targetSSID writeFixed_set_targetPass writeFixed_set_nvs_conf
  writeFixed_set_nvs_nets writeFixed_safeNotify : writeFixed.

Lemma loopFixed_drainStep (x : State) : loopFixed (drainStep x) = loopFixed x.
Proof.
  unfold drainStep. cbv zeta.
  destruct (wifiConnected x); [|apply loopFixed_tick].
  destruct (_ >? _); autorewrite with loopFixed; reflexivity.
Qed.

Lemma loopFixed_modeTrigger (x : State) :
  loopFixed (snd (modeTrigger x)) = loopFixed x.
Proof.
  unfold modeTrigger. cbv zeta.
  destruct (UPDATE_MODE (cfg x) =? 0); [destruct (_ >? _); reflexivity|].
  destruct (UPDATE_MODE (cfg x) =? 1); [|reflexivity].
  destruct (localtime_at _ _) as [m|]; [destruct (_ && _)|]; reflexivity.
Qed.

Lemma loopFixed_shouldTrigger (x : State) :
  loopFixed (snd (shouldTrigger x)) = loopFixed x.
Proof.
  unfold shouldTrigger. rewrite <- (loopFixed_modeTrigger x).
  destruct (modeTrigger x) as [trigger y]. cbn [snd].
  destruct (forceHttpNow y); reflexivity.
Qed.

Lemma loopFixed_sendSensorData (x : State) :
  loopFixed (sendSensorData x) = loopFixed x.
Proof.
  unfold sendSensorData. cbv zeta.
  destruct (String.length _ =? 0)%nat; autorewrite with loopFixed; reflexivity.
Qed.

Lemma loopFixed_telemetryStep (x : State) :
  loopFixed (telemetryStep x) = loopFixed x.
Proof.
  unfold telemetryStep. rewrite <- (loopFixed_shouldTrigger x).
  destruct (shouldTrigger x) as [trigger y]. cbn [snd].
  destruct trigger; [apply loopFixed_sendSensorData|reflexivity].
Qed.

Lemma loopFixed_scanStep (x : State) : loopFixed (scanStep x) = loopFixed x.
Proof.
  unfold scanStep. cbv zeta. destruct (triggerWifiScan x); [|reflexivity].
  autorewrite with loopFixed. reflexivity.
Qed.

Lemma loopFixed_provisionResult (up : bool) (x : State) :
  loopFixed (provisionResult up x) = loopFixed x.
Proof.
  unfold provisionResult, saveNetworkToMemory, setupTime. cbv zeta.
  destruct up; autorewrite with loopFixed; reflexivity.
Qed.

Lemma loopFixed_provisionStep (x : State) :
  loopFixed (provisionStep x) = loopFixed x.
Proof.
  unfold provisionStep. cbv zeta. destruct (wifiConfigReceived x); [|reflexivity].
  rewrite loopFixed_tick, loopFixed_set_lastWatchdogTime,
    loopFixed_set_watchdogPaused, loopFixed_provisionResult.
  autorewrite with loopFixed. reflexivity.
Qed.

Lemma loopFixed_reconnectStep (x : State) :
  loopFixed (reconnectStep x) = loopFixed x.
Proof.
  unfold reconnectStep. cbv zeta.
  destruct (negb (wifiConnected x) && _); [|apply loopFixed_tick].
  destruct (_ >? _); autorewrite with loopFixed; reflexivity.
Qed.

Lemma loopFixed_loop (s : State) : loopFixed (loop s) = loopFixed s.
Proof.
  unfold loop.
  now rewrite loopFixed_reconnectStep, loopFixed_provisionStep,
    loopFixed_scanStep, loopFixed_telemetryStep, loopFixed_drainStep,
    loopFixed_watchdogStep.
Qed.

(** X4. A loop iteration, whatever it does, leaves the configuration and its
    persisted record, the card-ready and session flags and the provisioning
    target as they were. *)
Theorem loop_leaves_fixed (s : State) : loopFixed (loop s) = loopFixed s.
Proof.
  unfold loop.
  now rewrite loopFixed_reconnectStep, loopFixed_provisionStep,
    loopFixed_scanStep, loopFixed_telemetryStep, loopFixed_drainStep,
    loopFixed_watchdogStep.
Qed.

Lemma writeFixed_handleAction (act : string) (x : State) :
  writeFixed (handleAction act x) = writeFixed x.
Proof.
  unfold handleAction, clearSavedWifi. cbv zeta.
  destruct (String.eqb act "scan"); [reflexivity|].
  destruct (String.eqb act "get_conf"); [apply writeFixed_safeNotify|].
  destruct (String.eqb act "get_status").
  { destruct (wifiConnected x); autorewrite with writeFixed; reflexivity. }
  destruct (String.eqb act "forget_wifi"); [|reflexivity].
  rewrite writeFixed_emit.
  destruct (deviceConnected _); autorewrite with writeFixed; reflexivity.
Qed.

Lemma writeFixed_patchString (field : option string)
    (f : string -> Config -> Config) (st : bool * State) :
  writeFixed (snd (patchString field f st)) = writeFixed (snd st).
Proof. destruct st as [changed x], field; reflexivity. Qed.

Lemma writeFixed_patchInterval (doc : JsonDoc) (st : bool * State) :
  writeFixed (snd (patchInterval doc st)) = writeFixed (snd st).
Proof.
  destruct st as [changed x]. unfold patchInterval.
  destruct (j_int doc) as [v|]; [|reflexivity].
  destruct (validateInterval v); [reflexivity|apply writeFixed_safeNotify].
Qed.

Lemma writeFixed_patchMode (doc : JsonDoc) (st : bool * State) :
  writeFixed (snd (patchMode doc st)) = writeFixed (snd st).
Proof.
  destruct st as [changed x]. unfold patchMode.
  destruct (j_mode doc) as [v|]; [|reflexivity].
  destruct ((v =? 0) || (v =? 1)); reflexivity.
Qed.

Lemma writeFixed_patchSetpoint (field : option Q) (f : Q -> Config -> Config)
    (reg : Z) (error : string) (st : bool * State) :
  writeFixed (snd (patchSetpoint field f reg error st)) = writeFixed (snd st).
Proof.
  destruct st as [changed x]. unfold patchSetpoint.
  destruct field as [v|]; [|reflexivity].
  destruct (validateSetpoint v); [reflexivity|apply writeFixed_safeNotify].
Qed.

Lemma writeFixed_patchCommit (nameChanged : bool) (x : State) :
  writeFixed (patchCommit nameChanged x) = writeFixed x.
Proof.
  unfold patchCommit, saveConfig. cbv zeta.
  destruct nameChanged; rewrite ?writeFixed_emit;
    (destruct (deviceConnected _); autorewrite with writeFixed; reflexivity).
Qed.

Lemma writeFixed_handlePatch (doc : JsonDoc) (x : State) :
  writeFixed (handlePatch doc x) = writeFixed x.
Proof.
  rewrite handlePatch_unfold. cbv zeta.
  assert (E : writeFixed
                (snd (patchTail doc (patchInterval doc (patchHead doc x))))
              = writeFixed x).
  { unfold patchTail, patchHead.
    now rewrite !writeFixed_patchSetpoint, writeFixed_patchMode,
      writeFixed_patchInterval, !writeFixed_patchString. }
  destruct (fst _); [now rewrite writeFixed_patchCommit|exact E].
Qed.

Lemma writeFixed_handleCredentials (ssid : option string) (doc : JsonDoc)
    (x : State) :
  writeFixed (handleCredentials ssid doc x) = writeFixed x.
Proof.
  unfold handleCredentials. cbv zeta. destruct (0 <? _)%nat; reflexivity.
Qed.

Lemma writeFixed_onWrite (value : Inbound) (s : State) :
  writeFixed (onWrite value s) = writeFixed s.
Proof.
  destruct value as [| |doc]; [reflexivity|reflexivity|].
  unfold onWrite. set (x := tick (set_lastWatchdogTime (millis s) s)).
  change (writeFixed s) with (writeFixed x).
  destruct (j_action doc) as [[act|]|];
    [apply writeFixed_handleAction|reflexivity|].
  destruct (isConfigPatch doc); [apply writeFixed_handlePatch|].
  destruct (j_ssid doc) as [ssid|]; [|reflexivity].
  apply writeFixed_handleCredentials.
Qed.

(** X5. An inbound message that does not bring the firmware down (it is
    neither a patch that carries a name, after which the device restarts,
    nor a message whose action is not a string, on which the handler
    crashes) leaves the card and the queue on it, the session and paused
    flags and the timers of the loop as they were. *)
Theorem onWrite_leaves_fixed (value : Inbound) (s : State) :
  goesDown value = false ->
  writeFixed (onWrite value s) = writeFixed s.
Proof.
  intros up. destruct value as [| |doc]; [reflexivity|reflexivity|].
  unfold onWrite. set (x := tick (set_lastWatchdogTime (millis s) s)).
  change (writeFixed s) with (writeFixed x). cbn [goesDown] in up.
  destruct (j_action doc) as [[act|]|];
    [apply writeFixed_handleAction|discriminate up|].
  destruct (isConfigPatch doc); [apply writeFixed_handlePatch|].
  destruct (j_ssid doc) as [ssid|]; [|reflexivity].
  apply writeFixed_handleCredentials.
Qed.

Lemma onWrite_leaves_fixed_witness :
  writeFixed (onWrite (Json (actionDoc "forget_wifi")) silentState)
  = writeFixed silentState.
Proof. apply onWrite_leaves_fixed. reflexivity. Defined.

(** ** Configuration patches *)

Lemma conf_safeNotify (message : Payload) (x : State) :
  conf (safeNotify message x) = conf x.
Proof. unfold safeNotify. now destruct (_ && _). Qed.

Lemma conf_handleAction (act : string) (x : State) :
  conf (handleAction act x) = conf x.
Proof.
  unfold handleAction, clearSavedWifi. cbv zeta.
  destruct (String.eqb act "scan"); [reflexivity|].
  destruct (String.eqb act "get_conf"); [apply conf_safeNotify|].
  destruct (String.eqb act "get_status").
  { destruct (wifiConnected x); now rewrite conf_safeNotify. }
  destruct (String.eqb act "forget_wifi"); [|reflexivity].
  destruct (deviceConnected _); [|reflexivity].
  change (conf (safeNotify (Text "Wi-Fi credentials erased.")
                  (emit WifiErase (set_nvs_nets [] x))) = conf x).
  now rewrite conf_safeNotify.
Qed.

Lemma conf_handleCredentials (ssid : option string) (doc : JsonDoc)
    (x : State) :
  conf (handleCredentials ssid doc x) = conf x.
Proof.
  unfold handleCredentials. cbv zeta. destruct (0 <? _)%nat; reflexivity.
Qed.

(** A step of a patch that leaves the flag [changed] clear has left the
    configuration alone. *)
Lemma quiet_patchString (field : option string)
    (f : string -> Config -> Config) (st : bool * State) :
  fst (patchString field f st) = false ->
  fst st = false /\ conf (snd (patchString field f st)) = conf (snd st).
Proof.
  destruct st as [changed x]. destruct field; cbn; [discriminate|now split].
Qed.

Lemma quiet_patchInterval (doc : JsonDoc) (st : bool * State) :
  fst (patchInterval doc st) = false ->
  fst st = false /\ conf (snd (patchInterval doc st)) = conf (snd st).
Proof.
  destruct st as [changed x]. unfold patchInterval.
  destruct (j_int doc) as [v|]; [|now split].
  destruct (validateInterval v); cbn [fst snd]; [discriminate|].
  intros ->. split; [reflexivity|apply conf_safeNotify].
Qed.

Lemma quiet_patchMode (doc : JsonDoc) (st : bool * State) :
  fst (patchMode doc st) = false ->
  fst st = false /\ conf (snd (patchMode doc st)) = conf (snd st).
Proof.
  destruct st as [changed x]. unfold patchMode.
  destruct (j_mode doc) as [v|]; [|now split].
  destruct ((v =? 0) || (v =? 1)); cbn [fst snd]; [discriminate|now split].
Qed.

Lemma quiet_patchSetpoint (field : option Q) (f : Q -> Config -> Config)
    (reg : Z) (error : string) (st : bool * State) :
  fst (patchSetpoint field f reg error st) = false ->
  fst st = false /\
  conf (snd (patchSetpoint field f reg error st)) = conf (snd st).
Proof.
  destruct st as [changed x]. unfold patchSetpoint.
  destruct field as [v|]; [|now split].
  destruct (validateSetpoint v); cbn [fst snd]; [discriminate|].
  intros ->. split; [reflexivity|apply conf_safeNotify].
Qed.

Lemma conf_patchCommit (nameChanged : bool) (x : State) :
  conf (patchCommit nameChanged x) = (cfg x, Doc (configDoc (cfg x)), true).
Proof.
  unfold patchCommit, saveConfig, safeNotify. cbv zeta.
  destruct nameChanged;
    cbn [deviceConnected notifyReady set_forceHttpNow set_nvs_conf];
    destruct (deviceConnected x); [destruct (notifyReady x)| |
                                   destruct (notifyReady x)|]; reflexivity.
Qed.

(** What a patch comes to: either something changed, and then the persisted
    record is the configuration now in memory and a fire is forced; or
    nothing changed, and then configuration, persisted record and force flag
    are as they were. *)
Lemma handlePatch_outcome (doc : JsonDoc) (x : State) :
  (synced (handlePatch doc x) /\ forceHttpNow (handlePatch doc x) = true) \/
  conf (handlePatch doc x) = conf x.
Proof.
  rewrite handlePatch_unfold. cbv zeta.
  destruct (fst (patchTail doc (patchInterval doc (patchHead doc x)))) eqn:C.
  - left. pose proof (conf_patchCommit (isKey (j_name doc))
                        (snd (patchTail doc
                                (patchInterval doc (patchHead doc x))))) as E.
    unfold conf in E. injection E as Ec En Ef.
    unfold synced. split; [congruence|exact Ef].
  - right. unfold patchTail, patchHead in *.
    destruct (quiet_patchSetpoint _ _ _ _ _ C) as [C1 E1].
    destruct (quiet_patchSetpoint _ _ _ _ _ C1) as [C2 E2].
    destruct (quiet_patchMode _ _ C2) as [C3 E3].
    destruct (quiet_patchInterval _ _ C3) as [C4 E4].
    destruct (quiet_patchString _ _ _ C4) as [C5 E5].
    destruct (quiet_patchString _ _ _ C5) as [C6 E6].
    destruct (quiet_patchString _ _ _ C6) as [C7 E7].
    destruct (quiet_patchString _ _ _ C7) as [_ E8].
    rewrite E1, E2, E3, E4, E5, E6, E7, E8. reflexivity.
Qed.

Lemma valid_patchString (field : option string)
    (f : string -> Config -> Config) (st : bool * State) :
  (forall v c, validConfig c -> validConfig (f v c)) ->
  validConfig (cfg (snd st)) ->
  validConfig (cfg (snd (patchString field f st))).
Proof.
  intros keep V. destruct st as [changed x], field as [v|]; cbn in *;
    [now apply keep|exact V].
Qed.

Lemma valid_safeNotify (message : Payload) (x : State) :
  validConfig (cfg x) -> validConfig (cfg (safeNotify message x)).
Proof. unfold safeNotify. now destruct (_ && _). Qed.

Lemma valid_patchInterval (doc : JsonDoc) (st : bool * State) :
  validConfig (cfg (snd st)) ->
  validConfig (cfg (snd (patchInterval doc st))).
Proof.
  destruct st as [changed x]. unfold patchInterval. cbn [snd].
  intros V. destruct (j_int doc) as [v|]; [|exact V].
  destruct (validateInterval v) eqn:I; cbn [snd];
    [|now apply valid_safeNotify].
  destruct V as (_ & vm & v1 & v2). now repeat split.
Qed.

Lemma valid_patchMode (doc : JsonDoc) (st : bool * State) :
  validConfig (cfg (snd st)) -> validConfig (cfg (snd (patchMode doc st))).
Proof.
  destruct st as [changed x]. unfold patchMode. cbn [snd].
  intros V. destruct (j_mode doc) as [v|]; [|exact V].
  destruct (Z.eqb_spec v 0) as [->|n0]; cbn [orb snd].
  { destruct V as (vi & _ & v1 & v2). repeat split; trivial. now left. }
  destruct (Z.eqb_spec v 1) as [->|n1]; cbn [snd]; [|exact V].
  destruct V as (vi & _ & v1 & v2). repeat split; trivial. now right.
Qed.

Lemma valid_patchSetpoint1 (doc : JsonDoc) (st : bool * State) :
  validConfig (cfg (snd st)) ->
  validConfig
    (cfg (snd (patchSetpoint (j_sp1 doc) with_sp1 SET_POINT_1
                 "Error: Invalid setpoint 1" st))).
Proof.
  destruct st as [changed x]. unfold patchSetpoint. cbn [snd].
  intros V. destruct (j_sp1 doc) as [v|]; [|exact V].
  destruct (validateSetpoint v) eqn:S; cbn [snd];
    [|now apply valid_safeNotify].
  destruct V as (vi & vm & _ & v2). now repeat split.
Qed.

Lemma valid_patchSetpoint2 (doc : JsonDoc) (st : bool * State) :
  validConfig (cfg (snd st)) ->
  validConfig
    (cfg (snd (patchSetpoint (j_sp2 doc) with_sp2 SET_POINT_2
                 "Error: Invalid setpoint 2" st))).
Proof.
  destruct st as [changed x]. unfold patchSetpoint. cbn [snd].
  intros V. destruct (j_sp2 doc) as [v|]; [|exact V].
  destruct (validateSetpoint v) eqn:S; cbn [snd];
    [|now apply valid_safeNotify].
  destruct V as (vi & vm & v1 & _). now repeat split.
Qed.

Lemma valid_handlePatch (doc : JsonDoc) (x : State) :
  validConfig (cfg x) -> validConfig (cfg (handlePatch doc x)).
Proof.
  intros V. rewrite handlePatch_unfold. cbv zeta.
  assert (T : validConfig
                (cfg (snd (patchTail doc
                             (patchInterval doc (patchHead doc x)))))).
  { unfold patchTail, patchHead.
    apply valid_patchSetpoint2, valid_patchSetpoint1, valid_patchMode,
      valid_patchInterval.
    repeat (apply valid_patchString; [intros v c W; exact W|]). exact V. }
  destruct (fst _); [|exact T].
  pose proof (conf_patchCommit (isKey (j_name doc))
                (snd (patchTail doc (patchInterval doc (patchHead doc x)))))
    as E.
  unfold conf in E. injection E as Ec _ _. now rewrite Ec.
Qed.

Lemma conf_onWrite_other (value : Inbound) (s : State) :
  (forall doc, value = Json doc ->
               j_action doc <> None \/ isConfigPatch doc = false) ->
  conf (onWrite value s) = conf s.
Proof.
  intros other. destruct value as [| |doc]; [reflexivity|reflexivity|].
  unfold onWrite. set (x := tick (set_lastWatchdogTime (millis s) s)).
  change (conf s) with (conf x).
  destruct (j_action doc) as [[act|]|] eqn:A;
    [apply conf_handleAction|reflexivity|].
  destruct (other doc eq_refl) as [H|H]; [congruence|]. rewrite H.
  destruct (j_ssid doc) as [ssid|]; [|reflexivity].
  apply conf_handleCredentials.
Qed.

Lemma valid_step (e : Step) (s : State) :
  validConfig (cfg s) -> validConfig (cfg (step e s)).
Proof.
  intros V. destruct e as [| | |value]; cbn [step].
  - pose proof (loopFixed_loop s) as E. unfold loopFixed in E.
    injection E as Ec _ _ _ _ _ _ _. now rewrite Ec.
  - exact V.
  - exact V.
  - destruct value as [| |doc]; [exact V|exact V|].
    unfold onWrite. set (x := tick (set_lastWatchdogTime (millis s) s)).
    assert (Vx : validConfig (cfg x)) by exact V.
    destruct (j_action doc) as [[act|]|]; [|exact Vx|].
    { pose proof (conf_handleAction act x) as E. unfold conf in E.
      injection E as Ec _ _. now rewrite Ec. }
    destruct (isConfigPatch doc); [now apply valid_handlePatch|].
    destruct (j_ssid doc) as [ssid|]; [|exact Vx].
    pose proof (conf_handleCredentials ssid doc x) as E. unfold conf in E.
    injection E as Ec _ _. now rewrite Ec.
Qed.

(** X6. Whatever sequence of loop iterations, session events and inbound
    messages the firmware goes through, a valid configuration stays valid:
    the interval within [1, 86400], the mode 0 or 1, the setpoints within
    [-9999, 9999]. *)
Theorem run_keeps_config_valid (steps : list Step) :
  forall s, validConfig (cfg s) -> validConfig (cfg (run steps s)).
Proof.
  induction steps as [|e steps IH]; intros s V; [exact V|].
  change (run (e :: steps) s) with (run steps (step e s)).
  apply IH. now apply valid_step.
Qed.


Lemma run_keeps_config_valid_witness :
  validConfig
    (cfg (run [Connect; Write (Json (intervalPatch 999999)); Loop;
               Write (Json (intervalPatch 120)); Loop]
              (bootState quietEnv []))).
Proof.
  apply run_keeps_config_valid. unfold validConfig.
  repeat split; try reflexivity. now left.
Defined.

Lemma synced_step (e : Step) (s : State) :
  synced s -> synced (step e s).
Proof.
  intros S. unfold synced in *. destruct e as [| | |value]; cbn [step].
  - pose proof (loopFixed_loop s) as E. unfold loopFixed in E.
    injection E as Ec En _ _ _ _ _ _. now rewrite Ec, En.
  - exact S.
  - exact S.
  - destruct value as [| |doc]; [exact S|exact S|].
    unfold onWrite. set (x := tick (set_lastWatchdogTime (millis s) s)).
    assert (Sx : nvs_conf x = Doc (configDoc (cfg x))) by exact S.
    destruct (j_action doc) as [[act|]|]; [|exact Sx|].
    { pose proof (conf_handleAction act x) as E. unfold conf in E.
      injection E as Ec En _. now rewrite Ec, En. }
    destruct (isConfigPatch doc).
    { destruct (handlePatch_outcome doc x) as [[Sy _]|E]; [exact Sy|].
      unfold conf in E. injection E as Ec En _. now rewrite Ec, En. }
    destruct (j_ssid doc) as [ssid|]; [|exact Sx].
    pose proof (conf_handleCredentials ssid doc x) as E. unfold conf in E.
    injection E as Ec En _. now rewrite Ec, En.
Qed.

(** X7. Once the persisted record is what [saveConfig] would write, it stays
    so through every loop iteration, session event and inbound message: no
    accepted change of the configuration is left unpersisted. *)
Theorem run_keeps_synced (steps : list Step) :
  forall s, synced s -> synced (run steps s).
Proof.
  induction steps as [|e steps IH]; intros s S; [exact S|].
  change (run (e :: steps) s) with (run steps (step e s)).
  apply IH. now apply synced_step.
Qed.


Lemma run_keeps_synced_witness :
  synced (run [Connect; Write (Json (intervalPatch 120)); Loop]
              (saveConfig (bootState quietEnv []))).
Proof. apply run_keeps_synced. reflexivity. Defined.

(** X8. A patch that carries only a mode other than 0 and 1 is dropped without
    a word: but for the watchdog timestamp the state is as it was, so no
    error is pushed (as one is for an interval or a setpoint), nothing is
    persisted and no fire is forced. *)
Theorem invalid_mode_ignored_silently (v : Z) (s : State) :
  v <> 0 -> v <> 1 ->
  onWrite (Json (modePatch v)) s = tick (set_lastWatchdogTime (millis s) s).
Proof.
  intros n0 n1. unfold onWrite, modePatch. cbn [j_action isConfigPatch isKey
    j_name j_id j_url j_ntp j_int j_mode j_sp1 j_sp2 orb].
  unfold handlePatch, patchString, patchInterval, patchMode, patchSetpoint.
  cbn [j_name j_id j_url j_ntp j_int j_mode j_sp1 j_sp2 isKey].
  apply Z.eqb_neq in n0, n1. now rewrite n0, n1.
Qed.

Lemma invalid_mode_ignored_silently_witness :
  let s := pairedState quietEnv [] in
  onWrite (Json (modePatch 2)) s = tick (set_lastWatchdogTime (millis s) s).
Proof. apply invalid_mode_ignored_silently; discriminate. Defined.

(** ** What is added to the trace *)

Section AddsFacts.

Variable P : Event -> bool.

Lemma Adds_refl (x : State) : Adds P x x.
Proof. now exists []. Qed.

Lemma Adds_trans (x y z : State) : Adds P x y -> Adds P y z -> Adds P x z.
Proof.
  intros (e1 & T1 & F1) (e2 & T2 & F2). exists (e2 ++ e1)%list. split.
  - now rewrite T2, T1, app_assoc.
  - now rewrite forallb_app, F1, F2.
Qed.

Lemma Adds_tick (x : State) : Adds P x (tick x).
Proof. now exists []. Qed.

Lemma Adds_emit (e : Event) (x : State) : P e = true -> Adds P x (emit e x).
Proof. intros H. exists [e]. split; [reflexivity|]. cbn. now rewrite H. Qed.

Lemma Adds_set_cfg (v : Config) (x : State) : Adds P x (set_cfg v x).
Proof. now exists []. Qed.

Lemma Adds_set_deviceConnected (v : bool) (x : State) : Adds P x (set_deviceConnected v x).
Proof. now exists []. Qed.

Lemma Adds_set_triggerWifiScan (v : bool) (x : State) : Adds P x (set_triggerWifiScan v x).
Proof. now exists []. Qed.

Lemma Adds_set_wifiConfigReceived (v : bool) (x : State) : Adds P x (set_wifiConfigReceived v x).
Proof. now exists []. Qed.

Lemma Adds_set_watchdogPaused (v : bool) (x : State) : Adds P x (set_watchdogPaused v x).
Proof. now exists []. Qed.

Lemma Adds_set_forceHttpNow (v : bool) (x : State) : Adds P x (set_forceHttpNow v x).
Proof. now exists []. Qed.

Lemma Adds_set_lastFileCheckTime (v : Z) (x : State) : Adds P x (set_lastFileCheckTime v x).
Proof. now exists []. Qed.

Lemma Adds_set_lastHttpTime (v : Z) (x : State) : Adds P x (set_lastHttpTime v x).
Proof. now exists []. Qed.

Lemma Adds_set_lastWatchdogTime (v : Z) (x : State) : Adds P x (set_lastWatchdogTime v x).
Proof. now exists []. Qed.

Lemma Adds_set_lastWifiCheck (v : Z) (x : State) : Adds P x (set_lastWifiCheck v x).
Proof. now exists []. Qed.

Lemma Adds_set_lastClockMinute (v : Z) (x : State) : Adds P x (set_lastClockMinute v x).
Proof. now exists []. Qed.

Lemma Adds_set_targetSSID (v : string) (x : State) : Adds P x (set_targetSSID v x).
Proof. now exists []. Qed.

Lemma Adds_set_targetPass (v : string) (x : State) : Adds P x (set_targetPass v x).
Proof. now exists []. Qed.

Lemma Adds_set_nvs_conf (v : Stored) (x : State) : Adds P x (set_nvs_conf v x).
Proof. now exists []. Qed.

Lemma Adds_set_nvs_nets (v : list Credential) (x : State) : Adds P x (set_nvs_nets v x).
Proof. now exists []. Qed.

Lemma Adds_set_sd_files (v : list SdFile) (x : State) : Adds P x (set_sd_files v x).
Proof. now exists []. Qed.

(** A notification is pushed only over a session. *)
Lemma Adds_safeNotify (message : Payload) (x : State) :
  deviceConnected x = false \/ P (Notify message) = true ->
  Adds P x (safeNotify message x).
Proof.
  intros H. unfold safeNotify.
  destruct (deviceConnected x) eqn:D; cbn [andb]; [|apply Adds_refl].
  destruct (notifyReady x); [|apply Adds_refl].
  destruct H as [H|H]; [discriminate|now apply Adds_emit].
Qed.

Lemma Adds_OnlyIO_quiet (x y : State) :
  trace y = trace x -> Adds P x y.
Proof. intros E. exists []. now split. Qed.

End AddsFacts.

(** Peels the outermost assignment, clock reading or event off the state
    on the right. *)
Ltac adds_peel :=
  lazymatch goal with
  | |- Adds _ _ (tick _) => eapply Adds_trans; [|apply Adds_tick]
  | |- Adds _ _ (emit _ _) =>
      eapply Adds_trans; [|apply Adds_emit; solve [auto]]
  | |- Adds _ _ (set_cfg _ _) => eapply Adds_trans; [|apply Adds_set_cfg]
  | |- Adds _ _ (set_deviceConnected _ _) => eapply Adds_trans; [|apply Adds_set_deviceConnected]
  | |- Adds _ _ (set_triggerWifiScan _ _) => eapply Adds_trans; [|apply Adds_set_triggerWifiScan]
  | |- Adds _ _ (set_wifiConfigReceived _ _) => eapply Adds_trans; [|apply Adds_set_wifiConfigReceived]
  | |- Adds _ _ (set_watchdogPaused _ _) => eapply Adds_trans; [|apply Adds_set_watchdogPaused]
  | |- Adds _ _ (set_forceHttpNow _ _) => eapply Adds_trans; [|apply Adds_set_forceHttpNow]
  | |- Adds _ _ (set_lastFileCheckTime _ _) => eapply Adds_trans; [|apply Adds_set_lastFileCheckTime]
  | |- Adds _ _ (set_lastHttpTime _ _) => eapply Adds_trans; [|apply Adds_set_lastHttpTime]
  | |- Adds _ _ (set_lastWatchdogTime _ _) => eapply Adds_trans; [|apply Adds_set_lastWatchdogTime]
  | |- Adds _ _ (set_lastWifiCheck _ _) => eapply Adds_trans; [|apply Adds_set_lastWifiCheck]
  | |- Adds _ _ (set_lastClockMinute _ _) => eapply Adds_trans; [|apply Adds_set_lastClockMinute]
  | |- Adds _ _ (set_targetSSID _ _) => eapply Adds_trans; [|apply Adds_set_targetSSID]
  | |- Adds _ _ (set_targetPass _ _) => eapply Adds_trans; [|apply Adds_set_targetPass]
  | |- Adds _ _ (set_nvs_conf _ _) => eapply Adds_trans; [|apply Adds_set_nvs_conf]
  | |- Adds _ _ (set_nvs_nets _ _) => eapply Adds_trans; [|apply Adds_set_nvs_nets]
  | |- Adds _ _ (set_sd_files _ _) => eapply Adds_trans; [|apply Adds_set_sd_files]
  end.

Ltac adds := repeat adds_peel; try apply Adds_refl.

Lemma connected_of_fixed (y x : State) :
  loopFixed y = loopFixed x -> deviceConnected y = deviceConnected x.
Proof. unfold loopFixed. intros E. now injection E. Qed.

Section CoreTrace.

Variable P : Event -> bool.
Hypothesis okHttp : forall url, P (HttpGet url) = true.
Hypothesis okRemove : forall path, P (SdRemove path) = true.
Hypothesis okRead : P ModbusRead = true.
Hypothesis okBle : P BleDisconnect = true.

Lemma Adds_saveDataOffline (timestamp sensorData : string) (x : State) :
  Adds P x (snd (saveDataOffline timestamp sensorData x)).
Proof.
  unfold saveDataOffline. cbv zeta.
  destruct (sdReady x); cbn [negb snd]; [|adds].
  destruct (sd_open_at _ _ _); cbn [negb snd]; [|adds].
  destruct (_ >? _); cbn [snd]; adds.
Qed.

Lemma Adds_deliverReading (timeStr sensorData : string) (x : State) :
  Adds P x (deliverReading timeStr sensorData x).
Proof.
  rewrite deliverReading_unfold. cbv zeta. destruct (accepted _ _); [adds|].
  eapply Adds_trans; [|apply Adds_saveDataOffline]. adds.
Qed.

Lemma Adds_SD_remove (path : string) (x : State) : Adds P x (SD_remove path x).
Proof. unfold SD_remove. adds. Qed.

Lemma Adds_afterRequest (file : SdFile) (x : State) :
  Adds P x (afterRequest file x).
Proof. unfold afterRequest. adds. Qed.

Lemma Adds_drainLoop (dir : list SdFile) (start : Z) :
  forall processed x, Adds P x (drainLoop dir start processed x).
Proof.
  induction dir as [|file dir IH]; intros processed x.
  - rewrite drainLoop_nil. adds.
  - rewrite drainLoop_cons.
    destruct (processed <? MAX_FILES); [|adds].
    destruct (timedOut start x); [adds|].
    destruct (negb _).
    { eapply Adds_trans; [|apply IH]. adds. }
    destruct (_ <? 0).
    { eapply Adds_trans; [|apply IH].
      eapply Adds_trans; [|apply Adds_SD_remove]. adds. }
    destruct (accepted _ _); [|apply Adds_afterRequest].
    eapply Adds_trans; [|apply IH].
    eapply Adds_trans; [|apply Adds_SD_remove]. apply Adds_afterRequest.
Qed.

Lemma Adds_processOfflineFiles (x : State) : Adds P x (processOfflineFiles x).
Proof.
  unfold processOfflineFiles. cbv zeta.
  destruct (sdReady x); cbn [negb]; [|adds].
  destruct (wifiConnected x); cbn [negb]; [|adds].
  destruct (sd_open_at _ _ _); cbn [negb]; [|adds].
  eapply Adds_trans; [|apply Adds_drainLoop]. adds.
Qed.

Lemma Adds_watchdogStep (x : State) : Adds P x (watchdogStep x).
Proof.
  unfold watchdogStep. cbv zeta.
  destruct (deviceConnected x && negb (watchdogPaused x)); [|adds].
  destruct (_ >? _); adds.
Qed.

Lemma Adds_drainStep (x : State) : Adds P x (drainStep x).
Proof.
  unfold drainStep. cbv zeta.
  destruct (wifiConnected x); [|adds].
  destruct (_ >? _); [|adds].
  do 3 adds_peel.
  eapply Adds_trans; [|apply Adds_processOfflineFiles]. adds.
Qed.

Lemma Adds_modeTrigger (x : State) : Adds P x (snd (modeTrigger x)).
Proof.
  unfold modeTrigger. cbv zeta.
  destruct (UPDATE_MODE (cfg x) =? 0);
    [destruct (_ >? _); cbn [snd]; adds|].
  destruct (UPDATE_MODE (cfg x) =? 1); cbn [snd]; [|adds].
  destruct (localtime_at _ _) as [m|];
    [destruct (_ && _)|]; cbn [snd]; adds.
Qed.

Lemma Adds_shouldTrigger (x : State) : Adds P x (snd (shouldTrigger x)).
Proof.
  unfold shouldTrigger. pose proof (Adds_modeTrigger x) as M.
  destruct (modeTrigger x) as [trigger y]. cbn [snd] in *.
  destruct (forceHttpNow y); cbn [snd]; [|exact M].
  eapply Adds_trans; [exact M|apply Adds_set_forceHttpNow].
Qed.

Lemma Adds_sendSensorData (x : State) : Adds P x (sendSensorData x).
Proof.
  unfold sendSensorData. cbv zeta.
  destruct (String.length _ =? 0)%nat; [adds|].
  eapply Adds_trans; [|apply Adds_deliverReading]. adds.
Qed.

Lemma Adds_telemetryStep (x : State) : Adds P x (telemetryStep x).
Proof.
  unfold telemetryStep. pose proof (Adds_shouldTrigger x) as T.
  destruct (shouldTrigger x) as [trigger y]. cbn [snd] in *.
  destruct trigger; [|exact T].
  eapply Adds_trans; [exact T|apply Adds_sendSensorData].
Qed.

Hypothesis okDisconnect : P WifiDisconnect = true.
Hypothesis okBegin : forall ssid pass, P (WifiBegin ssid pass) = true.
Hypothesis okScan : P WifiScan = true.
Hypothesis okTime : forall server, P (ConfigTime server) = true.

Lemma Adds_awaitLink (budget : nat) : forall x, Adds P x (awaitLink budget x).
Proof.
  induction budget as [|budget IH]; intros x; cbn [awaitLink];
    destruct (wifiConnected x); try solve [adds].
  eapply Adds_trans; [|apply IH]. adds.
Qed.

Lemma Adds_tryNetworks (savedNets : list Credential) :
  forall x, Adds P x (snd (tryNetworks savedNets x)).
Proof.
  induction savedNets as [|obj rest IH]; intros x; cbn [tryNetworks snd].
  - adds.
  - set (x1 := awaitLink 8 _).
    assert (O : Adds P x (tick x1)).
    { adds_peel. eapply Adds_trans; [|apply Adds_awaitLink]. adds. }
    destruct (wifiConnected x1); cbn [snd]; [exact O|].
    eapply Adds_trans; [exact O|apply IH].
Qed.

Lemma Adds_tryAutoConnect (x : State) : Adds P x (snd (tryAutoConnect x)).
Proof.
  unfold tryAutoConnect. destruct (nvs_nets x); [adds|].
  apply Adds_tryNetworks.
Qed.

Lemma Adds_reconnectStep (x : State) : Adds P x (reconnectStep x).
Proof.
  unfold reconnectStep. cbv zeta.
  destruct (negb (wifiConnected x) && _); [|adds].
  destruct (_ >? _); [|adds].
  eapply Adds_trans; [|apply Adds_tryAutoConnect]. adds.
Qed.

(** Either no session is connected, or [P] lets notifications through. *)
Variable x0 : State.
Hypothesis okNotify :
  deviceConnected x0 = false \/ forall message, P (Notify message) = true.

Lemma notify_side (y : State) (message : Payload) :
  loopFixed y = loopFixed x0 ->
  deviceConnected y = false \/ P (Notify message) = true.
Proof.
  intros E. destruct okNotify as [H|H]; [left|right; apply H].
  now rewrite (connected_of_fixed y x0 E).
Qed.

Lemma Adds_scanStep : Adds P x0 (scanStep x0).
Proof.
  unfold scanStep. cbv zeta. destruct (triggerWifiScan x0); [|adds].
  do 3 adds_peel.
  eapply Adds_trans;
    [|apply Adds_safeNotify, notify_side; autorewrite with loopFixed;
      reflexivity].
  do 3 adds_peel.
  eapply Adds_trans;
    [|apply Adds_safeNotify, notify_side; autorewrite with loopFixed;
      reflexivity].
  adds.
Qed.

Lemma Adds_provisionResult (up : bool) (y : State) :
  loopFixed y = loopFixed x0 -> Adds P y (provisionResult up y).
Proof.
  intros E. unfold provisionResult, saveNetworkToMemory, setupTime. cbv zeta.
  destruct up.
  - do 3 adds_peel.
    eapply Adds_trans;
      [|apply Adds_safeNotify, notify_side; autorewrite with loopFixed;
        exact E].
    adds.
  - apply Adds_safeNotify, notify_side. exact E.
Qed.

Lemma Adds_provisionStep : Adds P x0 (provisionStep x0).
Proof.
  unfold provisionStep. cbv zeta. destruct (wifiConfigReceived x0); [|adds].
  do 3 adds_peel.
  eapply Adds_trans;
    [|apply Adds_provisionResult; autorewrite with loopFixed; reflexivity].
  adds_peel. eapply Adds_trans; [|apply Adds_awaitLink].
  do 2 adds_peel.
  eapply Adds_trans;
    [|apply Adds_safeNotify, notify_side; autorewrite with loopFixed;
      reflexivity].
  adds.
Qed.

End CoreTrace.

Lemma Adds_loop (P : Event -> bool) (s : State) :
  (forall url, P (HttpGet url) = true) ->
  (forall path, P (SdRemove path) = true) ->
  P ModbusRead = true -> P BleDisconnect = true ->
  P WifiDisconnect = true ->
  (forall ssid pass, P (WifiBegin ssid pass) = true) ->
  P WifiScan = true ->
  (forall server, P (ConfigTime server) = true) ->
  (deviceConnected s = false \/ forall message, P (Notify message) = true) ->
  Adds P s (loop s).
Proof.
  intros okHttp okRemove okRead okBle okDisc okBegin okScan okTime okNotify.
  unfold loop. cbv zeta.
  set (s1 := watchdogStep s). set (s2 := drainStep s1).
  set (s3 := telemetryStep s2). set (s4 := scanStep s3).
  set (s5 := provisionStep s4).
  assert (F3 : loopFixed s3 = loopFixed s).
  { unfold s3, s2, s1.
    now rewrite loopFixed_telemetryStep, loopFixed_drainStep,
      loopFixed_watchdogStep. }
  assert (F4 : loopFixed s4 = loopFixed s).
  { unfold s4. now rewrite loopFixed_scanStep. }
  assert (N : forall y, loopFixed y = loopFixed s ->
                        deviceConnected y = false \/
                        forall message, P (Notify message) = true).
  { intros y E. destruct okNotify as [H|H]; [left|now right].
    now rewrite (connected_of_fixed y s E). }
  eapply Adds_trans; [|now apply Adds_reconnectStep].
  eapply Adds_trans; [|apply Adds_provisionStep; auto].
  eapply Adds_trans; [|apply Adds_scanStep; auto].
  eapply Adds_trans; [|now apply Adds_telemetryStep].
  eapply Adds_trans; [|now apply Adds_drainStep].
  now apply Adds_watchdogStep.
Qed.

(** X9. No loop iteration restarts or crashes the device, initialises the
    control channel, writes a Modbus register, erases the WiFi credentials or
    restarts advertising: every event a loop iteration adds to the trace is
    of another kind. *)
Theorem loop_never_restarts (s : State) : Adds loopEvent s (loop s).
Proof. apply Adds_loop; try reflexivity. right. reflexivity. Qed.

(** X10. With no session connected, a loop iteration pushes no notification,
    whatever requests are pending and whatever happens to the link. *)
Theorem loop_silent_without_session (s : State) :
  deviceConnected s = false ->
  Adds (fun e => negb (isNotify e)) s (loop s).
Proof. intros off. apply Adds_loop; try reflexivity. now left. Qed.

Lemma loop_silent_without_session_witness :
  Adds (fun e => negb (isNotify e))
       (set_triggerWifiScan true (bootState quietEnv []))
       (loop (set_triggerWifiScan true (bootState quietEnv []))).
Proof. apply loop_silent_without_session. reflexivity. Defined.

(** ** An idle session *)

Lemma pending_tick (x : State) :
  pending (tick x) = pending x.
Proof. reflexivity. Qed.

Lemma pending_emit (e : Event) (x : State) :
  pending (emit e x) = pending x.
Proof. reflexivity. Qed.

Lemma pending_set_cfg (v : Config) (x : State) :
  pending (set_cfg v x) = pending x.
Proof. reflexivity. Qed.

Lemma pending_set_watchdogPaused (v : bool) (x : State) :
  pending (set_watchdogPaused v x) = pending x.
Proof. reflexivity. Qed.

Lemma pending_set_forceHttpNow (v : bool) (x : State) :
  pending (set_forceHttpNow v x) = pending x.
Proof. reflexivity. Qed.

Lemma pending_set_lastFileCheckTime (v : Z) (x : State) :
  pending (set_lastFileCheckTime v x) = pending x.
Proof. reflexivity. Qed.

Lemma pending_set_lastHttpTime (v : Z) (x : State) :
  pending (set_lastHttpTime v x) = pending x.
Proof. reflexivity. Qed.

Lemma pending_set_lastWatchdogTime (v : Z) (x : State) :
  pending (set_lastWatchdogTime v x) = pending x.
Proof. reflexivity. Qed.

Lemma pending_set_lastWifiCheck (v : Z) (x : State) :
  pending (set_lastWifiCheck v x) = pending x.
Proof. reflexivity. Qed.

Lemma pending_set_lastClockMinute (v : Z) (x : State) :
  pending (set_lastClockMinute v x) = pending x.
Proof. reflexivity. Qed.

Lemma pending_set_targetSSID (v : string) (x : State) :
  pending (set_targetSSID v x) = pending x.
Proof. reflexivity. Qed.

Lemma pending_set_targetPass (v : string) (x : State) :
  pending (set_targetPass v x) = pending x.
Proof. reflexivity. Qed.

Lemma pending_set_nvs_conf (v : Stored) (x : State) :
  pending (set_nvs_conf v x) = pending x.
Proof. reflexivity. Qed.

Lemma pending_set_nvs_nets (v : list Credential) (x : State) :
  pending (set_nvs_nets v x) = pending x.
Proof. reflexivity. Qed.

Lemma pending_set_sd_files (v : list SdFile) (x : State) :
  pending (set_sd_files v x) = pending x.
Proof. reflexivity. Qed.

Lemma pending_safeNotify (message : Payload) (x : State) :
  pending (safeNotify message x) = pending x.
Proof. unfold safeNotify. now destruct (_ && _). Qed.

Lemma OnlyIO_pending (s s' : State) : OnlyIO s s' -> pending s' = pending s.
Proof. intros [q evs files none]. reflexivity. Qed.

Lemma pending_watchdogStep (x : State) :
  pending (watchdogStep x) = pending x.
Proof. apply OnlyIO_pending, OnlyIO_watchdogStep. Qed.

Lemma pending_processOfflineFiles (x : State) :
  pending (processOfflineFiles x) = pending x.
Proof. apply OnlyIO_pending, OnlyIO_processOfflineFiles. Qed.

Lemma pending_deliverReading (timeStr sensorData : string) (x : State) :
  pending (deliverReading timeStr sensorData x) = pending x.
Proof. apply OnlyIO_pending, OnlyIO_deliverReading. Qed.

Lemma pending_awaitLink (budget : nat) (x : State) :
  pending (awaitLink budget x) = pending x.
Proof. apply OnlyIO_pending, OnlyIO_awaitLink. Qed.

Lemma pending_tryAutoConnect (x : State) :
  pending (snd (tryAutoConnect x)) = pending x.
Proof. apply OnlyIO_pending, OnlyIO_tryAutoConnect. Qed.

Lemma pending_saveDataOffline (timestamp sensorData : string) (x : State) :
  pending (snd (saveDataOffline timestamp sensorData x)) = pending x.
Proof. apply OnlyIO_pending, OnlyIO_saveDataOffline. Qed.

Create Rewrite HintDb pending.

#[local] Hint Rewrite pending_tick pending_emit pending_set_cfg
  pending_set_watchdogPaused pending_set_forceHttpNow
  pending_set_lastFileCheckTime pending_set_lastHttpTime
  pending_set_lastWatchdogTime pending_set_lastWifiCheck
  pending_set_lastClockMinute pending_set_targetSSID pending_set_targetPass
  pending_set_nvs_conf pending_set_nvs_nets pending_set_sd_files
  pending_safeNotify pending_watchdogStep pending_processOfflineFiles
  pending_deliverReading pending_awaitLink pending_tryAutoConnect
  pending_saveDataOffline : pending.

Lemma pending_drainStep (x : State) : pending (drainStep x) = pending x.
Proof.
  unfold drainStep. cbv zeta.
  destruct (wifiConnected x); [|apply pending_tick].
  destruct (_ >? _); autorewrite with pending; reflexivity.
Qed.

Lemma pending_modeTrigger (x : State) :
  pending (snd (modeTrigger x)) = pending x.
Proof.
  unfold modeTrigger. cbv zeta.
  destruct (UPDATE_MODE (cfg x) =? 0); [destruct (_ >? _); reflexivity|].
  destruct (UPDATE_MODE (cfg x) =? 1); [|reflexivity].
  destruct (localtime_at _ _) as [m|]; [destruct (_ && _)|]; reflexivity.
Qed.

Lemma pending_shouldTrigger (x : State) :
  pending (snd (shouldTrigger x)) = pending x.
Proof.
  unfold shouldTrigger. rewrite <- (pending_modeTrigger x).
  destruct (modeTrigger x) as [trigger y]. cbn [snd].
  destruct (forceHttpNow y); reflexivity.
Qed.

Lemma pending_sendSensorData (x : State) :
  pending (sendSensorData x) = pending x.
Proof.
  unfold sendSensorData. cbv zeta.
  destruct (String.length _ =? 0)%nat; autorewrite with pending; reflexivity.
Qed.

Lemma pending_telemetryStep (x : State) :
  pending (telemetryStep x) = pending x.
Proof.
  unfold telemetryStep. rewrite <- (pending_shouldTrigger x).
  destruct (shouldTrigger x) as [trigger y]. cbn [snd].
  destruct trigger; [apply pending_sendSensorData|reflexivity].
Qed.

(** With a session connected and neither a scan nor a provisioning request
    pending, a loop iteration is the watchdog check, the drain step, the
    telemetry step and one reading of the link state. *)
Lemma loop_idle (s : State) :
  deviceConnected s = true -> triggerWifiScan s = false ->
  wifiConfigReceived s = false ->
  loop s = tick (telemetryStep (drainStep (watchdogStep s))).
Proof.
  intros dc noscan noprov. unfold loop. cbv zeta.
  set (s3 := telemetryStep (drainStep (watchdogStep s))).
  assert (E : pending s3 = pending s).
  { unfold s3. now rewrite pending_telemetryStep, pending_drainStep,
      pending_watchdogStep. }
  unfold pending in E. injection E as Ed Es Ew.
  rewrite (scanStep_idle s3) by congruence.
  rewrite (provisionStep_idle s3) by congruence.
  apply reconnectStep_connected. congruence.
Qed.

(** X11. While a session is connected and no scan or provisioning has been
    asked for, a loop iteration leaves the WiFi association alone: it
    neither disconnects nor begins a connection, scans, erases credentials
    or resynchronises the time, however long the link has been down. *)
Theorem loop_keeps_wifi_while_session (s : State) :
  deviceConnected s = true -> triggerWifiScan s = false ->
  wifiConfigReceived s = false ->
  Adds (fun e => negb (isWifiOp e)) s (loop s).
Proof.
  intros dc noscan noprov. rewrite (loop_idle s dc noscan noprov).
  adds_peel.
  eapply Adds_trans; [|now apply Adds_telemetryStep].
  eapply Adds_trans; [|now apply Adds_drainStep].
  now apply Adds_watchdogStep.
Qed.

Lemma loop_keeps_wifi_while_session_witness :
  Adds (fun e => negb (isWifiOp e)) silentState (loop silentState).
Proof. apply loop_keeps_wifi_while_session; reflexivity. Defined.

(** ** The trace of an inbound message *)

Section PatchField.

(** A field [g] of the configuration, through the steps of a patch that do
    not assign it. *)
Variable A : Type.
Variable g : Config -> A.

Lemma field_safeNotify (message : Payload) (x : State) :
  g (cfg (safeNotify message x)) = g (cfg x).
Proof. unfold safeNotify. now destruct (_ && _). Qed.

Lemma field_patchString (field : option string)
    (f : string -> Config -> Config) (st : bool * State) :
  (forall v c, g (f v c) = g c) ->
  g (cfg (snd (patchString field f st))) = g (cfg (snd st)).
Proof.
  intros keep. destruct st as [changed x], field as [v|]; cbn [snd];
    [|reflexivity].
  cbn [patchString snd cfg set_cfg]. apply keep.
Qed.

Lemma field_patchInterval (doc : JsonDoc) (st : bool * State) :
  (forall v c, g (with_interval v c) = g c) ->
  g (cfg (snd (patchInterval doc st))) = g (cfg (snd st)).
Proof.
  intros keep. destruct st as [changed x]. unfold patchInterval.
  destruct (j_int doc) as [v|]; [|reflexivity].
  destruct (validateInterval v); cbn [snd]; [apply keep|].
  apply field_safeNotify.
Qed.

Lemma field_patchMode (doc : JsonDoc) (st : bool * State) :
  (forall v c, g (with_mode v c) = g c) ->
  g (cfg (snd (patchMode doc st))) = g (cfg (snd st)).
Proof.
  intros keep. destruct st as [changed x]. unfold patchMode.
  destruct (j_mode doc) as [v|]; [|reflexivity].
  destruct ((v =? 0) || (v =? 1)); cbn [snd]; [apply keep|reflexivity].
Qed.

Lemma field_patchSetpoint (field : option Q) (f : Q -> Config -> Config)
    (reg : Z) (error : string) (st : bool * State) :
  (forall v c, g (f v c) = g c) ->
  g (cfg (snd (patchSetpoint field f reg error st))) = g (cfg (snd st)).
Proof.
  intros keep. destruct st as [changed x]. unfold patchSetpoint.
  destruct field as [v|]; [|reflexivity].
  destruct (validateSetpoint v); cbn [snd]; [apply keep|].
  apply field_safeNotify.
Qed.

Lemma field_patchCommit (nameChanged : bool) (x : State) :
  g (cfg (patchCommit nameChanged x)) = g (cfg x).
Proof.
  pose proof (conf_patchCommit nameChanged x) as E. unfold conf in E.
  injection E as Ec _ _. now rewrite Ec.
Qed.

End PatchField.

Section PatchTrace.

Variable P : Event -> bool.
Hypothesis okNotify : forall message, P (Notify message) = true.

Lemma Adds_notify (message : Payload) (x : State) :
  Adds P x (safeNotify message x).
Proof. apply Adds_safeNotify. right. apply okNotify. Qed.

Lemma Adds_patchString (field : option string)
    (f : string -> Config -> Config) (st : bool * State) :
  Adds P (snd st) (snd (patchString field f st)).
Proof. destruct st as [changed x], field; cbn [patchString snd]; adds. Qed.

Lemma Adds_patchInterval (doc : JsonDoc) (st : bool * State) :
  Adds P (snd st) (snd (patchInterval doc st)).
Proof.
  destruct st as [changed x]. unfold patchInterval.
  destruct (j_int doc) as [v|]; [|apply Adds_refl].
  destruct (validateInterval v); cbn [snd]; [adds|apply Adds_notify].
Qed.

Lemma Adds_patchMode (doc : JsonDoc) (st : bool * State) :
  Adds P (snd st) (snd (patchMode doc st)).
Proof.
  destruct st as [changed x]. unfold patchMode.
  destruct (j_mode doc) as [v|]; [|apply Adds_refl].
  destruct ((v =? 0) || (v =? 1)); cbn [snd]; adds.
Qed.

Lemma Adds_patchSetpoint (field : option Q) (f : Q -> Config -> Config)
    (reg : Z) (error : string) (st : bool * State) :
  (forall v, field = Some v -> validateSetpoint v = true ->
             P (ModbusWrite reg (toUint16 v)) = true) ->
  Adds P (snd st) (snd (patchSetpoint field f reg error st)).
Proof.
  intros ok. destruct st as [changed x]. unfold patchSetpoint.
  destruct field as [v|]; [|apply Adds_refl].
  destruct (validateSetpoint v) eqn:V; cbn [snd]; [|apply Adds_notify].
  unfold writeModbusRegister. adds_peel.
  eapply Adds_trans; [|apply Adds_emit; now apply ok]. adds.
Qed.

Lemma Adds_patchCommit (nameChanged : bool) (x : State) :
  (nameChanged = true -> P Restart = true) ->
  Adds P x (patchCommit nameChanged x).
Proof.
  intros ok. unfold patchCommit, saveConfig. cbv zeta.
  assert (C : Adds P x
                (if deviceConnected
                      (set_forceHttpNow true
                         (set_nvs_conf (Doc (configDoc (cfg x))) x))
                 then safeNotify
                        (Text (if nameChanged
                               then "Name Saved. Restarting..."
                               else "Settings Saved."))
                        (set_forceHttpNow true
                           (set_nvs_conf (Doc (configDoc (cfg x))) x))
                 else set_forceHttpNow true
                        (set_nvs_conf (Doc (configDoc (cfg x))) x))).
  { destruct (deviceConnected _); [|adds].
    eapply Adds_trans; [|apply Adds_notify]. adds. }
  destruct nameChanged; [|exact C].
  eapply Adds_trans; [exact C|]. apply Adds_emit. now apply ok.
Qed.

Lemma Adds_patchSteps (doc : JsonDoc) (x : State) :
  (forall v, j_sp1 doc = Some v -> validateSetpoint v = true ->
             P (ModbusWrite SET_POINT_1 (toUint16 v)) = true) ->
  (forall v, j_sp2 doc = Some v -> validateSetpoint v = true ->
             P (ModbusWrite SET_POINT_2 (toUint16 v)) = true) ->
  Adds P x (snd (patchTail doc (patchInterval doc (patchHead doc x)))).
Proof.
  intros ok1 ok2. unfold patchTail, patchHead.
  eapply Adds_trans; [|now apply Adds_patchSetpoint].
  eapply Adds_trans; [|now apply Adds_patchSetpoint].
  eapply Adds_trans; [|apply Adds_patchMode].
  eapply Adds_trans; [|apply Adds_patchInterval].
  eapply Adds_trans; [|apply Adds_patchString].
  eapply Adds_trans; [|apply Adds_patchString].
  eapply Adds_trans; [|apply Adds_patchString].
  apply (Adds_patchString _ _ (false, x)).
Qed.

Lemma Adds_handlePatch (doc : JsonDoc) (x : State) :
  (forall v, j_sp1 doc = Some v -> validateSetpoint v = true ->
             P (ModbusWrite SET_POINT_1 (toUint16 v)) = true) ->
  (forall v, j_sp2 doc = Some v -> validateSetpoint v = true ->
             P (ModbusWrite SET_POINT_2 (toUint16 v)) = true) ->
  (isKey (j_name doc) = true -> P Restart = true) ->
  Adds P x (handlePatch doc x).
Proof.
  intros ok1 ok2 okR. rewrite handlePatch_unfold. cbv zeta.
  pose proof (Adds_patchSteps doc x ok1 ok2) as T.
  destruct (fst _); [|exact T].
  eapply Adds_trans; [exact T|now apply Adds_patchCommit].
Qed.

Hypothesis okErase : P WifiErase = true.
Hypothesis okDisconnect : P WifiDisconnect = true.

Lemma Adds_handleAction (act : string) (x : State) :
  Adds P x (handleAction act x).
Proof.
  unfold handleAction, clearSavedWifi. cbv zeta.
  destruct (String.eqb act "scan"); [adds|].
  destruct (String.eqb act "get_conf"); [apply Adds_notify|].
  destruct (String.eqb act "get_status").
  { destruct (wifiConnected x);
      (eapply Adds_trans; [|apply Adds_notify]); adds. }
  destruct (String.eqb act "forget_wifi"); [|adds].
  adds_peel.
  destruct (deviceConnected _);
    [eapply Adds_trans; [|apply Adds_notify]|]; adds.
Qed.

Lemma Adds_handleCredentials (ssid : option string) (doc : JsonDoc)
    (x : State) :
  Adds P x (handleCredentials ssid doc x).
Proof.
  unfold handleCredentials. cbv zeta. destruct (0 <? _)%nat; adds.
Qed.

Lemma Adds_onWrite (value : Inbound) (s : State) :
  (forall doc v, value = Json doc -> j_sp1 doc = Some v ->
                 validateSetpoint v = true ->
                 P (ModbusWrite SET_POINT_1 (toUint16 v)) = true) ->
  (forall doc v, value = Json doc -> j_sp2 doc = Some v ->
                 validateSetpoint v = true ->
                 P (ModbusWrite SET_POINT_2 (toUint16 v)) = true) ->
  (forall doc, value = Json doc -> isKey (j_name doc) = true ->
               j_action doc = None -> P Restart = true) ->
  (forall doc, value = Json doc -> j_action doc = Some None ->
               P Crash = true) ->
  Adds P s (onWrite value s).
Proof.
  intros ok1 ok2 okR okC. destruct value as [| |doc]; cbn [onWrite]; try adds.
  set (x := tick (set_lastWatchdogTime (millis s) s)).
  assert (X : Adds P s x) by (unfold x; adds).
  eapply Adds_trans; [exact X|].
  destruct (j_action doc) as [[act|]|] eqn:A;
    [apply Adds_handleAction|apply Adds_emit; now apply (okC doc)|].
  destruct (isConfigPatch doc).
  - apply Adds_handlePatch.
    + intros v. now apply ok1.
    + intros v. now apply ok2.
    + intros N. now apply (okR doc).
  - destruct (j_ssid doc) as [ssid|]; [|apply Adds_refl].
    apply Adds_handleCredentials.
Qed.

End PatchTrace.

(** X12. A message brings the firmware down only when it is a configuration
    patch that carries a name (the device restarts) or carries an action
    that is not a string (the handler crashes): no other message adds a
    restart or a crash to the trace. *)
Theorem restart_only_on_rename (value : Inbound) (s : State) :
  goesDown value = false ->
  Adds staysUp s (onWrite value s).
Proof.
  intros up. apply Adds_onWrite; try reflexivity.
  - intros doc E N A. rewrite E in up. cbn [goesDown] in up.
    rewrite A, N in up. discriminate up.
  - intros doc E A. rewrite E in up. cbn [goesDown] in up.
    rewrite A in up. discriminate up.
Qed.

Lemma restart_only_on_rename_witness :
  Adds staysUp silentState
    (onWrite (Json (setpointPatch (5 # 1))) silentState).
Proof. apply restart_only_on_rename. reflexivity. Defined.

Lemma patchHead_named (doc : JsonDoc) (name : string) (x : State) :
  j_name doc = Some name ->
  fst (patchTail doc (patchInterval doc (patchHead doc x))) = true.
Proof.
  intros N.
  destruct (fst (patchTail doc (patchInterval doc (patchHead doc x))))
    eqn:C; [reflexivity|].
  unfold patchTail, patchHead in C.
  destruct (quiet_patchSetpoint _ _ _ _ _ C) as [C1 _].
  destruct (quiet_patchSetpoint _ _ _ _ _ C1) as [C2 _].
  destruct (quiet_patchMode _ _ C2) as [C3 _].
  destruct (quiet_patchInterval _ _ C3) as [C4 _].
  destruct (quiet_patchString _ _ _ C4) as [C5 _].
  destruct (quiet_patchString _ _ _ C5) as [C6 _].
  destruct (quiet_patchString _ _ _ C6) as [C7 _].
  rewrite N in C7. discriminate C7.
Qed.

Lemma name_patchSteps (doc : JsonDoc) (name : string) (x : State) :
  j_name doc = Some name ->
  DEVICE_NICKNAME
    (cfg (snd (patchTail doc (patchInterval doc (patchHead doc x))))) = name.
Proof.
  intros N. unfold patchTail, patchHead.
  rewrite !field_patchSetpoint, field_patchMode, field_patchInterval,
    !field_patchString by reflexivity.
  rewrite N. reflexivity.
Qed.

Lemma patchCommit_restarts (x : State) :
  exists evs,
    trace (patchCommit true x) = (Restart :: evs ++ trace x)%list /\
    forallb notRestart evs = true.
Proof.
  unfold patchCommit, saveConfig. cbv zeta.
  set (y := set_forceHttpNow true _).
  assert (Y : Adds notRestart x y) by (unfold y; adds).
  assert (C : Adds notRestart x
                (if deviceConnected y
                 then safeNotify (Text "Name Saved. Restarting...") y
                 else y)).
  { destruct (deviceConnected y); [|exact Y].
    eapply Adds_trans; [exact Y|]. now apply Adds_notify. }
  destruct C as (evs & E & F). exists evs. split; [|exact F].
  unfold emit. cbn [trace set_trace]. now rewrite E.
Qed.

(** X13. A patch that carries a name stores that name, persists the
    configuration and then restarts the device: the restart is the last
    thing the message does, and the only restart. *)
Theorem rename_persists_then_restarts (doc : JsonDoc) (name : string)
    (s : State) :
  j_action doc = None ->
  j_name doc = Some name ->
  DEVICE_NICKNAME (cfg (onWrite (Json doc) s)) = name /\
  synced (onWrite (Json doc) s) /\
  exists evs,
    trace (onWrite (Json doc) s) = (Restart :: evs ++ trace s)%list /\
    forallb notRestart evs = true.
Proof.
  intros A N. cbn [onWrite]. rewrite A.
  assert (K : isConfigPatch doc = true)
    by (unfold isConfigPatch; now rewrite N).
  rewrite K. set (x := tick (set_lastWatchdogTime (millis s) s)).
  assert (X : Adds notRestart s x) by (unfold x; adds).
  rewrite handlePatch_unfold. cbv zeta.
  rewrite (patchHead_named doc name x N), N. cbn [isKey].
  set (y := snd (patchTail doc (patchInterval doc (patchHead doc x)))).
  assert (Y : Adds notRestart x y).
  { apply Adds_patchSteps; reflexivity. }
  pose proof (conf_patchCommit true y) as E.
  assert (Ec : cfg (patchCommit true y) = cfg y)
    by exact (f_equal (fun t => fst (fst t)) E).
  assert (En : nvs_conf (patchCommit true y) = Doc (configDoc (cfg y)))
    by exact (f_equal (fun t => snd (fst t)) E).
  clear E. split; [|split].
  - rewrite Ec. apply name_patchSteps, N.
  - unfold synced. congruence.
  - destruct (patchCommit_restarts y) as (e3 & E3 & F3).
    destruct (Adds_trans _ _ _ _ X Y) as (e12 & E12 & F12).
    exists (e3 ++ e12)%list. split.
    + rewrite E3, E12, app_assoc. reflexivity.
    + rewrite forallb_app, F3, F12. reflexivity.
Qed.

Lemma rename_persists_then_restarts_witness :
  DEVICE_NICKNAME (cfg (onWrite (Json (namePatch "pump-7")) silentState))
    = "pump-7" /\
  synced (onWrite (Json (namePatch "pump-7")) silentState) /\
  exists evs,
    trace (onWrite (Json (namePatch "pump-7")) silentState)
      = (Restart :: evs ++ trace silentState)%list /\
    forallb notRestart evs = true.
Proof.
  apply rename_persists_then_restarts; reflexivity.
Defined.

(** ** Setpoints *)

Lemma Emits_here (e : Event) (x : State) : Emits e x (emit e x).
Proof. exists [e]. split; [reflexivity|now left]. Qed.

Lemma Emits_after (P : Event -> bool) (e : Event) (x y z : State) :
  Emits e x y -> Adds P y z -> Emits e x z.
Proof.
  intros (e1 & T1 & I) (e2 & T2 & _). exists (e2 ++ e1)%list. split.
  - now rewrite T2, T1, app_assoc.
  - apply in_or_app. now right.
Qed.

Lemma Emits_before (P : Event -> bool) (e : Event) (x y z : State) :
  Adds P x y -> Emits e y z -> Emits e x z.
Proof.
  intros (e1 & T1 & _) (e2 & T2 & I). exists (e2 ++ e1)%list. split.
  - now rewrite T2, T1, app_assoc.
  - apply in_or_app. now left.
Qed.

Lemma Adds_any (x y : State) (P : Event -> bool) :
  Adds P x y -> Adds anyEvent x y.
Proof.
  intros (evs & T & _). exists evs. split; [exact T|].
  apply forallb_forall. reflexivity.
Qed.

Lemma patchSetpoint_valid (field : option Q) (f : Q -> Config -> Config)
    (reg : Z) (error : string) (st : bool * State) (v : Q) :
  field = Some v -> validateSetpoint v = true ->
  patchSetpoint field f reg error st =
    (true, writeModbusRegister reg (toUint16 v)
             (set_cfg (f v (cfg (snd st))) (snd st))).
Proof. intros -> V. destruct st. unfold patchSetpoint. now rewrite V. Qed.

Lemma patchSetpoint_invalid (field : option Q) (f : Q -> Config -> Config)
    (reg : Z) (error : string) (st : bool * State) (v : Q) :
  field = Some v -> validateSetpoint v = false ->
  patchSetpoint field f reg error st =
    (fst st, safeNotify (Text error) (snd st)).
Proof. intros -> V. destruct st. unfold patchSetpoint. now rewrite V. Qed.

Lemma synced_patchCommit (nameChanged : bool) (x : State) :
  synced (patchCommit nameChanged x).
Proof.
  pose proof (conf_patchCommit nameChanged x) as E. unfold synced.
  assert (Ec : cfg (patchCommit nameChanged x) = cfg x)
    by exact (f_equal (fun t => fst (fst t)) E).
  assert (En : nvs_conf (patchCommit nameChanged x) = Doc (configDoc (cfg x)))
    by exact (f_equal (fun t => snd (fst t)) E).
  now rewrite En, Ec.
Qed.

Lemma cfg_handlePatch (doc : JsonDoc) (x : State) :
  cfg (handlePatch doc x)
  = cfg (snd (patchTail doc (patchInterval doc (patchHead doc x)))).
Proof.
  rewrite handlePatch_unfold. cbv zeta. destruct (fst _); [|reflexivity].
  apply (field_patchCommit _ (fun c => c)).
Qed.

Lemma Adds_commit (doc : JsonDoc) (x : State) :
  Adds anyEvent
    (snd (patchTail doc (patchInterval doc (patchHead doc x))))
    (handlePatch doc x).
Proof.
  rewrite handlePatch_unfold. cbv zeta.
  destruct (fst _); [|apply Adds_refl].
  apply Adds_patchCommit; reflexivity.
Qed.

Lemma Adds_beforeSetpoints (doc : JsonDoc) (x : State) :
  Adds anyEvent x (snd (patchMode doc (patchInterval doc (patchHead doc x)))).
Proof.
  unfold patchHead.
  eapply Adds_trans; [|now apply Adds_patchMode].
  eapply Adds_trans; [|now apply Adds_patchInterval].
  eapply Adds_trans; [|now apply Adds_patchString].
  eapply Adds_trans; [|now apply Adds_patchString].
  eapply Adds_trans; [|now apply Adds_patchString].
  apply (Adds_patchString _ _ _ (false, x)).
Qed.

Lemma writeFixed_beforeSetpoints (doc : JsonDoc) (x : State) :
  writeFixed (snd (patchMode doc (patchInterval doc (patchHead doc x))))
  = writeFixed x.
Proof.
  unfold patchHead.
  now rewrite writeFixed_patchMode, writeFixed_patchInterval,
    !writeFixed_patchString.
Qed.

Lemma truncate_bound (v : Q) :
  validateSetpoint v = true -> truncate v <= 9999.
Proof.
  unfold validateSetpoint. intros V. apply andb_prop in V as [_ U].
  apply Qle_bool_iff in U. unfold Qle, MAX_SETPOINT in U. cbn in U.
  unfold truncate. destruct (Z_lt_le_dec (Qnum v) 0) as [N|N].
  - pose proof (Z.quot_opp_l (- Qnum v) (Zpos (Qden v))) as O.
    rewrite Z.opp_involutive in O.
    assert (P : 0 <= Z.quot (- Qnum v) (Zpos (Qden v)))
      by (apply Z.quot_pos; lia).
    rewrite O by lia. lia.
  - rewrite Z.quot_div_nonneg by lia.
    apply Z.div_le_upper_bound; lia.
Qed.

(** X14. A patch whose first setpoint is in range stores it as given,
    persists the configuration and issues a Modbus write to the first
    setpoint register with [uint16_t(sp1)]: the setpoint without its
    fraction, at most 9999, when that is not negative.  For a setpoint of
    -1 or less, which the validation lets through, the conversion has no
    defined result. *)
Theorem setpoint_accepted (doc : JsonDoc) (v : Q) (s : State) :
  j_action doc = None ->
  j_sp1 doc = Some v ->
  validateSetpoint v = true ->
  setPoint1 (cfg (onWrite (Json doc) s)) = v /\
  synced (onWrite (Json doc) s) /\
  Emits (ModbusWrite SET_POINT_1 (toUint16 v)) s (onWrite (Json doc) s) /\
  (0 <= truncate v -> toUint16 v = Some (truncate v) /\ truncate v <= 9999) /\
  (truncate v < 0 -> toUint16 v = None).
Proof.
  intros A F V. cbn [onWrite]. rewrite A.
  assert (K : isConfigPatch doc = true).
  { unfold isConfigPatch. rewrite F. cbn [isKey].
    now rewrite !orb_true_r. }
  rewrite K. set (x := tick (set_lastWatchdogTime (millis s) s)).
  assert (X : Adds anyEvent s x) by (unfold x; adds).
  set (x0 := patchMode doc (patchInterval doc (patchHead doc x))).
  assert (C : fst (patchTail doc (patchInterval doc (patchHead doc x)))
              = true).
  { destruct (fst _) eqn:C; [reflexivity|]. unfold patchTail in C.
    destruct (quiet_patchSetpoint _ _ _ _ _ C) as [C1 _].
    rewrite (patchSetpoint_valid _ _ _ _ _ v F V) in C1. discriminate C1. }
  split; [|split; [|split; [|split]]].
  - rewrite cfg_handlePatch. unfold patchTail.
    rewrite field_patchSetpoint by reflexivity.
    rewrite (patchSetpoint_valid _ _ _ _ _ v F V). reflexivity.
  - rewrite handlePatch_unfold. cbv zeta. rewrite C.
    apply synced_patchCommit.
  - eapply Emits_after; [|apply Adds_commit].
    eapply Emits_before; [exact X|].
    eapply (Emits_before anyEvent _ _ (snd x0));
      [apply Adds_beforeSetpoints|].
    unfold patchTail. fold x0.
    eapply Emits_after;
      [|apply (Adds_patchSetpoint anyEvent); reflexivity].
    rewrite (patchSetpoint_valid _ _ _ _ _ v F V). cbn [snd].
    unfold writeModbusRegister.
    eapply Emits_after; [|apply (Adds_tick anyEvent)].
    eapply Emits_before; [apply (Adds_set_cfg anyEvent)|apply Emits_here].
  - intros T. pose proof (truncate_bound v V) as B. split; [|exact B].
    unfold toUint16. cbv zeta.
    assert (L : (0 <=? truncate v) = true) by (apply Z.leb_le; exact T).
    assert (U : (truncate v <? 2 ^ 16) = true) by (apply Z.ltb_lt; lia).
    now rewrite L, U.
  - intros T. unfold toUint16. cbv zeta.
    assert (L : (0 <=? truncate v) = false) by (apply Z.leb_gt; exact T).
    now rewrite L.
Qed.

(** A setpoint of 25.5 is stored as 25.5 and written as 25. *)
Lemma setpoint_accepted_witness :
  setPoint1 (cfg (onWrite (Json (setpointPatch (51 # 2))) silentState))
    = 51 # 2 /\
  synced (onWrite (Json (setpointPatch (51 # 2))) silentState) /\
  Emits (ModbusWrite SET_POINT_1 (Some 25)) silentState
    (onWrite (Json (setpointPatch (51 # 2))) silentState) /\
  (0 <= truncate (51 # 2) ->
   toUint16 (51 # 2) = Some (truncate (51 # 2)) /\
   truncate (51 # 2) <= 9999) /\
  (truncate (51 # 2) < 0 -> toUint16 (51 # 2) = None).
Proof.
  apply (setpoint_accepted (setpointPatch (51 # 2)) (51 # 2)); reflexivity.
Defined.

(** X15. A patch whose first setpoint is out of range leaves the stored
    setpoint as it was and writes nothing to the first setpoint register;
    with a subscribed session the error text is pushed. *)
Theorem setpoint_rejected (doc : JsonDoc) (v : Q) (s : State) :
  j_action doc = None ->
  j_sp1 doc = Some v ->
  validateSetpoint v = false ->
  setPoint1 (cfg (onWrite (Json doc) s)) = setPoint1 (cfg s) /\
  Adds (notWriteTo SET_POINT_1) s (onWrite (Json doc) s) /\
  (deviceConnected s && notifyReady s = true ->
   Emits (Notify (Text "Error: Invalid setpoint 1")) s
     (onWrite (Json doc) s)).
Proof.
  intros A F V. split; [|split].
  - cbn [onWrite]. rewrite A.
    assert (K : isConfigPatch doc = true).
    { unfold isConfigPatch. rewrite F. cbn [isKey].
      now rewrite !orb_true_r. }
    rewrite K, cfg_handlePatch. unfold patchTail, patchHead.
    rewrite field_patchSetpoint by reflexivity.
    rewrite (patchSetpoint_invalid _ _ _ _ _ v F V). cbn [snd].
    rewrite field_safeNotify, field_patchMode, field_patchInterval,
      !field_patchString by reflexivity.
    reflexivity.
  - apply Adds_onWrite; try reflexivity.
    intros doc' v' E F' V'. injection E as <-.
    rewrite F in F'. injection F' as <-. congruence.
  - intros N. cbn [onWrite]. rewrite A.
    assert (K : isConfigPatch doc = true).
    { unfold isConfigPatch. rewrite F. cbn [isKey].
      now rewrite !orb_true_r. }
    rewrite K. set (x := tick (set_lastWatchdogTime (millis s) s)).
    assert (X : Adds anyEvent s x) by (unfold x; adds).
    eapply Emits_after; [|apply Adds_commit].
    eapply Emits_before; [exact X|].
    pose proof (writeFixed_beforeSetpoints doc x) as W.
    set (x0 := snd (patchMode doc (patchInterval doc (patchHead doc x))))
      in *.
    eapply (Emits_before anyEvent _ _ x0);
      [apply Adds_beforeSetpoints|].
    unfold patchTail.
    eapply Emits_after;
      [|apply (Adds_patchSetpoint anyEvent); reflexivity].
    rewrite (patchSetpoint_invalid _ _ _ _ _ v F V). cbn [snd]. fold x0.
    assert (G : deviceConnected x0 && notifyReady x0 = true).
    { rewrite <- N. unfold writeFixed in W. injection W as _ _ D R.
      now rewrite D, R. }
    unfold safeNotify. rewrite G. apply Emits_here.
Qed.

Lemma setpoint_rejected_witness :
  setPoint1 (cfg (onWrite (Json (setpointPatch (10000 # 1))) silentState))
    = setPoint1 (cfg silentState) /\
  Adds (notWriteTo SET_POINT_1) silentState
    (onWrite (Json (setpointPatch (10000 # 1))) silentState) /\
  (deviceConnected silentState && notifyReady silentState = true ->
   Emits (Notify (Text "Error: Invalid setpoint 1")) silentState
     (onWrite (Json (setpointPatch (10000 # 1))) silentState)).
Proof.
  apply (setpoint_rejected (setpointPatch (10000 # 1)) (10000 # 1));
    reflexivity.
Defined.

(** ** Joining a saved network *)

Lemma trace_awaitLink (budget : nat) :
  forall x, trace (awaitLink budget x) = trace x.
Proof.
  induction budget as [|budget IH]; intros x; cbn [awaitLink];
    destruct (wifiConnected x); try reflexivity.
  now rewrite IH.
Qed.

Lemma env_of_fixed (y x : State) :
  loopFixed y = loopFixed x -> env y = env x.
Proof. unfold loopFixed. intros E. now injection E. Qed.

Lemma tryNetworks_order (savedNets : list Credential) :
  forall s,
    exists k evs,
      trace (snd (tryNetworks savedNets s)) = (evs ++ trace s)%list /\
      begins evs = firstn k savedNets /\
      (fst (tryNetworks savedNets s) = false -> k = List.length savedNets) /\
      (fst (tryNetworks savedNets s) = true ->
       (0 < k)%nat /\
       wifi_at (env s) (pred (asked (snd (tryNetworks savedNets s)))) = true).
Proof.
  induction savedNets as [|obj rest IH]; intros s; cbn [tryNetworks].
  - exists 0%nat, []. cbn [fst snd].
    split; [reflexivity|split; [reflexivity|split]];
      [reflexivity|discriminate].
  - set (x0 := emit (WifiBegin (fst obj) (snd obj)) (emit WifiDisconnect s)).
    set (x1 := awaitLink 8 x0).
    assert (T : trace x1
                = WifiBegin (fst obj) (snd obj) :: WifiDisconnect :: trace s)
      by (unfold x1; now rewrite trace_awaitLink).
    assert (V : env x1 = env s).
    { apply env_of_fixed. unfold x1. now rewrite loopFixed_awaitLink. }
    destruct (wifiConnected x1) eqn:U.
    + exists 1%nat, [WifiBegin (fst obj) (snd obj); WifiDisconnect].
      cbn [fst snd]. split; [exact T|split; [|split]].
      * destruct obj. reflexivity.
      * discriminate.
      * intros _. split; [apply Nat.lt_0_1|].
        cbn [tick asked set_asked Nat.pred]. rewrite <- V. exact U.
    + destruct (IH (tick x1)) as (k & evs & E & B & allTried & up).
      exists (S k),
        (evs ++ [WifiBegin (fst obj) (snd obj); WifiDisconnect])%list.
      split; [|split; [|split]].
      * rewrite E. cbn [tick trace set_asked]. rewrite T.
        now rewrite <- app_assoc.
      * unfold begins in *. rewrite rev_app_distr, flat_map_app, B.
        destruct obj. reflexivity.
      * intros F. cbn [List.length]. now rewrite (allTried F).
      * intros F. destruct (up F) as [_ W]. split; [apply Nat.lt_0_succ|].
        change (env (tick x1)) with (env x1) in W. now rewrite <- V.
Qed.

(** X16. Reconnecting tries the saved networks in stored order, one after the
    other; it reports failure only after trying every one of them, and
    success only when the link was up at its last look, without trying the
    networks after that one. *)
Theorem tryAutoConnect_in_stored_order (s : State) :
  exists k evs,
    trace (snd (tryAutoConnect s)) = (evs ++ trace s)%list /\
    begins evs = firstn k (nvs_nets s) /\
    (fst (tryAutoConnect s) = false -> k = List.length (nvs_nets s)) /\
    (fst (tryAutoConnect s) = true ->
     (0 < k)%nat /\
     wifi_at (env s) (pred (asked (snd (tryAutoConnect s)))) = true).
Proof.
  unfold tryAutoConnect. destruct (nvs_nets s) as [|obj rest] eqn:N.
  - exists 0%nat, []. cbn [fst snd].
    split; [reflexivity|split; [reflexivity|split]];
      [reflexivity|discriminate].
  - apply tryNetworks_order.
Qed.

(** ** The watchdog pause *)

Lemma watchdogPaused_tick (x : State) :
  watchdogPaused (tick x) = watchdogPaused x.
Proof. reflexivity. Qed.

Lemma watchdogPaused_emit (e : Event) (x : State) :
  watchdogPaused (emit e x) = watchdogPaused x.
Proof. reflexivity. Qed.

Lemma watchdogPaused_set_cfg (v : Config) (x : State) :
  watchdogPaused (set_cfg v x) = watchdogPaused x.
Proof. reflexivity. Qed.

Lemma watchdogPaused_set_deviceConnected (v : bool) (x : State) :
  watchdogPaused (set_deviceConnected v x) = watchdogPaused x.
Proof. reflexivity. Qed.

Lemma watchdogPaused_set_triggerWifiScan (v : bool) (x : State) :
  watchdogPaused (set_triggerWifiScan v x) = watchdogPaused x.
Proof. reflexivity. Qed.

Lemma watchdogPaused_set_wifiConfigReceived (v : bool) (x : State) :
  watchdogPaused (set_wifiConfigReceived v x) = watchdogPaused x.
Proof. reflexivity. Qed.

Lemma watchdogPaused_set_forceHttpNow (v : bool) (x : State) :
  watchdogPaused (set_forceHttpNow v x) = watchdogPaused x.
Proof. reflexivity. Qed.

Lemma watchdogPaused_set_lastFileCheckTime (v : Z) (x : State) :
  watchdogPaused (set_lastFileCheckTime v x) = watchdogPaused x.
Proof. reflexivity. Qed.

Lemma watchdogPaused_set_lastHttpTime (v : Z) (x : State) :
  watchdogPaused (set_lastHttpTime v x) = watchdogPaused x.
Proof. reflexivity. Qed.

Lemma watchdogPaused_set_lastWatchdogTime (v : Z) (x : State) :
  watchdogPaused (set_lastWatchdogTime v x) = watchdogPaused x.
Proof. reflexivity. Qed.

Lemma watchdogPaused_set_lastWifiCheck (v : Z) (x : State) :
  watchdogPaused (set_lastWifiCheck v x) = watchdogPaused x.
Proof. reflexivity. Qed.

Lemma watchdogPaused_set_lastClockMinute (v : Z) (x : State) :
  watchdogPaused (set_lastClockMinute v x) = watchdogPaused x.
Proof. reflexivity. Qed.

Lemma watchdogPaused_set_targetSSID (v : string) (x : State) :
  watchdogPaused (set_targetSSID v x) = watchdogPaused x.
Proof. reflexivity. Qed.

Lemma watchdogPaused_set_targetPass (v : string) (x : State) :
  watchdogPaused (set_targetPass v x) = watchdogPaused x.
Proof. reflexivity. Qed.

Lemma watchdogPaused_set_nvs_conf (v : Stored) (x : State) :
  watchdogPaused (set_nvs_conf v x) = watchdogPaused x.
Proof. reflexivity. Qed.

Lemma watchdogPaused_set_nvs_nets (v : list Credential) (x : State) :
  watchdogPaused (set_nvs_nets v x) = watchdogPaused x.
Proof. reflexivity. Qed.

Lemma watchdogPaused_set_sd_files (v : list SdFile) (x : State) :
  watchdogPaused (set_sd_files v x) = watchdogPaused x.
Proof. reflexivity. Qed.

Lemma watchdogPaused_safeNotify (message : Payload) (x : State) :
  watchdogPaused (safeNotify message x) = watchdogPaused x.
Proof. unfold safeNotify. now destruct (_ && _). Qed.

Lemma OnlyIO_watchdogPaused (s s' : State) : OnlyIO s s' -> watchdogPaused s' = watchdogPaused s.
Proof. intros [q evs files none]. reflexivity. Qed.

Lemma watchdogPaused_watchdogStep (x : State) :
  watchdogPaused (watchdogStep x) = watchdogPaused x.
Proof. apply OnlyIO_watchdogPaused, OnlyIO_watchdogStep. Qed.

Lemma watchdogPaused_processOfflineFiles (x : State) :
  watchdogPaused (processOfflineFiles x) = watchdogPaused x.
Proof. apply OnlyIO_watchdogPaused, OnlyIO_processOfflineFiles. Qed.

Lemma watchdogPaused_deliverReading (timeStr sensorData : string) (x : State) :
  watchdogPaused (deliverReading timeStr sensorData x) = watchdogPaused x.
Proof. apply OnlyIO_watchdogPaused, OnlyIO_deliverReading. Qed.

Lemma watchdogPaused_awaitLink (budget : nat) (x : State) :
  watchdogPaused (awaitLink budget x) = watchdogPaused x.
Proof. apply OnlyIO_watchdogPaused, OnlyIO_awaitLink. Qed.

Lemma watchdogPaused_tryAutoConnect (x : State) :
  watchdogPaused (snd (tryAutoConnect x)) = watchdogPaused x.
Proof. apply OnlyIO_watchdogPaused, OnlyIO_tryAutoConnect. Qed.

Lemma watchdogPaused_saveDataOffline (timestamp sensorData : string) (x : State) :
  watchdogPaused (snd (saveDataOffline timestamp sensorData x)) = watchdogPaused x.
Proof. apply OnlyIO_watchdogPaused, OnlyIO_saveDataOffline. Qed.

Create Rewrite HintDb watchdogPaused.

#[local] Hint Rewrite watchdogPaused_tick watchdogPaused_emit
  watchdogPaused_set_cfg watchdogPaused_set_deviceConnected
  watchdogPaused_set_triggerWifiScan watchdogPaused_set_wifiConfigReceived
  watchdogPaused_set_forceHttpNow watchdogPaused_set_lastFileCheckTime
  watchdogPaused_set_lastHttpTime watchdogPaused_set_lastWatchdogTime
  watchdogPaused_set_lastWifiCheck watchdogPaused_set_lastClockMinute
  watchdogPaused_set_targetSSID watchdogPaused_set_targetPass
  watchdogPaused_set_nvs_conf watchdogPaused_set_nvs_nets
  watchdogPaused_set_sd_files watchdogPaused_safeNotify
  watchdogPaused_watchdogStep watchdogPaused_processOfflineFiles
  watchdogPaused_deliverReading watchdogPaused_awaitLink
  watchdogPaused_tryAutoConnect watchdogPaused_saveDataOffline : watchdogPaused.

Lemma watchdogPaused_set (v : bool) (x : State) :
  watchdogPaused (set_watchdogPaused v x) = v.
Proof. reflexivity. Qed.

Lemma unpaused_drainStep (x : State) :
  watchdogPaused x = false -> watchdogPaused (drainStep x) = false.
Proof.
  intros U. unfold drainStep. cbv zeta.
  destruct (wifiConnected x); [|exact U].
  destruct (_ >? _); [reflexivity|exact U].
Qed.

Lemma watchdogPaused_modeTrigger (x : State) :
  watchdogPaused (snd (modeTrigger x)) = watchdogPaused x.
Proof.
  unfold modeTrigger. cbv zeta.
  destruct (UPDATE_MODE (cfg x) =? 0); [destruct (_ >? _); reflexivity|].
  destruct (UPDATE_MODE (cfg x) =? 1); [|reflexivity].
  destruct (localtime_at _ _) as [m|]; [destruct (_ && _)|]; reflexivity.
Qed.

Lemma watchdogPaused_shouldTrigger (x : State) :
  watchdogPaused (snd (shouldTrigger x)) = watchdogPaused x.
Proof.
  unfold shouldTrigger. rewrite <- (watchdogPaused_modeTrigger x).
  destruct (modeTrigger x) as [trigger y]. cbn [snd].
  destruct (forceHttpNow y); reflexivity.
Qed.

Lemma watchdogPaused_sendSensorData (x : State) :
  watchdogPaused (sendSensorData x) = watchdogPaused x.
Proof.
  unfold sendSensorData. cbv zeta.
  destruct (String.length _ =? 0)%nat; autorewrite with watchdogPaused;
    reflexivity.
Qed.

Lemma watchdogPaused_telemetryStep (x : State) :
  watchdogPaused (telemetryStep x) = watchdogPaused x.
Proof.
  unfold telemetryStep. rewrite <- (watchdogPaused_shouldTrigger x).
  destruct (shouldTrigger x) as [trigger y]. cbn [snd].
  destruct trigger; [apply watchdogPaused_sendSensorData|reflexivity].
Qed.

Lemma unpaused_scanStep (x : State) :
  watchdogPaused x = false -> watchdogPaused (scanStep x) = false.
Proof.
  intros U. unfold scanStep. cbv zeta.
  destruct (triggerWifiScan x); [reflexivity|exact U].
Qed.

Lemma unpaused_provisionStep (x : State) :
  watchdogPaused x = false -> watchdogPaused (provisionStep x) = false.
Proof.
  intros U. unfold provisionStep. cbv zeta.
  destruct (wifiConfigReceived x); [reflexivity|exact U].
Qed.

Lemma watchdogPaused_reconnectStep (x : State) :
  watchdogPaused (reconnectStep x) = watchdogPaused x.
Proof.
  unfold reconnectStep. cbv zeta.
  destruct (negb (wifiConnected x) && _); [|apply watchdogPaused_tick].
  destruct (_ >? _); autorewrite with watchdogPaused; reflexivity.
Qed.

Lemma unpaused_loop (s : State) :
  watchdogPaused s = false -> watchdogPaused (loop s) = false.
Proof.
  intros U. unfold loop. cbv zeta.
  rewrite watchdogPaused_reconnectStep.
  apply unpaused_provisionStep, unpaused_scanStep.
  rewrite watchdogPaused_telemetryStep.
  apply unpaused_drainStep. now rewrite watchdogPaused_watchdogStep.
Qed.

Lemma unpaused_step (e : Step) (s : State) :
  watchdogPaused s = false -> watchdogPaused (step e s) = false.
Proof.
  intros U. destruct e as [| | |value]; cbn [step].
  - now apply unpaused_loop.
  - exact U.
  - exact U.
  - pose proof (writeFixed_onWrite value s) as W. unfold writeFixed in W.
    injection W as _ _ _ _ P _ _ _ _ _. now rewrite P.
Qed.

(** X17. The watchdog is never left paused.  The loop pauses it around the
    drain of the queue, a scan and a connection attempt and lifts the pause
    before the iteration ends; no callback touches it.  So between any two
    steps of any run the flag is off. *)
Theorem run_never_leaves_watchdog_paused (steps : list Step) :
  forall s, watchdogPaused s = false -> watchdogPaused (run steps s) = false.
Proof.
  induction steps as [|e steps IH]; intros s U; [exact U|].
  change (run (e :: steps) s) with (run steps (step e s)).
  apply IH. now apply unpaused_step.
Qed.

Lemma run_never_leaves_watchdog_paused_witness :
  watchdogPaused
    (run [Connect; Write (Json (actionDoc "scan")); Loop; Loop]
         (bootState quietEnv [])) = false.
Proof. apply run_never_leaves_watchdog_paused. reflexivity. Defined.

(** ** Commands *)

Lemma target_handleAction (act : string) (x : State) :
  target (handleAction act x) = target x.
Proof.
  unfold handleAction, clearSavedWifi, safeNotify. cbv zeta.
  destruct (String.eqb act "scan"); [reflexivity|].
  destruct (String.eqb act "get_conf"); [now destruct (_ && _)|].
  destruct (String.eqb act "get_status").
  { destruct (wifiConnected x); now destruct (_ && _). }
  destruct (String.eqb act "forget_wifi"); [|reflexivity].
  cbn [deviceConnected notifyReady emit set_trace set_nvs_nets].
  destruct (deviceConnected x); [destruct (notifyReady x)|]; reflexivity.
Qed.

(** X18. The [action] key takes precedence.  A message that has one is a
    command and nothing else: whatever configuration fields or credentials
    it also carries, the configuration, its persisted record, the force flag
    and the pending connection request are left as they were.  When the
    action is a string the message neither restarts the device, nor crashes
    it, nor writes to the Modbus; when it is not a string the handler
    crashes on it, having done nothing but refresh the watchdog. *)
Theorem action_takes_precedence (doc : JsonDoc) (act : option string)
    (s : State) :
  j_action doc = Some act ->
  conf (onWrite (Json doc) s) = conf s /\
  target (onWrite (Json doc) s) = target s /\
  match act with
  | Some _ => Adds notActuation s (onWrite (Json doc) s)
  | None =>
      onWrite (Json doc) s
      = emit Crash (tick (set_lastWatchdogTime (millis s) s))
  end.
Proof.
  intros A. cbn [onWrite]. rewrite A.
  set (x := tick (set_lastWatchdogTime (millis s) s)).
  destruct act as [act|].
  - split; [|split].
    + now rewrite conf_handleAction.
    + now rewrite target_handleAction.
    + eapply Adds_trans; [|apply Adds_handleAction; reflexivity].
      unfold x. adds.
  - split; [reflexivity|split; reflexivity].
Qed.

Lemma action_takes_precedence_witness :
  conf (onWrite (Json brokenActionDoc) silentState) = conf silentState /\
  target (onWrite (Json brokenActionDoc) silentState)
    = target silentState /\
  onWrite (Json brokenActionDoc) silentState
    = emit Crash (tick (set_lastWatchdogTime (millis silentState)
                          silentState)).
Proof.
  apply (action_takes_precedence brokenActionDoc None). reflexivity.
Defined.

(** X19. After [forget_wifi] the store of saved networks is empty, the radio's
    own store has been erased and the link dropped, and a reconnection
    finds nothing to try: it reports failure without touching the radio. *)
Theorem forget_wifi_stops_reconnecting (doc : JsonDoc) (s : State) :
  j_action doc = Some (Some "forget_wifi") ->
  nvs_nets (onWrite (Json doc) s) = [] /\
  Emits WifiErase s (onWrite (Json doc) s) /\
  Emits WifiDisconnect s (onWrite (Json doc) s) /\
  tryAutoConnect (onWrite (Json doc) s) = (false, onWrite (Json doc) s).
Proof.
  intros A. cbn [onWrite]. rewrite A.
  set (x := tick (set_lastWatchdogTime (millis s) s)).
  assert (X : Adds anyEvent s x) by (unfold x; adds).
  unfold handleAction, clearSavedWifi. cbn [String.eqb Ascii.eqb Bool.eqb].
  cbv zeta.
  set (y := emit WifiErase (set_nvs_nets [] x)).
  set (z := if deviceConnected y
            then safeNotify (Text "Wi-Fi credentials erased.") y else y).
  assert (N : nvs_nets z = []).
  { unfold z, safeNotify. destruct (deviceConnected y); [|reflexivity].
    now destruct (_ && _). }
  assert (Z : Adds anyEvent y z).
  { unfold z. destruct (deviceConnected y); [|apply Adds_refl].
    now apply Adds_notify. }
  split; [exact N|split; [|split]].
  - eapply Emits_after; [|apply (Adds_emit anyEvent); reflexivity].
    eapply Emits_after; [|exact Z].
    eapply Emits_before; [exact X|].
    unfold y. eapply Emits_before; [apply (Adds_set_nvs_nets anyEvent)|].
    apply Emits_here.
  - eapply Emits_before; [exact X|].
    eapply Emits_before; [|apply Emits_here].
    eapply Adds_trans; [|exact Z]. unfold y. adds.
  - unfold tryAutoConnect. cbn [nvs_nets emit set_trace]. now rewrite N.
Qed.

Lemma forget_wifi_stops_reconnecting_witness :
  nvs_nets (onWrite (Json (actionDoc "forget_wifi")) silentState) = [] /\
  Emits WifiErase silentState
    (onWrite (Json (actionDoc "forget_wifi")) silentState) /\
  Emits WifiDisconnect silentState
    (onWrite (Json (actionDoc "forget_wifi")) silentState) /\
  tryAutoConnect (onWrite (Json (actionDoc "forget_wifi")) silentState)
    = (false, onWrite (Json (actionDoc "forget_wifi")) silentState).
Proof.
  apply forget_wifi_stops_reconnecting. reflexivity.
Defined.

(** ** A connection request *)

Lemma begins_app (e2 e1 : list Event) :
  begins (e2 ++ e1) = (begins e1 ++ begins e2)%list.
Proof. unfold begins. now rewrite rev_app_distr, flat_map_app. Qed.

Lemma begins_quiet (evs : list Event) :
  forallb notBegin evs = true -> begins evs = [].
Proof.
  induction evs as [|e evs IH]; [reflexivity|].
  cbn [forallb]. intros F. apply andb_prop in F as [Fe F].
  change (e :: evs) with ([e] ++ evs)%list. rewrite begins_app, (IH F).
  destruct e; try reflexivity. discriminate Fe.
Qed.

Lemma Joins_quiet (x y : State) : Adds notBegin x y -> Joins [] x y.
Proof.
  intros (evs & T & F). exists evs. split; [exact T|now apply begins_quiet].
Qed.

Lemma Joins_trans (l1 l2 : list Credential) (x y z : State) :
  Joins l1 x y -> Joins l2 y z -> Joins (l1 ++ l2) x z.
Proof.
  intros (e1 & T1 & B1) (e2 & T2 & B2). exists (e2 ++ e1)%list. split.
  - now rewrite T2, T1, app_assoc.
  - now rewrite begins_app, B1, B2.
Qed.

Lemma Joins_begin (ssid pass : string) (x : State) :
  Joins [(ssid, pass)] x (emit (WifiBegin ssid pass) x).
Proof. exists [WifiBegin ssid pass]. now split. Qed.

Lemma set_asked_tick (n : nat) (x : State) :
  set_asked n (tick x) = set_asked n x.
Proof. reflexivity. Qed.

(** The wait only looks at the link: it moves the query counter and
    nothing else. *)
Lemma awaitLink_eq (budget : nat) :
  forall x, awaitLink budget x = set_asked (asked (awaitLink budget x)) x.
Proof.
  induction budget as [|budget IH]; intros x; cbn [awaitLink];
    destruct (wifiConnected x); try reflexivity.
  rewrite (IH (tick x)) at 1. apply set_asked_tick.
Qed.

(** ... and how far it moves the counter is a matter of the environment and
    of the counter it starts from. *)
Lemma awaitLink_asked (budget : nat) :
  forall x y, env x = env y -> asked x = asked y ->
              asked (awaitLink budget x) = asked (awaitLink budget y).
Proof.
  induction budget as [|budget IH]; intros x y E A; cbn [awaitLink];
    unfold wifiConnected; rewrite E, A;
    destruct (wifi_at (env y) (asked y)); cbn [tick asked set_asked];
    try (now rewrite A).
  apply IH; [exact E|]. cbn [tick asked set_asked]. now rewrite A.
Qed.

Lemma provisionResult_fields (up : bool) (y : State) :
  wifiConfigReceived (provisionResult up y) = wifiConfigReceived y /\
  nvs_nets (provisionResult up y)
    = (if up then upsert (targetSSID y) (targetPass y) (nvs_nets y)
       else nvs_nets y) /\
  forceHttpNow (provisionResult up y) = (if up then true else forceHttpNow y).
Proof.
  unfold provisionResult, saveNetworkToMemory, setupTime, safeNotify.
  cbv zeta.
  destruct up; cbn [deviceConnected notifyReady tick set_asked];
    destruct (deviceConnected y && notifyReady y);
    split; try split; reflexivity.
Qed.

Lemma provisionStep_unfold (x : State) :
  wifiConfigReceived x = true ->
  exists y,
    provisionStep x
    = tick (set_lastWatchdogTime
              (millis (set_watchdogPaused false
                         (provisionResult (linkAfterWait x) y)))
              (set_watchdogPaused false
                 (provisionResult (linkAfterWait x) y))) /\
    wifiConfigReceived y = false /\
    targetSSID y = targetSSID x /\ targetPass y = targetPass x /\
    nvs_nets y = nvs_nets x /\ forceHttpNow y = forceHttpNow x /\
    Joins [(targetSSID x, targetPass x)] x y.
Proof.
  intros R. unfold provisionStep. rewrite R. cbv zeta.
  set (x2 := safeNotify (Text "Connecting...")
               (set_watchdogPaused true (set_wifiConfigReceived false x))).
  assert (F : (wifiConfigReceived x2, targetSSID x2, targetPass x2,
               nvs_nets x2, forceHttpNow x2, env x2, asked x2)
              = (false, targetSSID x, targetPass x, nvs_nets x,
                 forceHttpNow x, env x, asked x)).
  { unfold x2, safeNotify. now destruct (_ && _). }
  assert (J : Adds notBegin x x2).
  { unfold x2. eapply Adds_trans; [|now apply Adds_notify]. adds. }
  clearbody x2. injection F as Fr Fs Fp Fn Ff Fe Fa.
  cbn [targetSSID targetPass emit set_trace].
  set (x3 := emit (WifiBegin (targetSSID x2) (targetPass x2))
               (emit WifiDisconnect x2)).
  rewrite (awaitLink_eq WIFI_CONNECT_ATTEMPTS x3).
  assert (N : asked (awaitLink WIFI_CONNECT_ATTEMPTS x3)
              = asked (awaitLink WIFI_CONNECT_ATTEMPTS x)).
  { apply awaitLink_asked; [exact Fe|exact Fa]. }
  rewrite N. set (n := asked (awaitLink WIFI_CONNECT_ATTEMPTS x)).
  assert (U : wifiConnected (set_asked n x3) = linkAfterWait x).
  { unfold linkAfterWait. rewrite (awaitLink_eq WIFI_CONNECT_ATTEMPTS x).
    fold n. unfold wifiConnected, x3. cbn [env asked set_asked emit set_trace].
    now rewrite Fe. }
  rewrite U. exists (tick (set_asked n x3)).
  split; [reflexivity|].
  unfold x3.
  cbn [wifiConfigReceived targetSSID targetPass nvs_nets forceHttpNow tick
       set_asked emit set_trace].
  repeat (split; [assumption|]).
  change [(targetSSID x, targetPass x)]
    with ([] ++ [(targetSSID x, targetPass x)] ++ [])%list.
  eapply Joins_trans; [apply Joins_quiet, J|].
  eapply Joins_trans; [|apply Joins_quiet; adds].
  rewrite Fs, Fp.
  eapply (Joins_trans [] _ _ (emit WifiDisconnect x2));
    [apply Joins_quiet; adds|].
  apply Joins_begin.
Qed.

(** X20. A pending connection request is served by one join attempt, with the
    target ssid and password, and is cleared whatever the outcome.  If the
    link is up when the wait is over, the target is entered into the store
    of saved networks and a telemetry fire is forced; if not, the store and
    the force flag are left as they were. *)
Theorem connection_request_outcome (x : State) :
  wifiConfigReceived x = true ->
  wifiConfigReceived (provisionStep x) = false /\
  Joins [(targetSSID x, targetPass x)] x (provisionStep x) /\
  nvs_nets (provisionStep x)
    = (if linkAfterWait x
       then upsert (targetSSID x) (targetPass x) (nvs_nets x)
       else nvs_nets x) /\
  forceHttpNow (provisionStep x)
    = (if linkAfterWait x then true else forceHttpNow x).
Proof.
  intros R.
  destruct (provisionStep_unfold x R)
    as (y & E & Fr & Fs & Fp & Fn & Ff & J).
  rewrite E. clear E.
  destruct (provisionResult_fields (linkAfterWait x) y) as (Pr & Pn & Pf).
  cbn [wifiConfigReceived nvs_nets forceHttpNow tick set_asked
       set_lastWatchdogTime set_watchdogPaused].
  rewrite Pr, Pn, Pf, Fr, Fs, Fp, Fn, Ff.
  split; [reflexivity|split; [|split; reflexivity]].
  rewrite <- (app_nil_r [(targetSSID x, targetPass x)]).
  eapply Joins_trans; [exact J|]. apply Joins_quiet.
  adds_peel. adds_peel. adds_peel.
  apply (Adds_provisionResult notBegin (fun _ => eq_refl) y
           (or_intror (fun _ => eq_refl))).
  reflexivity.
Qed.

Lemma connection_request_outcome_witness :
  wifiConfigReceived (provisionStep requestState) = false /\
  Joins [(targetSSID requestState, targetPass requestState)] requestState
    (provisionStep requestState) /\
  nvs_nets (provisionStep requestState)
    = (if linkAfterWait requestState
       then upsert (targetSSID requestState) (targetPass requestState)
              (nvs_nets requestState)
       else nvs_nets requestState) /\
  forceHttpNow (provisionStep requestState)
    = (if linkAfterWait requestState then true
       else forceHttpNow requestState).
Proof. apply connection_request_outcome. reflexivity. Defined.

(** ** A scan *)

(** X21. A requested scan, with a subscribed session, pushes one list of
    network names and clears the request.  The list holds the non-empty
    names among the first 15 results of the scan, so at most 15 names and
    never an empty one; a named network after the 15th result is left out
    even when hidden networks came before it. *)
Theorem scan_report (x : State) :
  triggerWifiScan x = true ->
  deviceConnected x && notifyReady x = true ->
  exists array,
    Emits (Notify (SsidList array)) x (scanStep x) /\
    (List.length array <= MAX_SCAN_RESULTS)%nat /\
    (forall ssid,
       In ssid array <->
       ssid <> "" /\
       In ssid (firstn MAX_SCAN_RESULTS (scan_at (env x) (asked x)))) /\
    triggerWifiScan (scanStep x) = false.
Proof.
  intros T G. unfold scanStep. rewrite T. cbv zeta. unfold safeNotify.
  cbn [deviceConnected notifyReady set_triggerWifiScan set_watchdogPaused
       emit set_trace tick set_asked env asked].
  rewrite G.
  cbn [deviceConnected notifyReady set_triggerWifiScan set_watchdogPaused
       emit set_trace tick set_asked env asked].
  rewrite G.
  set (found := scan_at (env x) (asked x)).
  set (array := filter (fun ssid => (0 <? String.length ssid)%nat)
                  (firstn MAX_SCAN_RESULTS found)).
  exists array. split; [|split; [|split]].
  - exists [Notify (SsidList array); WifiScan; WifiDisconnect;
            Notify (Text "Scanning...")].
    split; [reflexivity|now left].
  - unfold array.
    eapply Nat.le_trans; [apply filter_length_le|].
    rewrite length_firstn. apply Nat.le_min_l.
  - intros ssid. unfold array. rewrite filter_In. split.
    + intros [I L]. split; [|exact I]. intros ->. discriminate L.
    + intros [N I]. split; [exact I|].
      destruct ssid; [now elim N|reflexivity].
  - reflexivity.
Qed.

Lemma scan_report_witness :
  exists array,
    Emits (Notify (SsidList array)) (set_triggerWifiScan true silentState)
      (scanStep (set_triggerWifiScan true silentState)) /\
    (List.length array <= MAX_SCAN_RESULTS)%nat /\
    (forall ssid,
       In ssid array <->
       ssid <> "" /\
       In ssid (firstn MAX_SCAN_RESULTS
                  (scan_at (env (set_triggerWifiScan true silentState))
                     (asked (set_triggerWifiScan true silentState))))) /\
    triggerWifiScan (scanStep (set_triggerWifiScan true silentState)) = false.
Proof. apply scan_report; reflexivity. Defined.

(** ** Clock-aligned mode with an interval of an hour or more *)

Lemma shouldTrigger_hourly (s : State) :
  UPDATE_MODE (cfg s) = 1 -> 3600 <= UPDATE_INTERVAL (cfg s) ->
  clockInRange s -> lastClockMinute s = 0 -> forceHttpNow s = false ->
  shouldTrigger s = (false, tick s).
Proof.
  intros mode hour range last force. unfold shouldTrigger, modeTrigger.
  rewrite mode. cbn [Z.eqb Pos.eqb]. cbv zeta.
  destruct (localtime_at (env s) (asked s)) as [m|] eqn:T.
  - assert (A : (Z.rem m (minInterval (cfg (tick s))) =? 0)
                && negb (m =? lastClockMinute (tick s)) = false).
    { change (cfg (tick s)) with (cfg s).
      change (lastClockMinute (tick s)) with (lastClockMinute s).
      rewrite last. pose proof (range _ _ T) as R.
      assert (K : 60 <= minInterval (cfg s)).
      { unfold minInterval. cbv zeta.
        assert (Q : 60 <= Z.quot (UPDATE_INTERVAL (cfg s)) 60).
        { change 60 with (Z.quot 3600 60) at 1.
          apply Z.quot_le_mono; lia. }
        destruct (_ <? 1) eqn:L; [apply Z.ltb_lt in L; lia|exact Q]. }
      rewrite Z.rem_small by lia.
      destruct (m =? 0); reflexivity. }
    rewrite A. change (forceHttpNow (tick s)) with (forceHttpNow s).
    now rewrite force.
  - change (forceHttpNow (tick s)) with (forceHttpNow s). now rewrite force.
Qed.

Lemma sched_loop_hourly (s : State) :
  UPDATE_MODE (cfg s) = 1 -> 3600 <= UPDATE_INTERVAL (cfg s) ->
  clockInRange s -> lastClockMinute s = 0 -> forceHttpNow s = false ->
  wifiConfigReceived s = false ->
  sched (loop s) = sched s.
Proof.
  intros mode hour range last force idle. unfold loop. cbv zeta.
  set (s1 := drainStep (watchdogStep s)).
  assert (E1 : sched s1 = sched s).
  { unfold s1. now rewrite sched_drainStep, sched_watchdogStep. }
  pose proof E1 as E1'. unfold sched in E1'.
  injection E1' as Ec Ee El Ef Ew En.
  set (s2 := telemetryStep s1).
  assert (E2 : sched s2 = sched s).
  { unfold s2, telemetryStep. rewrite (shouldTrigger_hourly s1).
    - now rewrite sched_tick.
    - now rewrite Ec.
    - now rewrite Ec.
    - unfold clockInRange. rewrite Ee. exact range.
    - now rewrite El.
    - now rewrite Ef. }
  rewrite sched_reconnectStep, provisionStep_idle.
  - now rewrite sched_scanStep.
  - pose proof (sched_scanStep s2) as E3. rewrite E2 in E3.
    unfold sched in E3. injection E3 as _ _ _ _ Ew3 _. now rewrite Ew3.
Qed.

(** X22. Clock-aligned mode with an interval of an hour or more fires once
    and never again.  Only minute 0 is a multiple of the interval in
    minutes, and a minute that has fired does not fire again: once the
    scheduler has fired at minute 0, no reading of the clock makes it fire,
    however many loop iterations run and whatever the hour; only a forced
    fire reads the sensor. *)
Theorem hourly_alignment_fires_no_more (n : nat) (s : State) :
  UPDATE_MODE (cfg s) = 1 -> 3600 <= UPDATE_INTERVAL (cfg s) ->
  clockInRange s -> lastClockMinute s = 0 -> forceHttpNow s = false ->
  wifiConfigReceived s = false ->
  fires (loops n s) = fires s.
Proof.
  intros mode hour range last force idle.
  enough (E : sched (loops n s) = sched s)
    by (unfold sched in E; now injection E).
  induction n as [|n IH]; [reflexivity|].
  cbn [loops]. pose proof IH as I. unfold sched in I.
  injection I as Ec Ee El Ef Ew En.
  rewrite sched_loop_hourly; [exact IH| | | | | |].
  - now rewrite Ec.
  - now rewrite Ec.
  - unfold clockInRange. rewrite Ee. exact range.
  - now rewrite El.
  - now rewrite Ef.
  - now rewrite Ew.
Qed.

Lemma hourly_alignment_fires_no_more_witness :
  fires (loops 50 (hourlyState 0)) = fires (hourlyState 0).
Proof.
  apply hourly_alignment_fires_no_more; try reflexivity.
  intros q m E. vm_compute in E. injection E as <-. lia.
Defined.

(** ** Files that are not queue entries *)

Lemma foreign_tick (x : State) :
  foreign (tick x) = foreign x.
Proof. reflexivity. Qed.

Lemma foreign_emit (e : Event) (x : State) :
  foreign (emit e x) = foreign x.
Proof. reflexivity. Qed.

Lemma foreign_set_cfg (v : Config) (x : State) :
  foreign (set_cfg v x) = foreign x.
Proof. reflexivity. Qed.

Lemma foreign_set_deviceConnected (v : bool) (x : State) :
  foreign (set_deviceConnected v x) = foreign x.
Proof. reflexivity. Qed.

Lemma foreign_set_triggerWifiScan (v : bool) (x : State) :
  foreign (set_triggerWifiScan v x) = foreign x.
Proof. reflexivity. Qed.

Lemma foreign_set_wifiConfigReceived (v : bool) (x : State) :
  foreign (set_wifiConfigReceived v x) = foreign x.
Proof. reflexivity. Qed.

Lemma foreign_set_watchdogPaused (v : bool) (x : State) :
  foreign (set_watchdogPaused v x) = foreign x.
Proof. reflexivity. Qed.

Lemma foreign_set_forceHttpNow (v : bool) (x : State) :
  foreign (set_forceHttpNow v x) = foreign x.
Proof. reflexivity. Qed.

Lemma foreign_set_lastFileCheckTime (v : Z) (x : State) :
  foreign (set_lastFileCheckTime v x) = foreign x.
Proof. reflexivity. Qed.

Lemma foreign_set_lastHttpTime (v : Z) (x : State) :
  foreign (set_lastHttpTime v x) = foreign x.
Proof. reflexivity. Qed.

Lemma foreign_set_lastWatchdogTime (v : Z) (x : State) :
  foreign (set_lastWatchdogTime v x) = foreign x.
Proof. reflexivity. Qed.

Lemma foreign_set_lastWifiCheck (v : Z) (x : State) :
  foreign (set_lastWifiCheck v x) = foreign x.
Proof. reflexivity. Qed.

Lemma foreign_set_lastClockMinute (v : Z) (x : State) :
  foreign (set_lastClockMinute v x) = foreign x.
Proof. reflexivity. Qed.

Lemma foreign_set_targetSSID (v : string) (x : State) :
  foreign (set_targetSSID v x) = foreign x.
Proof. reflexivity. Qed.

Lemma foreign_set_targetPass (v : string) (x : State) :
  foreign (set_targetPass v x) = foreign x.
Proof. reflexivity. Qed.

Lemma foreign_set_nvs_conf (v : Stored) (x : State) :
  foreign (set_nvs_conf v x) = foreign x.
Proof. reflexivity. Qed.

Lemma foreign_set_nvs_nets (v : list Credential) (x : State) :
  foreign (set_nvs_nets v x) = foreign x.
Proof. reflexivity. Qed.

Lemma foreign_safeNotify (message : Payload) (x : State) :
  foreign (safeNotify message x) = foreign x.
Proof. unfold safeNotify. now destruct (_ && _). Qed.

Create Rewrite HintDb foreign.

#[local] Hint Rewrite foreign_tick foreign_emit foreign_set_cfg
  foreign_set_deviceConnected foreign_set_triggerWifiScan
  foreign_set_wifiConfigReceived foreign_set_watchdogPaused
  foreign_set_forceHttpNow foreign_set_lastFileCheckTime
  foreign_set_lastHttpTime foreign_set_lastWatchdogTime
  foreign_set_lastWifiCheck foreign_set_lastClockMinute foreign_set_targetSSID
  foreign_set_targetPass foreign_set_nvs_conf foreign_set_nvs_nets
  foreign_safeNotify : foreign.

Lemma foreign_set_asked (n : nat) (x : State) :
  foreign (set_asked n x) = foreign x.
Proof. reflexivity. Qed.

Lemma notQueued_sd_remove (path : string) (files : list SdFile) :
  Str.endsWith ".txt" path = true ->
  filter notQueued (sd_remove path files) = filter notQueued files.
Proof.
  intros Q. unfold sd_remove.
  induction files as [|f files IH]; [reflexivity|]. cbn [filter].
  destruct (String.eqb (fst f) path) eqn:E; cbn [negb].
  - apply String.eqb_eq in E. unfold notQueued at 2. rewrite E, Q.
    cbn [negb]. exact IH.
  - cbn [filter]. now rewrite IH.
Qed.

Lemma notQueued_sd_put (path content : string) (files : list SdFile) :
  Str.endsWith ".txt" path = true ->
  filter notQueued (sd_put path content files) = filter notQueued files.
Proof.
  intros Q.
  assert (N : notQueued (path, content) = false)
    by (unfold notQueued; cbn [fst]; now rewrite Q).
  induction files as [|f files IH]; cbn [sd_put filter].
  - now rewrite N.
  - destruct (String.eqb (fst f) path) eqn:E; cbn [filter].
    + apply String.eqb_eq in E. rewrite N. unfold notQueued at 2.
      now rewrite E, Q.
    + now rewrite IH.
Qed.

Lemma foreign_SD_remove (path : string) (x : State) :
  Str.endsWith ".txt" path = true -> foreign (SD_remove path x) = foreign x.
Proof.
  intros Q. unfold foreign, SD_remove.
  cbn [sd_files emit set_trace set_sd_files].
  now apply notQueued_sd_remove.
Qed.

Lemma queueFilename_txt (timestamp : string) :
  Str.endsWith ".txt" (queueFilename timestamp) = true.
Proof. unfold queueFilename. apply StrFacts.endsWith_app. Qed.

Lemma foreign_saveDataOffline (timestamp sensorData : string) (x : State) :
  foreign (snd (saveDataOffline timestamp sensorData x)) = foreign x.
Proof.
  unfold saveDataOffline. cbv zeta.
  destruct (negb (sdReady x)); [reflexivity|].
  destruct (negb (sd_open_at _ _ _)); [reflexivity|].
  assert (E : forall y, foreign (snd (if u32 (millis (set_sd_files
                 (sd_put (queueFilename timestamp)
                    (queueLine timestamp sensorData)
                    (sd_files (tick (tick x)))) (tick (tick x)))
                 - millis x) >? SD_OPERATION_TIMEOUT
               then (false, y) else (true, y))) = foreign y)
    by (intros y; now destruct (_ >? _)).
  rewrite E. unfold foreign.
  cbn [sd_files tick set_asked set_sd_files].
  apply notQueued_sd_put, queueFilename_txt.
Qed.

Lemma foreign_deliverReading (timeStr sensorData : string) (x : State) :
  foreign (deliverReading timeStr sensorData x) = foreign x.
Proof.
  unfold deliverReading. cbv zeta. destruct (httpGet _ x) as [code resp].
  destruct (accepted code resp); [reflexivity|].
  now rewrite foreign_saveDataOffline.
Qed.

Lemma foreign_drainLoop (dir : list SdFile) (start : Z) :
  forall processed x, foreign (drainLoop dir start processed x) = foreign x.
Proof.
  induction dir as [|file dir IH]; intros processed x.
  - rewrite drainLoop_nil. reflexivity.
  - rewrite drainLoop_cons.
    destruct (processed <? MAX_FILES); [|reflexivity].
    destruct (timedOut start x); [reflexivity|].
    destruct (Str.endsWith ".txt" (fst file)) eqn:Q; cbn [negb];
      [|now rewrite IH].
    destruct (_ <? 0).
    + rewrite IH. now rewrite foreign_SD_remove.
    + destruct (accepted _ _); [|reflexivity].
      rewrite IH. now rewrite foreign_SD_remove.
Qed.

Lemma foreign_processOfflineFiles (x : State) :
  foreign (processOfflineFiles x) = foreign x.
Proof.
  unfold processOfflineFiles. cbv zeta.
  destruct (negb (sdReady x)); [reflexivity|].
  destruct (negb (wifiConnected x)); [reflexivity|].
  destruct (negb (sd_open_at _ _ _)); [reflexivity|].
  now rewrite foreign_drainLoop.
Qed.

Lemma foreign_watchdogStep (x : State) :
  foreign (watchdogStep x) = foreign x.
Proof.
  unfold watchdogStep. cbv zeta. destruct (_ && _); [|reflexivity].
  now destruct (_ >? _).
Qed.

Lemma foreign_awaitLink (budget : nat) (x : State) :
  foreign (awaitLink budget x) = foreign x.
Proof. now rewrite awaitLink_eq. Qed.

Lemma foreign_tryNetworks (savedNets : list Credential) :
  forall x, foreign (snd (tryNetworks savedNets x)) = foreign x.
Proof.
  induction savedNets as [|obj rest IH]; intros x; cbn [tryNetworks];
    [reflexivity|].
  set (x1 := awaitLink 8 _).
  assert (E : foreign (tick x1) = foreign x)
    by (unfold x1; now rewrite foreign_tick, foreign_awaitLink).
  destruct (wifiConnected x1); cbn [snd]; [exact E|].
  now rewrite IH.
Qed.

Lemma foreign_tryAutoConnect (x : State) :
  foreign (snd (tryAutoConnect x)) = foreign x.
Proof.
  unfold tryAutoConnect. destruct (nvs_nets x); [reflexivity|].
  apply foreign_tryNetworks.
Qed.

#[local] Hint Rewrite foreign_processOfflineFiles foreign_watchdogStep
  foreign_awaitLink foreign_tryAutoConnect foreign_deliverReading : foreign.

Lemma foreign_drainStep (x : State) : foreign (drainStep x) = foreign x.
Proof.
  unfold drainStep. cbv zeta.
  destruct (wifiConnected x); [|apply foreign_tick].
  destruct (_ >? _); autorewrite with foreign; reflexivity.
Qed.

Lemma foreign_modeTrigger (x : State) :
  foreign (snd (modeTrigger x)) = foreign x.
Proof.
  unfold modeTrigger. cbv zeta.
  destruct (UPDATE_MODE (cfg x) =? 0); [destruct (_ >? _); reflexivity|].
  destruct (UPDATE_MODE (cfg x) =? 1); [|reflexivity].
  destruct (localtime_at _ _) as [m|]; [destruct (_ && _)|]; reflexivity.
Qed.

Lemma foreign_shouldTrigger (x : State) :
  foreign (snd (shouldTrigger x)) = foreign x.
Proof.
  unfold shouldTrigger. rewrite <- (foreign_modeTrigger x).
  destruct (modeTrigger x) as [trigger y]. cbn [snd].
  destruct (forceHttpNow y); reflexivity.
Qed.

Lemma foreign_sendSensorData (x : State) :
  foreign (sendSensorData x) = foreign x.
Proof.
  unfold sendSensorData. cbv zeta.
  destruct (String.length _ =? 0)%nat; autorewrite with foreign; reflexivity.
Qed.

Lemma foreign_telemetryStep (x : State) :
  foreign (telemetryStep x) = foreign x.
Proof.
  unfold telemetryStep. rewrite <- (foreign_shouldTrigger x).
  destruct (shouldTrigger x) as [trigger y]. cbn [snd].
  destruct trigger; [apply foreign_sendSensorData|reflexivity].
Qed.

Lemma foreign_scanStep (x : State) : foreign (scanStep x) = foreign x.
Proof.
  unfold scanStep. cbv zeta. destruct (triggerWifiScan x); [|reflexivity].
  autorewrite with foreign. reflexivity.
Qed.

Lemma foreign_provisionResult (up : bool) (x : State) :
  foreign (provisionResult up x) = foreign x.
Proof.
  unfold provisionResult, saveNetworkToMemory, setupTime. cbv zeta.
  destruct up; autorewrite with foreign; reflexivity.
Qed.

Lemma foreign_provisionStep (x : State) :
  foreign (provisionStep x) = foreign x.
Proof.
  unfold provisionStep. cbv zeta.
  destruct (wifiConfigReceived x); [|reflexivity].
  rewrite foreign_tick, foreign_set_lastWatchdogTime,
    foreign_set_watchdogPaused, foreign_provisionResult.
  autorewrite with foreign. reflexivity.
Qed.

Lemma foreign_reconnectStep (x : State) :
  foreign (reconnectStep x) = foreign x.
Proof.
  unfold reconnectStep. cbv zeta.
  destruct (negb (wifiConnected x) && _); [|apply foreign_tick].
  destruct (_ >? _); autorewrite with foreign; reflexivity.
Qed.

Lemma foreign_loop (s : State) : foreign (loop s) = foreign s.
Proof.
  unfold loop. cbv zeta.
  now rewrite foreign_reconnectStep, foreign_provisionStep, foreign_scanStep,
    foreign_telemetryStep, foreign_drainStep, foreign_watchdogStep.
Qed.

Lemma foreign_step (e : Step) (s : State) :
  foreign (step e s) = foreign s.
Proof.
  destruct e as [| | |value]; cbn [step].
  - apply foreign_loop.
  - reflexivity.
  - reflexivity.
  - pose proof (writeFixed_onWrite value s) as W. unfold writeFixed in W.
    injection W as _ F _ _ _ _ _ _ _ _. unfold foreign. now rewrite F.
Qed.

(** X23. The firmware only ever touches queue entries on the card.  A file
    whose name does not end in [.txt] is neither removed by the drainer nor
    overwritten by the queueing of a reading: whatever the firmware goes
    through, these files are the same, in the same order, with the same
    content. *)
Theorem run_keeps_foreign_files (steps : list Step) :
  forall s, foreign (run steps s) = foreign s.
Proof.
  induction steps as [|e steps IH]; intros s; [reflexivity|].
  change (run (e :: steps) s) with (run steps (step e s)).
  rewrite IH. apply foreign_step.
Qed.

(** ** Credentials *)

Lemma dropSpaces_empty (s : string) :
  Str.dropSpaces s = "" -> Str.blank s = true.
Proof.
  induction s as [|a r IH]; cbn [Str.blank Str.dropSpaces]; [reflexivity|].
  destruct (Str.isspace a); [exact IH|discriminate].
Qed.

Lemma blank_app (a b : string) :
  Str.blank (a ++ b) = Str.blank a && Str.blank b.
Proof.
  induction a as [|c a IH]; [reflexivity|]. cbn [append Str.blank].
  now rewrite IH, andb_assoc.
Qed.

Lemma blank_rev (s : string) : Str.blank (Str.rev s) = Str.blank s.
Proof.
  induction s as [|a r IH]; [reflexivity|]. cbn [Str.rev Str.blank].
  rewrite blank_app, IH. cbn [Str.blank]. rewrite andb_true_r.
  apply andb_comm.
Qed.

Lemma blank_dropSpaces (s : string) :
  Str.blank (Str.dropSpaces s) = Str.blank s.
Proof.
  induction s as [|a r IH]; [reflexivity|]. cbn [Str.dropSpaces Str.blank].
  destruct (Str.isspace a) eqn:W; [exact IH|].
  cbn [Str.blank]. now rewrite W.
Qed.

Lemma blank_trim (s : string) : Str.blank (Str.trim s) = Str.blank s.
Proof.
  unfold Str.trim.
  now rewrite blank_rev, blank_dropSpaces, blank_rev, blank_dropSpaces.
Qed.

(** What is left of a string that is not blank is not empty. *)
Lemma trim_nonblank (s : string) :
  Str.blank s = false -> (0 <? String.length (Str.trim s))%nat = true.
Proof.
  intros B. rewrite <- blank_trim in B.
  destruct (Str.trim s); [discriminate B|reflexivity].
Qed.

Lemma handleCredentials_named (ssid : option string) (doc : JsonDoc)
    (x : State) :
  Str.blank (ofCString ssid) = false ->
  let pass := match j_pass doc with
              | Some pass => ofCString pass
              | None => ""
              end in
  handleCredentials ssid doc x =
  set_wifiConfigReceived true
    (set_targetPass (Str.trim pass)
       (set_targetSSID (Str.trim (ofCString ssid))
          (set_targetPass pass (set_targetSSID (ofCString ssid) x)))).
Proof.
  intros B. unfold handleCredentials. cbv zeta.
  cbn [targetSSID targetPass set_targetSSID set_targetPass].
  now rewrite (trim_nonblank _ B).
Qed.

Lemma Joins_Emits (nets : list Credential) (ssid pass : string)
    (x y : State) :
  Joins nets x y -> In (ssid, pass) nets -> Emits (WifiBegin ssid pass) x y.
Proof.
  intros (evs & T & B) I. exists evs. split; [exact T|].
  rewrite <- B in I. unfold begins in I. apply in_flat_map in I.
  destruct I as (e & Ie & Ic). apply in_rev in Ie.
  destruct e; try (now elim Ic).
  destruct Ic as [Ic|[]]. injection Ic as -> ->. exact Ie.
Qed.

Lemma wifiConfigReceived_tick (x : State) :
  wifiConfigReceived (tick x) = wifiConfigReceived x.
Proof. reflexivity. Qed.

Lemma wifiConfigReceived_emit (e : Event) (x : State) :
  wifiConfigReceived (emit e x) = wifiConfigReceived x.
Proof. reflexivity. Qed.

Lemma wifiConfigReceived_set_cfg (v : Config) (x : State) :
  wifiConfigReceived (set_cfg v x) = wifiConfigReceived x.
Proof. reflexivity. Qed.

Lemma wifiConfigReceived_set_deviceConnected (v : bool) (x : State) :
  wifiConfigReceived (set_deviceConnected v x) = wifiConfigReceived x.
Proof. reflexivity. Qed.

Lemma wifiConfigReceived_set_triggerWifiScan (v : bool) (x : State) :
  wifiConfigReceived (set_triggerWifiScan v x) = wifiConfigReceived x.
Proof. reflexivity. Qed.

Lemma wifiConfigReceived_set_watchdogPaused (v : bool) (x : State) :
  wifiConfigReceived (set_watchdogPaused v x) = wifiConfigReceived x.
Proof. reflexivity. Qed.

Lemma wifiConfigReceived_set_forceHttpNow (v : bool) (x : State) :
  wifiConfigReceived (set_forceHttpNow v x) = wifiConfigReceived x.
Proof. reflexivity. Qed.

Lemma wifiConfigReceived_set_lastFileCheckTime (v : Z) (x : State) :
  wifiConfigReceived (set_lastFileCheckTime v x) = wifiConfigReceived x.
Proof. reflexivity. Qed.

Lemma wifiConfigReceived_set_lastHttpTime (v : Z) (x : State) :
  wifiConfigReceived (set_lastHttpTime v x) = wifiConfigReceived x.
Proof. reflexivity. Qed.

Lemma wifiConfigReceived_set_lastWatchdogTime (v : Z) (x : State) :
  wifiConfigReceived (set_lastWatchdogTime v x) = wifiConfigReceived x.
Proof. reflexivity. Qed.

Lemma wifiConfigReceived_set_lastWifiCheck (v : Z) (x : State) :
  wifiConfigReceived (set_lastWifiCheck v x) = wifiConfigReceived x.
Proof. reflexivity. Qed.

Lemma wifiConfigReceived_set_lastClockMinute (v : Z) (x : State) :
  wifiConfigReceived (set_lastClockMinute v x) = wifiConfigReceived x.
Proof. reflexivity. Qed.

Lemma wifiConfigReceived_set_targetSSID (v : string) (x : State) :
  wifiConfigReceived (set_targetSSID v x) = wifiConfigReceived x.
Proof. reflexivity. Qed.

Lemma wifiConfigReceived_set_targetPass (v : string) (x : State) :
  wifiConfigReceived (set_targetPass v x) = wifiConfigReceived x.
Proof. reflexivity. Qed.

Lemma wifiConfigReceived_set_nvs_conf (v : Stored) (x : State) :
  wifiConfigReceived (set_nvs_conf v x) = wifiConfigReceived x.
Proof. reflexivity. Qed.

Lemma wifiConfigReceived_set_nvs_nets (v : list Credential) (x : State) :
  wifiConfigReceived (set_nvs_nets v x) = wifiConfigReceived x.
Proof. reflexivity. Qed.

Lemma wifiConfigReceived_set_sd_files (v : list SdFile) (x : State) :
  wifiConfigReceived (set_sd_files v x) = wifiConfigReceived x.
Proof. reflexivity. Qed.

Lemma wifiConfigReceived_safeNotify (message : Payload) (x : State) :
  wifiConfigReceived (safeNotify message x) = wifiConfigReceived x.
Proof. unfold safeNotify. now destruct (_ && _). Qed.

Lemma OnlyIO_wifiConfigReceived (s s' : State) : OnlyIO s s' -> wifiConfigReceived s' = wifiConfigReceived s.
Proof. intros [q evs files none]. reflexivity. Qed.

Lemma wifiConfigReceived_watchdogStep (x : State) :
  wifiConfigReceived (watchdogStep x) = wifiConfigReceived x.
Proof. apply OnlyIO_wifiConfigReceived, OnlyIO_watchdogStep. Qed.

Lemma wifiConfigReceived_processOfflineFiles (x : State) :
  wifiConfigReceived (processOfflineFiles x) = wifiConfigReceived x.
Proof. apply OnlyIO_wifiConfigReceived, OnlyIO_processOfflineFiles. Qed.

Lemma wifiConfigReceived_deliverReading (timeStr sensorData : string) (x : State) :
  wifiConfigReceived (deliverReading timeStr sensorData x) = wifiConfigReceived x.
Proof. apply OnlyIO_wifiConfigReceived, OnlyIO_deliverReading. Qed.

Lemma wifiConfigReceived_awaitLink (budget : nat) (x : State) :
  wifiConfigReceived (awaitLink budget x) = wifiConfigReceived x.
Proof. apply OnlyIO_wifiConfigReceived, OnlyIO_awaitLink. Qed.

Lemma wifiConfigReceived_tryAutoConnect (x : State) :
  wifiConfigReceived (snd (tryAutoConnect x)) = wifiConfigReceived x.
Proof. apply OnlyIO_wifiConfigReceived, OnlyIO_tryAutoConnect. Qed.

Lemma wifiConfigReceived_saveDataOffline (timestamp sensorData : string) (x : State) :
  wifiConfigReceived (snd (saveDataOffline timestamp sensorData x)) = wifiConfigReceived x.
Proof. apply OnlyIO_wifiConfigReceived, OnlyIO_saveDataOffline. Qed.

Create Rewrite HintDb wifiConfigReceived.

#[local] Hint Rewrite wifiConfigReceived_tick wifiConfigReceived_emit
  wifiConfigReceived_set_cfg wifiConfigReceived_set_deviceConnected
  wifiConfigReceived_set_triggerWifiScan wifiConfigReceived_set_watchdogPaused
  wifiConfigReceived_set_forceHttpNow wifiConfigReceived_set_lastFileCheckTime
  wifiConfigReceived_set_lastHttpTime wifiConfigReceived_set_lastWatchdogTime
  wifiConfigReceived_set_lastWifiCheck wifiConfigReceived_set_lastClockMinute
  wifiConfigReceived_set_targetSSID wifiConfigReceived_set_targetPass
  wifiConfigReceived_set_nvs_conf wifiConfigReceived_set_nvs_nets
  wifiConfigReceived_set_sd_files wifiConfigReceived_safeNotify
  wifiConfigReceived_watchdogStep wifiConfigReceived_processOfflineFiles
  wifiConfigReceived_deliverReading wifiConfigReceived_awaitLink
  wifiConfigReceived_tryAutoConnect wifiConfigReceived_saveDataOffline : wifiConfigReceived.

Lemma request_scanStep (x : State) :
  wifiConfigReceived (scanStep x) = wifiConfigReceived x.
Proof.
  unfold scanStep. cbv zeta. destruct (triggerWifiScan x); [|reflexivity].
  autorewrite with wifiConfigReceived. reflexivity.
Qed.

Lemma request_reconnectStep (x : State) :
  wifiConfigReceived (reconnectStep x) = wifiConfigReceived x.
Proof.
  unfold reconnectStep. cbv zeta.
  destruct (negb (wifiConnected x) && _); [|reflexivity].
  destruct (_ >? _); autorewrite with wifiConfigReceived; reflexivity.
Qed.

(** X24. A credentials message whose ssid is not blank sets the pending
    connection request to the trimmed ssid and password, without a word on
    the channel; and the next loop iteration tries to join that network
    with exactly these, and clears the request. *)
Theorem credentials_start_a_join (doc : JsonDoc) (ssid : option string)
    (s : State) :
  j_action doc = None -> isConfigPatch doc = false ->
  j_ssid doc = Some ssid -> Str.blank (ofCString ssid) = false ->
  let pass := match j_pass doc with
              | Some pass => ofCString pass
              | None => ""
              end in
  let s' := onWrite (Json doc) s in
  target s' = (Str.trim (ofCString ssid), Str.trim pass, true) /\
  trace s' = trace s /\
  Emits (WifiBegin (Str.trim (ofCString ssid)) (Str.trim pass)) s' (loop s') /\
  wifiConfigReceived (loop s') = false.
Proof.
  intros A P J B pass s'.
  assert (E : s' = set_wifiConfigReceived true
                     (set_targetPass (Str.trim pass)
                        (set_targetSSID (Str.trim (ofCString ssid))
                           (set_targetPass pass
                              (set_targetSSID (ofCString ssid)
                                 (tick (set_lastWatchdogTime (millis s)
                                          s))))))).
  { unfold s'. cbn [onWrite]. rewrite A, P, J.
    apply (handleCredentials_named ssid doc _ B). }
  assert (T : target s' = (Str.trim (ofCString ssid), Str.trim pass, true))
    by (rewrite E; reflexivity).
  assert (Tr : trace s' = trace s) by (rewrite E; reflexivity).
  clearbody s'. clear E. split; [exact T|split; [exact Tr|]].
  unfold target in T. injection T as Ts Tp Tw.
  unfold loop. cbv zeta.
  set (s3 := telemetryStep (drainStep (watchdogStep s'))).
  set (s4 := scanStep s3).
  assert (F4 : loopFixed s4 = loopFixed s').
  { unfold s4, s3.
    now rewrite loopFixed_scanStep, loopFixed_telemetryStep,
      loopFixed_drainStep, loopFixed_watchdogStep. }
  assert (P3 : pending s3 = pending s').
  { unfold s3.
    now rewrite pending_telemetryStep, pending_drainStep,
      pending_watchdogStep. }
  assert (W4 : wifiConfigReceived s4 = true).
  { unfold s4. rewrite request_scanStep. unfold pending in P3.
    injection P3 as _ _ W. now rewrite W. }
  assert (S4 : targetSSID s4 = Str.trim (ofCString ssid)
               /\ targetPass s4 = Str.trim pass).
  { unfold loopFixed in F4. injection F4 as _ _ _ _ _ Fs Fp _.
    now rewrite Fs, Fp. }
  destruct S4 as [Ss Sp].
  assert (B4 : Adds anyEvent s' s4).
  { apply (Adds_any _ _ notRestart). unfold s4, s3.
    eapply Adds_trans; [|apply Adds_scanStep; [reflexivity|reflexivity|]].
    - eapply Adds_trans; [|apply Adds_telemetryStep; reflexivity].
      eapply Adds_trans; [|apply Adds_drainStep; reflexivity].
      apply Adds_watchdogStep. reflexivity.
    - right. reflexivity. }
  destruct (provisionStep_unfold s4 W4) as (y & E & Fr & _ & _ & _ & _ & Jn).
  set (r := provisionResult (linkAfterWait s4) y) in E.
  assert (R : Adds anyEvent y r).
  { apply (Adds_any _ _ notBegin).
    apply (Adds_provisionResult notBegin (fun _ => eq_refl) y
             (or_intror (fun _ => eq_refl))). reflexivity. }
  assert (Wr : wifiConfigReceived r = false).
  { unfold r.
    destruct (provisionResult_fields (linkAfterWait s4) y) as (Pr & _).
    now rewrite Pr. }
  assert (Q : Adds anyEvent r (provisionStep s4)) by (rewrite E; adds).
  assert (Wp : wifiConfigReceived (provisionStep s4) = false)
    by (rewrite E; exact Wr).
  clear E. split.
  - eapply Emits_after;
      [|apply (Adds_any _ _ notRestart), Adds_reconnectStep; reflexivity].
    eapply Emits_before; [exact B4|].
    eapply Emits_after; [|exact Q].
    eapply Emits_after; [|exact R].
    apply (Joins_Emits _ _ _ _ _ Jn). rewrite Ss, Sp. now left.
  - now rewrite request_reconnectStep.
Qed.

Lemma credentials_start_a_join_witness :
  let s' := onWrite (Json (credentialsDoc " plant " "secret")) silentState in
  target s' = ("plant", "secret", true) /\
  trace s' = trace silentState /\
  Emits (WifiBegin "plant" "secret") s' (loop s') /\
  wifiConfigReceived (loop s') = false.
Proof.
  apply (credentials_start_a_join (credentialsDoc " plant " "secret")
           (Some " plant ")); reflexivity.
Defined.

(** ** The delivery request and the queue entry of a reading *)

Lemma replaceChar_absent (c : ascii) (by_ s : string) :
  Str.indexOfChar c by_ < 0 ->
  Str.indexOfChar c (Str.replaceChar c by_ s) < 0.
Proof.
  intros B. induction s as [|a r IH]; cbn [Str.replaceChar].
  - cbn [Str.indexOfChar]. lia.
  - destruct (Ascii.eqb a c) eqn:E.
    + now apply StrFacts.indexOfChar_absent_join.
    + cbn [Str.indexOfChar]. rewrite E.
      apply Z.ltb_lt in IH. rewrite IH. lia.
Qed.

(** X25. The delivery request never contains a space, whatever the server
    address, the device identifier, the value and the timestamp are: every
    space has become [%20]. *)
Theorem deliveryUrl_has_no_space (c : Config) (val ts : string) :
  Str.indexOfChar " " (deliveryUrl c val ts) = -1.
Proof.
  unfold deliveryUrl.
  pose proof (replaceChar_absent " " "%20"
                (API_URL c ++ "?device_code=" ++ DEVICE_ID c ++
                 "&field1=" ++ val ++ "&timestamp=" ++ ts)) as A.
  pose proof (StrFacts.indexOfChar_lower " "
                (Str.replaceChar " " "%20"
                   (API_URL c ++ "?device_code=" ++ DEVICE_ID c ++
                    "&field1=" ++ val ++ "&timestamp=" ++ ts))) as L.
  assert (B : Str.indexOfChar " " "%20" < 0) by reflexivity.
  specialize (A B). lia.
Qed.

Lemma sd_put_put (path c1 c2 : string) (files : list SdFile) :
  sd_put path c2 (sd_put path c1 files) = sd_put path c2 files.
Proof.
  induction files as [|f files IH]; cbn [sd_put].
  - cbn [fst]. now rewrite String.eqb_refl.
  - destruct (String.eqb (fst f) path) eqn:E; cbn [sd_put fst].
    + now rewrite String.eqb_refl.
    + now rewrite E, IH.
Qed.

(** X26. The queue holds one reading per timestamp.  A reading queued under
    the timestamp of an entry already on the card takes the place of that
    entry: after the two writes the card is as if the first reading had
    never been queued. *)
Theorem same_timestamp_overwrites (timestamp first second : string)
    (s : State) :
  sdReady s = true ->
  sdOpens (queueFilename timestamp) s = true ->
  sdOpens (queueFilename timestamp)
    (snd (saveDataOffline timestamp first s)) = true ->
  sd_files (snd (saveDataOffline timestamp second
                   (snd (saveDataOffline timestamp first s))))
  = sd_put (queueFilename timestamp) (queueLine timestamp second)
      (sd_files s).
Proof.
  intros ready opens1 opens2.
  pose proof (saveDataOffline_spec timestamp first s) as S1.
  cbv zeta in S1. rewrite ready, opens1 in S1. cbn [andb] in S1.
  destruct S1 as [F1 _].
  set (s1 := snd (saveDataOffline timestamp first s)) in *.
  assert (R1 : sdReady s1 = true).
  { pose proof (loopFixed_saveDataOffline timestamp first s) as L.
    fold s1 in L. unfold loopFixed in L. injection L as _ _ R _ _ _ _ _.
    now rewrite R. }
  pose proof (saveDataOffline_spec timestamp second s1) as S2.
  cbv zeta in S2. rewrite R1, opens2 in S2. cbn [andb] in S2.
  destruct S2 as [F2 _]. rewrite F2, F1. apply sd_put_put.
Qed.

Lemma same_timestamp_overwrites_witness :
  sd_files (snd (saveDataOffline "2024-05-01 10:00:00" "23.50"
                   (snd (saveDataOffline "2024-05-01 10:00:00" "23.40"
                           (bootState quietEnv [])))))
  = sd_put (queueFilename "2024-05-01 10:00:00")
      (queueLine "2024-05-01 10:00:00" "23.50")
      (sd_files (bootState quietEnv [])).
Proof.
  apply same_timestamp_overwrites; vm_compute; reflexivity.
Defined.

(** ** A message with a blank ssid *)




(** ** Telemetry and the watchdog *)

Lemma Stamped_same (x y : State) :
  env y = env x -> asked y = asked x ->
  lastWatchdogTime y = lastWatchdogTime x -> Stamped x y.
Proof.
  intros E A L. split; [exact E|]. split; [rewrite A; apply Nat.le_refl|].
  now left.
Qed.

Lemma Stamped_refl (x : State) : Stamped x x.
Proof. apply Stamped_same; reflexivity. Qed.

Lemma Stamped_trans (x y z : State) :
  Stamped x y -> Stamped y z -> Stamped x z.
Proof.
  intros (E1 & A1 & L1) (E2 & A2 & L2).
  split; [congruence|]. split; [eapply Nat.le_trans; eassumption|].
  destruct L2 as [L2|(q & [Q1 Q2] & L2)].
  - destruct L1 as [L1|(q & [Q1 Q2] & L1)]; [left; congruence|].
    right. exists q. split; [|congruence].
    split; [exact Q1|eapply Nat.le_trans; eassumption].
  - right. exists q. split; [|now rewrite L2, E1].
    split; [eapply Nat.le_trans; eassumption|exact Q2].
Qed.

Lemma Stamped_tick (x : State) : Stamped x (tick x).
Proof.
  split; [reflexivity|]. split; [apply Nat.le_succ_diag_r|now left].
Qed.

Lemma Stamped_emit (e : Event) (x : State) : Stamped x (emit e x).
Proof. apply Stamped_same; reflexivity. Qed.

Lemma Stamped_set_cfg (v : Config) (x : State) :
  Stamped x (set_cfg v x).
Proof. apply Stamped_same; reflexivity. Qed.

Lemma Stamped_set_deviceConnected (v : bool) (x : State) :
  Stamped x (set_deviceConnected v x).
Proof. apply Stamped_same; reflexivity. Qed.

Lemma Stamped_set_triggerWifiScan (v : bool) (x : State) :
  Stamped x (set_triggerWifiScan v x).
Proof. apply Stamped_same; reflexivity. Qed.

Lemma Stamped_set_wifiConfigReceived (v : bool) (x : State) :
  Stamped x (set_wifiConfigReceived v x).
Proof. apply Stamped_same; reflexivity. Qed.

Lemma Stamped_set_watchdogPaused (v : bool) (x : State) :
  Stamped x (set_watchdogPaused v x).
Proof. apply Stamped_same; reflexivity. Qed.

Lemma Stamped_set_forceHttpNow (v : bool) (x : State) :
  Stamped x (set_forceHttpNow v x).
Proof. apply Stamped_same; reflexivity. Qed.

Lemma Stamped_set_lastFileCheckTime (v : Z) (x : State) :
  Stamped x (set_lastFileCheckTime v x).
Proof. apply Stamped_same; reflexivity. Qed.

Lemma Stamped_set_lastHttpTime (v : Z) (x : State) :
  Stamped x (set_lastHttpTime v x).
Proof. apply Stamped_same; reflexivity. Qed.

Lemma Stamped_set_lastWifiCheck (v : Z) (x : State) :
  Stamped x (set_lastWifiCheck v x).
Proof. apply Stamped_same; reflexivity. Qed.

Lemma Stamped_set_lastClockMinute (v : Z) (x : State) :
  Stamped x (set_lastClockMinute v x).
Proof. apply Stamped_same; reflexivity. Qed.

Lemma Stamped_set_targetSSID (v : string) (x : State) :
  Stamped x (set_targetSSID v x).
Proof. apply Stamped_same; reflexivity. Qed.

Lemma Stamped_set_targetPass (v : string) (x : State) :
  Stamped x (set_targetPass v x).
Proof. apply Stamped_same; reflexivity. Qed.

Lemma Stamped_set_nvs_conf (v : Stored) (x : State) :
  Stamped x (set_nvs_conf v x).
Proof. apply Stamped_same; reflexivity. Qed.

Lemma Stamped_set_nvs_nets (v : list Credential) (x : State) :
  Stamped x (set_nvs_nets v x).
Proof. apply Stamped_same; reflexivity. Qed.

Lemma Stamped_set_sd_files (v : list SdFile) (x : State) :
  Stamped x (set_sd_files v x).
Proof. apply Stamped_same; reflexivity. Qed.

Lemma Stamped_restamp (x : State) :
  Stamped x (set_lastWatchdogTime (millis x) x).
Proof.
  split; [reflexivity|]. split; [apply Nat.le_refl|].
  right. exists (asked x). split; [split; apply Nat.le_refl|reflexivity].
Qed.

Lemma Stamped_safeNotify (message : Payload) (x : State) :
  Stamped x (safeNotify message x).
Proof.
  unfold safeNotify. destruct (_ && _);
    [apply Stamped_emit|apply Stamped_refl].
Qed.

(** Peels the outermost assignment, clock reading or event off the state
    on the right. *)
Ltac stamped_peel :=
  lazymatch goal with
  | |- Stamped _ (tick _) => eapply Stamped_trans; [|apply Stamped_tick]
  | |- Stamped _ (emit _ _) => eapply Stamped_trans; [|apply Stamped_emit]
  | |- Stamped _ (safeNotify _ _) =>
      eapply Stamped_trans; [|apply Stamped_safeNotify]
  | |- Stamped _ (set_lastWatchdogTime (millis ?y) ?y) =>
      eapply Stamped_trans; [|apply Stamped_restamp]
  | |- Stamped _ (set_cfg _ _) =>
      eapply Stamped_trans; [|apply Stamped_set_cfg]
  | |- Stamped _ (set_deviceConnected _ _) =>
      eapply Stamped_trans; [|apply Stamped_set_deviceConnected]
  | |- Stamped _ (set_triggerWifiScan _ _) =>
      eapply Stamped_trans; [|apply Stamped_set_triggerWifiScan]
  | |- Stamped _ (set_wifiConfigReceived _ _) =>
      eapply Stamped_trans; [|apply Stamped_set_wifiConfigReceived]
  | |- Stamped _ (set_watchdogPaused _ _) =>
      eapply Stamped_trans; [|apply Stamped_set_watchdogPaused]
  | |- Stamped _ (set_forceHttpNow _ _) =>
      eapply Stamped_trans; [|apply Stamped_set_forceHttpNow]
  | |- Stamped _ (set_lastFileCheckTime _ _) =>
      eapply Stamped_trans; [|apply Stamped_set_lastFileCheckTime]
  | |- Stamped _ (set_lastHttpTime _ _) =>
      eapply Stamped_trans; [|apply Stamped_set_lastHttpTime]
  | |- Stamped _ (set_lastWifiCheck _ _) =>
      eapply Stamped_trans; [|apply Stamped_set_lastWifiCheck]
  | |- Stamped _ (set_lastClockMinute _ _) =>
      eapply Stamped_trans; [|apply Stamped_set_lastClockMinute]
  | |- Stamped _ (set_targetSSID _ _) =>
      eapply Stamped_trans; [|apply Stamped_set_targetSSID]
  | |- Stamped _ (set_targetPass _ _) =>
      eapply Stamped_trans; [|apply Stamped_set_targetPass]
  | |- Stamped _ (set_nvs_conf _ _) =>
      eapply Stamped_trans; [|apply Stamped_set_nvs_conf]
  | |- Stamped _ (set_nvs_nets _ _) =>
      eapply Stamped_trans; [|apply Stamped_set_nvs_nets]
  | |- Stamped _ (set_sd_files _ _) =>
      eapply Stamped_trans; [|apply Stamped_set_sd_files]
  end.

Ltac stamped := repeat stamped_peel; try apply Stamped_refl.

Lemma Stamped_saveDataOffline (timestamp sensorData : string) (x : State) :
  Stamped x (snd (saveDataOffline timestamp sensorData x)).
Proof.
  unfold saveDataOffline. cbv zeta.
  destruct (sdReady x); cbn [negb snd]; [|stamped].
  destruct (sd_open_at _ _ _); cbn [negb snd]; [|stamped].
  destruct (_ >? _); cbn [snd]; stamped.
Qed.

Lemma Stamped_deliverReading (timeStr sensorData : string) (x : State) :
  Stamped x (deliverReading timeStr sensorData x).
Proof.
  rewrite deliverReading_unfold. cbv zeta. destruct (accepted _ _); [stamped|].
  eapply Stamped_trans; [|apply Stamped_saveDataOffline]. stamped.
Qed.

Lemma Stamped_SD_remove (path : string) (x : State) :
  Stamped x (SD_remove path x).
Proof. unfold SD_remove. stamped. Qed.

Lemma Stamped_afterRequest (file : SdFile) (x : State) :
  Stamped x (afterRequest file x).
Proof. unfold afterRequest. stamped. Qed.

Lemma Stamped_drainLoop (dir : list SdFile) (start : Z) :
  forall processed x, Stamped x (drainLoop dir start processed x).
Proof.
  induction dir as [|file dir IH]; intros processed x.
  - rewrite drainLoop_nil. stamped.
  - rewrite drainLoop_cons.
    destruct (processed <? MAX_FILES); [|stamped].
    destruct (timedOut start x); [stamped|].
    destruct (negb _).
    { eapply Stamped_trans; [|apply IH]. stamped. }
    destruct (_ <? 0).
    { eapply Stamped_trans; [|apply IH].
      eapply Stamped_trans; [|apply Stamped_SD_remove]. stamped. }
    destruct (accepted _ _); [|apply Stamped_afterRequest].
    eapply Stamped_trans; [|apply IH].
    eapply Stamped_trans; [|apply Stamped_SD_remove].
    apply Stamped_afterRequest.
Qed.

Lemma Stamped_processOfflineFiles (x : State) :
  Stamped x (processOfflineFiles x).
Proof.
  unfold processOfflineFiles. cbv zeta.
  destruct (sdReady x); cbn [negb]; [|stamped].
  destruct (wifiConnected x); cbn [negb]; [|stamped].
  destruct (sd_open_at _ _ _); cbn [negb]; [|stamped].
  eapply Stamped_trans; [|apply Stamped_drainLoop]. stamped.
Qed.

Lemma Stamped_watchdogStep (x : State) : Stamped x (watchdogStep x).
Proof.
  unfold watchdogStep. cbv zeta.
  destruct (deviceConnected x && negb (watchdogPaused x)); [|stamped].
  destruct (_ >? _); stamped.
Qed.

Lemma Stamped_drainStep (x : State) : Stamped x (drainStep x).
Proof.
  unfold drainStep. cbv zeta.
  destruct (wifiConnected x); [|stamped].
  destruct (_ >? _); [|stamped].
  do 3 stamped_peel.
  eapply Stamped_trans; [|apply Stamped_processOfflineFiles]. stamped.
Qed.

Lemma Stamped_modeTrigger (x : State) : Stamped x (snd (modeTrigger x)).
Proof.
  unfold modeTrigger. cbv zeta.
  destruct (UPDATE_MODE (cfg x) =? 0);
    [destruct (_ >? _); cbn [snd]; stamped|].
  destruct (UPDATE_MODE (cfg x) =? 1); cbn [snd]; [|stamped].
  destruct (localtime_at _ _) as [m|];
    [destruct (_ && _)|]; cbn [snd]; stamped.
Qed.

Lemma Stamped_shouldTrigger (x : State) : Stamped x (snd (shouldTrigger x)).
Proof.
  unfold shouldTrigger. pose proof (Stamped_modeTrigger x) as M.
  destruct (modeTrigger x) as [trigger y]. cbn [snd] in *.
  destruct (forceHttpNow y); cbn [snd]; [|exact M].
  eapply Stamped_trans; [exact M|apply Stamped_set_forceHttpNow].
Qed.

Lemma Stamped_sendSensorData (x : State) : Stamped x (sendSensorData x).
Proof.
  unfold sendSensorData. cbv zeta.
  destruct (String.length _ =? 0)%nat; [stamped|].
  eapply Stamped_trans; [|apply Stamped_deliverReading]. stamped.
Qed.

Lemma Stamped_telemetryStep (x : State) : Stamped x (telemetryStep x).
Proof.
  unfold telemetryStep. pose proof (Stamped_shouldTrigger x) as T.
  destruct (shouldTrigger x) as [trigger y]. cbn [snd] in *.
  destruct trigger; [|exact T].
  eapply Stamped_trans; [exact T|apply Stamped_sendSensorData].
Qed.

Lemma Stamped_awaitLink (budget : nat) (x : State) :
  Stamped x (awaitLink budget x).
Proof.
  rewrite awaitLink_eq.
  split; [reflexivity|]. split; [|now left].
  cbn [asked set_asked]. revert x.
  induction budget as [|budget IH]; intros x; cbn [awaitLink];
    destruct (wifiConnected x); cbn [tick asked set_asked];
    try apply Nat.le_succ_diag_r.
  eapply Nat.le_trans; [apply Nat.le_succ_diag_r|apply (IH (tick x))].
Qed.

Lemma Stamped_tryNetworks (savedNets : list Credential) :
  forall x, Stamped x (snd (tryNetworks savedNets x)).
Proof.
  induction savedNets as [|obj rest IH]; intros x; cbn [tryNetworks snd].
  - stamped.
  - set (x1 := awaitLink 8 _).
    assert (O : Stamped x (tick x1)).
    { stamped_peel. eapply Stamped_trans; [|apply Stamped_awaitLink].
      stamped. }
    destruct (wifiConnected x1); cbn [snd]; [exact O|].
    eapply Stamped_trans; [exact O|apply IH].
Qed.

Lemma Stamped_tryAutoConnect (x : State) :
  Stamped x (snd (tryAutoConnect x)).
Proof.
  unfold tryAutoConnect. destruct (nvs_nets x); [stamped|].
  apply Stamped_tryNetworks.
Qed.

Lemma Stamped_reconnectStep (x : State) : Stamped x (reconnectStep x).
Proof.
  unfold reconnectStep. cbv zeta.
  destruct (negb (wifiConnected x) && _); [|stamped].
  destruct (_ >? _); [|stamped].
  eapply Stamped_trans; [|apply Stamped_tryAutoConnect]. stamped.
Qed.

Lemma Stamped_scanStep (x : State) : Stamped x (scanStep x).
Proof.
  unfold scanStep. cbv zeta. destruct (triggerWifiScan x); stamped.
Qed.

Lemma Stamped_provisionResult (up : bool) (x : State) :
  Stamped x (provisionResult up x).
Proof.
  unfold provisionResult, saveNetworkToMemory, setupTime. cbv zeta.
  destruct up; stamped.
Qed.

Lemma Stamped_provisionStep (x : State) : Stamped x (provisionStep x).
Proof.
  unfold provisionStep. cbv zeta. destruct (wifiConfigReceived x); [|stamped].
  do 3 stamped_peel.
  eapply Stamped_trans; [|apply Stamped_provisionResult].
  stamped_peel. eapply Stamped_trans; [|apply Stamped_awaitLink].
  stamped.
Qed.

Lemma Stamped_loop (x : State) : Stamped x (loop x).
Proof.
  unfold loop. cbv zeta.
  eapply Stamped_trans; [|apply Stamped_reconnectStep].
  eapply Stamped_trans; [|apply Stamped_provisionStep].
  eapply Stamped_trans; [|apply Stamped_scanStep].
  eapply Stamped_trans; [|apply Stamped_telemetryStep].
  eapply Stamped_trans; [|apply Stamped_drainStep].
  apply Stamped_watchdogStep.
Qed.

Lemma Fresh_Stamped (q : nat) (x y : State) :
  Fresh q x -> Stamped x y -> Fresh q y.
Proof.
  intros (q1 & [L1 U1] & S1) (E & A & [S2|(q2 & [L2 U2] & S2)]).
  - exists q1. split; [split; [exact L1|lia]|]. now rewrite S2, E.
  - exists q2. split; [split; [lia|exact U2]|]. now rewrite S2, E.
Qed.

Lemma asked_sendSensorData (x : State) (v : Z) :
  modbus_at (env x) (asked x) = Some v ->
  (S (asked x) <= asked (sendSensorData x))%nat.
Proof.
  intros ok. unfold sendSensorData. cbv zeta. rewrite ok.
  rewrite formatSensor_nonempty.
  set (z := tick (tick _)).
  destruct (Stamped_deliverReading (strftime_at (env (tick (set_lastWatchdogTime
              (millis (tick (emit ModbusRead x))) (tick (emit ModbusRead x)))))
              (asked (tick (set_lastWatchdogTime
              (millis (tick (emit ModbusRead x))) (tick (emit ModbusRead x))))))
              (formatSensor (u16 v)) z) as (_ & A & _).
  eapply Nat.le_trans; [|exact A].
  unfold z. cbn [asked tick set_asked set_lastWatchdogTime emit set_trace].
  lia.
Qed.

(** An iteration that reads the sensor leaves a timestamp read from the
    clock right after the read, or later. *)
Lemma loop_feeds (x : State) : feeds x -> Fresh (readQuery x) (loop x).
Proof.
  intros [fire answer]. unfold readQuery, decision in *.
  set (s2 := drainStep (watchdogStep x)) in *.
  assert (S2 : Stamped x s2).
  { unfold s2. eapply Stamped_trans; [|apply Stamped_drainStep].
    apply Stamped_watchdogStep. }
  pose proof (Stamped_shouldTrigger s2) as S3.
  set (y := snd (shouldTrigger s2)) in *.
  assert (Ey : env y = env x).
  { destruct S3 as (E3 & _). destruct S2 as (E2 & _). congruence. }
  assert (T : telemetryStep s2 = sendSensorData y).
  { unfold telemetryStep, y. destruct (shouldTrigger s2) as [trigger z].
    cbn [fst snd] in *. now rewrite fire. }
  destruct (modbus_at (env y) (asked y)) as [v|] eqn:M;
    [|elim answer; rewrite <- Ey; exact M].
  assert (F : Fresh (S (asked y)) (sendSensorData y)).
  { exists (S (asked y)). split.
    - split; [apply Nat.le_refl|apply (asked_sendSensorData y v M)].
    - pose proof (session_sendSensorData y v M) as E. unfold session in E.
      injection E as _ _ L _ _ _ Ee. rewrite L, Ee. reflexivity. }
  unfold loop. cbv zeta. fold s2. rewrite T.
  eapply Fresh_Stamped; [|apply Stamped_reconnectStep].
  eapply Fresh_Stamped; [|apply Stamped_provisionStep].
  eapply Fresh_Stamped; [|apply Stamped_scanStep].
  exact F.
Qed.

Lemma elapsed_u32 (a b : Z) :
  0 <= a - b <= WATCHDOG_TIMEOUT -> u32 (u32 a - u32 b) = a - b.
Proof.
  unfold u32, WATCHDOG_TIMEOUT. intros R.
  rewrite Zminus_mod_idemp_l, Zminus_mod_idemp_r.
  apply Z.mod_small. lia.
Qed.

(** A run of loop iterations keeps the session, the paused flag clear and
    the environment. *)
Lemma loops_session (k : nat) (s : State) :
  deviceConnected s = true -> watchdogPaused s = false ->
  deviceConnected (loops k s) = true /\
  watchdogPaused (loops k s) = false /\
  env (loops k s) = env s.
Proof.
  intros dc np. induction k as [|k (D & P & E)]; [now repeat split|].
  rewrite loops_S. pose proof (loopFixed_loop (loops k s)) as F.
  unfold loopFixed in F. injection F as _ _ _ Fd _ _ _ Fe.
  split; [congruence|]. split; [now apply unpaused_loop|congruence].
Qed.

(** An iteration whose watchdog check passes does not drop the session. *)
Lemma loop_keeps_session (x : State) :
  watchdogStep x = tick x -> Adds notBleDisconnect x (loop x).
Proof.
  intros W. unfold loop. cbv zeta. rewrite W.
  eapply Adds_trans; [|apply Adds_reconnectStep; reflexivity].
  eapply Adds_trans;
    [|apply Adds_provisionStep; try reflexivity; right; reflexivity].
  eapply Adds_trans;
    [|apply Adds_scanStep; try reflexivity; right; reflexivity].
  eapply Adds_trans; [|apply Adds_telemetryStep; reflexivity].
  eapply Adds_trans; [|apply Adds_drainStep; reflexivity].
  apply Adds_tick.
Qed.

Lemma feeds_dec (x : State) : feeds x \/ ~ feeds x.
Proof.
  unfold feeds. destruct (fst (decision x)); [|right; intros [H _]; discriminate H].
  destruct (modbus_at (env x) (asked (snd (decision x)))) as [v|].
  - left. split; [reflexivity|discriminate].
  - right. intros [_ H]. now apply H.
Qed.

(** C8. A successful sensor read sets the watchdog timestamp to the clock
    reading taken right after it.  So with a session connected and not
    paused, a clock that does not run backwards and no inbound message at
    all: if at the watchdog check of each of [n] loop iterations at most
    3000 ms have passed since the timestamp the run starts with or since
    the sensor read of some earlier iteration, then every one of these
    checks passes and the run does not drop the session, whichever
    iterations fire telemetry and whatever else the iterations do. *)
Theorem C8_telemetry_feeds_watchdog (n : nat) (s : State) (q0 : nat) :
  (forall x v,
      modbus_at (env x) (asked x) = Some v ->
      lastWatchdogTime (sendSensorData x) = millis (tick x)) /\
  (deviceConnected s = true -> watchdogPaused s = false ->
   clockMonotone s -> (q0 <= asked s)%nat ->
   lastWatchdogTime s = u32 (millis_at (env s) q0) ->
   (forall k, (k < n)%nat -> fedInTime s q0 k) ->
   (forall k, (k < n)%nat -> watchdogStep (loops k s) = tick (loops k s)) /\
   Adds notBleDisconnect s (loops n s)).
Proof.
  split.
  { intros x v ok. pose proof (session_sendSensorData x v ok) as E.
    unfold session in E. now injection E. }
  intros dc np mono start stamp fed.
  assert (Inv : forall k,
             (k <= n)%nat ->
             exists q, (q <= asked (loops k s))%nat /\
                       lastWatchdogTime (loops k s)
                       = u32 (millis_at (env s) q) /\
                       (q0 <= q)%nat /\
                       forall j, (j < k)%nat -> feeds (loops j s) ->
                                 (readQuery (loops j s) <= q)%nat).
  { induction k as [|k IH]; intros le.
    - exists q0. repeat split; [exact start|exact stamp|apply Nat.le_refl|].
      intros j lt. inversion lt.
    - destruct IH as (q & U & L & B & A); [lia|].
      destruct (loops_session k s dc np) as (_ & _ & Ek).
      rewrite loops_S.
      assert (Fq : Fresh q (loops k s)).
      { exists q. split; [split; [apply Nat.le_refl|exact U]|].
        now rewrite L, Ek. }
      destruct (Fresh_Stamped q _ _ Fq (Stamped_loop (loops k s)))
        as (q1 & [L1 U1] & S1).
      destruct (Stamped_loop (loops k s)) as (E1 & _).
      rewrite E1, Ek in S1.
      destruct (feeds_dec (loops k s)) as [F|NF].
      + destruct (loop_feeds _ F) as (q2 & [L2 U2] & S2).
        rewrite E1, Ek in S2. exists q2.
        assert (R : (asked (loops k s) <= readQuery (loops k s))%nat).
        { unfold readQuery, decision.
          destruct (Stamped_shouldTrigger
                      (drainStep (watchdogStep (loops k s))))
            as (_ & A3 & _).
          destruct (Stamped_drainStep (watchdogStep (loops k s)))
            as (_ & A2 & _).
          destruct (Stamped_watchdogStep (loops k s)) as (_ & A1 & _).
          lia. }
        repeat split; [exact U2|exact S2|lia|].
        intros j lt Fj. destruct (Nat.eq_dec j k) as [->|ne]; [exact L2|].
        assert (jk : (j < k)%nat) by lia. specialize (A j jk Fj). lia.
      + exists q1. repeat split; [exact U1|exact S1|lia|].
        intros j lt Fj. destruct (Nat.eq_dec j k) as [->|ne];
          [elim (NF Fj)|].
        assert (jk : (j < k)%nat) by lia. specialize (A j jk Fj). lia. }
  assert (Checks : forall k, (k < n)%nat ->
                             watchdogStep (loops k s) = tick (loops k s)).
  { intros k lt.
    destruct (loops_session k s dc np) as (Dk & Pk & Ek).
    destruct (Inv k) as (q & U & L & B & A); [lia|].
    apply watchdogStep_fed; [exact Dk|exact Pk|].
    unfold millis. rewrite L, Ek.
    assert (M1 : millis_at (env s) q
                 <= millis_at (env s) (asked (loops k s)))
      by (apply mono; exact U).
    assert (C : exists c, (c <= q)%nat /\
                          millis_at (env s) (asked (loops k s))
                          - millis_at (env s) c <= WATCHDOG_TIMEOUT).
    { destruct (fed k lt) as [H|(j & jk & Fj & H)].
      - exists q0. split; [exact B|exact H].
      - exists (readQuery (loops j s)). split; [now apply A|exact H]. }
    destruct C as (c & cq & H).
    assert (M2 : millis_at (env s) c <= millis_at (env s) q)
      by (apply mono; exact cq).
    rewrite elapsed_u32; lia. }
  split; [exact Checks|].
  clear Inv fed. induction n as [|n IH]; [apply Adds_refl|].
  rewrite loops_S. eapply Adds_trans.
  - apply IH. intros k lt. apply Checks. lia.
  - apply loop_keeps_session, Checks. lia.
Qed.

(** Eight iterations with the clock advancing by 100 ms per query and
    telemetry every second: the iterations take 500 ms when they do not
    fire and 1000 ms when they do; the third, the fifth and the seventh read
    the sensor, the others do not, and no check drops the session. *)
Lemma C8_telemetry_feeds_watchdog_witness :
  (forall k, (k < 8)%nat ->
             watchdogStep (loops k tickingState)
             = tick (loops k tickingState)) /\
  Adds notBleDisconnect tickingState (loops 8 tickingState).
Proof.
  refine (proj2 (C8_telemetry_feeds_watchdog 8 tickingState 0) _ _ _ _ _ _).
  - reflexivity.
  - reflexivity.
  - intros q q' le.
    change (100 * Z.of_nat q <= 100 * Z.of_nat q'). lia.
  - apply Nat.le_refl.
  - reflexivity.
  - intros k lt. unfold fedInTime. cbv zeta.
    assert (early : forall j : nat,
               millis_at (env tickingState) (asked (loops j tickingState))
               - millis_at (env tickingState) 0 <= WATCHDOG_TIMEOUT ->
               fedInTime tickingState 0 j) by (intros j H; left; exact H).
    assert (late : forall j i : nat,
               (i < j)%nat -> feeds (loops i tickingState) ->
               millis_at (env tickingState) (asked (loops j tickingState))
               - millis_at (env tickingState)
                   (readQuery (loops i tickingState)) <= WATCHDOG_TIMEOUT ->
               fedInTime tickingState 0 j).
    { intros j i ij F H. right. exists i. repeat split; assumption || apply F. }
    destruct k as [|[|[|[|[|[|[|[|k]]]]]]]]; [| | | | | | | |lia].
    + apply early. vm_compute. intros H. discriminate H.
    + apply early. vm_compute. intros H. discriminate H.
    + apply early. vm_compute. intros H. discriminate H.
    + apply early. vm_compute. intros H. discriminate H.
    + apply early. vm_compute. intros H. discriminate H.
    + apply (late 5%nat 4%nat); [lia| |vm_compute; intros H; discriminate H].
      split; vm_compute; [reflexivity|discriminate].
    + apply (late 6%nat 4%nat); [lia| |vm_compute; intros H; discriminate H].
      split; vm_compute; [reflexivity|discriminate].
    + apply (late 7%nat 6%nat); [lia| |vm_compute; intros H; discriminate H].
      split; vm_compute; [reflexivity|discriminate].
Defined.

(** ** Restart and boot *)

Lemma valid_bootConfig : validConfig bootConfig.
Proof. unfold validConfig. repeat split; try reflexivity. now left. Qed.

Lemma valid_loadConfig (s : State) :
  validConfig (cfg s) -> validConfig (cfg (loadConfig s)).
Proof.
  intros V. unfold loadConfig. destruct (nvs_conf s) as [| |doc]; trivial.
  cbn [cfg set_cfg]. now apply loadFields_valid.
Qed.

Lemma setupSD_fields (s : State) :
  cfg (setupSD s) = cfg s /\ nvs_conf (setupSD s) = nvs_conf s /\
  nvs_nets (setupSD s) = nvs_nets s /\ sd_files (setupSD s) = sd_files s /\
  env (setupSD s) = env s /\ trace (setupSD s) = trace s /\
  deviceConnected (setupSD s) = deviceConnected s /\
  watchdogPaused (setupSD s) = watchdogPaused s.
Proof.
  unfold setupSD. cbv zeta. destruct (negb _); repeat split; reflexivity.
Qed.

Lemma loadConfig_fields (s : State) :
  nvs_conf (loadConfig s) = nvs_conf s /\
  nvs_nets (loadConfig s) = nvs_nets s /\
  sd_files (loadConfig s) = sd_files s /\
  env (loadConfig s) = env s /\ trace (loadConfig s) = trace s /\
  deviceConnected (loadConfig s) = deviceConnected s /\
  watchdogPaused (loadConfig s) = watchdogPaused s.
Proof.
  unfold loadConfig. destruct (nvs_conf s) eqn:N;
    cbn [nvs_conf nvs_nets sd_files env trace deviceConnected
         watchdogPaused set_cfg];
    rewrite ?N; repeat split; reflexivity.
Qed.

(** The state [setup] has brought the device to when it turns to the
    saved networks. *)
Lemma boot_unfold (s : State) :
  exists y,
    boot s = (if fst (tryAutoConnect y) then setupTime (snd (tryAutoConnect y))
              else snd (tryAutoConnect y)) /\
    cfg y = cfg (loadConfig (loadConfig (setupSD (reset s)))) /\
    nvs_conf y = nvs_conf s /\ nvs_nets y = nvs_nets s /\
    sd_files y = sd_files s /\ env y = env s /\
    deviceConnected y = false /\ watchdogPaused y = false /\
    trace y
    = (WifiDisconnect :: BleAdvertise
       :: BleInit (if (0 <? String.length (DEVICE_NICKNAME (cfg y)))%nat
                   then DEVICE_NICKNAME (cfg y)
                   else defaultName (efuse_mac (env s)))
       :: trace s)%list.
Proof.
  unfold boot, setup. cbv zeta.
  set (x := loadConfig (loadConfig (setupSD (reset s)))).
  assert (X : nvs_conf x = nvs_conf s /\ nvs_nets x = nvs_nets s /\
              sd_files x = sd_files s /\ env x = env s /\
              trace x = trace s /\ deviceConnected x = false /\
              watchdogPaused x = false).
  { unfold x.
    destruct (loadConfig_fields (loadConfig (setupSD (reset s))))
      as (A1 & A2 & A3 & A4 & A5 & A6 & A7).
    destruct (loadConfig_fields (setupSD (reset s)))
      as (B1 & B2 & B3 & B4 & B5 & B6 & B7).
    destruct (setupSD_fields (reset s))
      as (_ & C1 & C2 & C3 & C4 & C5 & C6 & C7).
    rewrite A1, A2, A3, A4, A5, A6, A7, B1, B2, B3, B4, B5, B6, B7,
      C1, C2, C3, C4, C5, C6, C7.
    repeat split; reflexivity. }
  destruct X as (X1 & X2 & X3 & X4 & X5 & X6 & X7).
  clearbody x.
  set (y := emit WifiDisconnect _).
  exists y. split.
  { now destruct (tryAutoConnect y) as [up z]. }
  unfold y.
  cbn [cfg nvs_conf nvs_nets sd_files env deviceConnected watchdogPaused
       trace emit set_trace tick set_asked set_lastWatchdogTime
       set_notifyReady].
  rewrite X1, X2, X3, X4, X5, X6, X7. repeat split; reflexivity.
Qed.

(** What a boot leaves of the state the firmware went down in. *)
Lemma boot_fields (s : State) :
  cfg (boot s) = cfg (loadConfig (loadConfig (setupSD (reset s)))) /\
  nvs_conf (boot s) = nvs_conf s /\
  deviceConnected (boot s) = false /\
  watchdogPaused (boot s) = false /\
  foreign (boot s) = foreign s /\
  env (boot s) = env s.
Proof.
  destruct (boot_unfold s) as (y & B & Yc & Yn & _ & Yf & Ye & Yd & Yp & _).
  pose proof (loopFixed_tryAutoConnect y) as L.
  pose proof (watchdogPaused_tryAutoConnect y) as P.
  pose proof (foreign_tryAutoConnect y) as F.
  set (r := tryAutoConnect y) in *. clearbody r.
  unfold loopFixed in L. injection L as Lc Ln _ Ld _ _ _ Le.
  assert (Fy : foreign y = foreign s) by (unfold foreign; now rewrite Yf).
  assert (R : cfg (snd r) = cfg (loadConfig (loadConfig (setupSD (reset s))))
              /\ nvs_conf (snd r) = nvs_conf s /\
              deviceConnected (snd r) = false /\
              watchdogPaused (snd r) = false /\
              foreign (snd r) = foreign s /\ env (snd r) = env s).
  { repeat split; congruence. }
  rewrite B. destruct (fst r); [|exact R].
  exact R.
Qed.

Lemma boot_valid (s : State) : validConfig (cfg (boot s)).
Proof.
  destruct (boot_fields s) as (C & _). rewrite C.
  apply valid_loadConfig, valid_loadConfig.
  destruct (setupSD_fields (reset s)) as (E & _). rewrite E.
  apply valid_bootConfig.
Qed.

(** A valid configuration that has been persisted is the configuration in
    force after the boot. *)
Lemma boot_synced (s : State) :
  validConfig (cfg s) -> synced s ->
  cfg (boot s) = cfg s /\ synced (boot s).
Proof.
  intros V S. destruct (boot_fields s) as (C & N & _).
  assert (E : cfg (loadConfig (loadConfig (setupSD (reset s)))) = cfg s).
  { destruct (setupSD_fields (reset s)) as (_ & N1 & _).
    destruct (loadConfig_fields (setupSD (reset s))) as (N2 & _).
    unfold synced in S.
    assert (L : forall x, nvs_conf x = nvs_conf s ->
                          cfg (loadConfig x) = cfg s).
    { intros x Nx. unfold loadConfig. rewrite Nx, S. cbn [cfg set_cfg].
      now apply loadFields_configDoc. }
    apply L. rewrite N2. exact N1. }
  split; [congruence|]. unfold synced in *. congruence.
Qed.

Lemma deviceStep_cases (e : Step) (s : State) :
  deviceStep e s = step e s \/ deviceStep e s = boot (step e s).
Proof.
  unfold deviceStep. cbv zeta. destruct (wentDown (step e s)); [now right|now left].
Qed.

Lemma deviceRun_cons (e : Step) (steps : list Step) (s : State) :
  deviceRun (e :: steps) s = deviceRun steps (deviceStep e s).
Proof. reflexivity. Qed.

(** X27. A valid configuration stays valid through any sequence of loop
    iterations, session events and inbound messages, the restarts and
    crashes among them included: after each of these the device boots and
    loads the persisted record over the defaults. *)
Theorem deviceRun_keeps_config_valid (steps : list Step) :
  forall s, validConfig (cfg s) -> validConfig (cfg (deviceRun steps s)).
Proof.
  induction steps as [|e steps IH]; intros s V; [exact V|].
  rewrite deviceRun_cons. apply IH.
  destruct (deviceStep_cases e s) as [-> | ->];
    [now apply valid_step|apply boot_valid].
Qed.

Lemma deviceRun_keeps_config_valid_witness :
  validConfig
    (cfg (deviceRun [Connect; Write (Json (namePatch "pump-7")); Connect;
                     Write (Json brokenActionDoc); Loop]
            (bootState quietEnv []))).
Proof. apply deviceRun_keeps_config_valid, valid_bootConfig. Defined.

(** X28. Once a valid configuration is in force and persisted, the
    configuration in force is the persisted one after any sequence of loop
    iterations, session events and inbound messages, whatever restarts and
    crashes come with them: what a patch has changed is what the device
    boots with. *)
Theorem deviceRun_keeps_synced (steps : list Step) :
  forall s, validConfig (cfg s) -> synced s ->
            validConfig (cfg (deviceRun steps s)) /\
            synced (deviceRun steps s).
Proof.
  induction steps as [|e steps IH]; intros s V S; [now split|].
  rewrite deviceRun_cons.
  pose proof (valid_step e s V) as V1. pose proof (synced_step e s S) as S1.
  destruct (deviceStep_cases e s) as [-> | ->]; [now apply IH|].
  destruct (boot_synced _ V1 S1) as [C S2].
  apply IH; [now rewrite C|exact S2].
Qed.

Lemma deviceRun_keeps_synced_witness :
  validConfig
    (cfg (deviceRun [Connect; Write (Json (namePatch "pump-7")); Loop]
            (saveConfig (bootState quietEnv [])))) /\
  synced (deviceRun [Connect; Write (Json (namePatch "pump-7")); Loop]
            (saveConfig (bootState quietEnv []))).
Proof.
  apply deviceRun_keeps_synced; [apply valid_bootConfig|reflexivity].
Defined.

(** X29. Through any sequence of loop iterations, session events and
    inbound messages, restarts and crashes included, the watchdog is never
    left paused and the files on the card that are no queue entries stay as
    they are. *)
Theorem deviceRun_keeps_card_and_watchdog (steps : list Step) :
  forall s, watchdogPaused s = false ->
            watchdogPaused (deviceRun steps s) = false /\
            foreign (deviceRun steps s) = foreign s.
Proof.
  induction steps as [|e steps IH]; intros s U; [now split|].
  rewrite deviceRun_cons.
  pose proof (unpaused_step e s U) as U1. pose proof (foreign_step e s) as F1.
  destruct (boot_fields (step e s)) as (_ & _ & _ & Ub & Fb & _).
  destruct (deviceStep_cases e s) as [-> | ->].
  - destruct (IH _ U1) as [P F]. split; [exact P|congruence].
  - destruct (IH _ Ub) as [P F]. split; [exact P|congruence].
Qed.

Lemma deviceRun_keeps_card_and_watchdog_witness :
  watchdogPaused
    (deviceRun [Connect; Write (Json (namePatch "pump-7")); Loop]
       (bootState quietEnv [("/notes.md", "keep")])) = false /\
  foreign (deviceRun [Connect; Write (Json (namePatch "pump-7")); Loop]
             (bootState quietEnv [("/notes.md", "keep")]))
  = foreign (bootState quietEnv [("/notes.md", "keep")]).
Proof. apply deviceRun_keeps_card_and_watchdog. reflexivity. Defined.

Lemma rename_unfold (doc : JsonDoc) (name : string) (s : State) :
  j_action doc = None -> j_name doc = Some name ->
  onWrite (Json doc) s
  = patchCommit true
      (snd (patchTail doc
              (patchInterval doc
                 (patchHead doc
                    (tick (set_lastWatchdogTime (millis s) s)))))).
Proof.
  intros A N. cbn [onWrite]. rewrite A.
  assert (K : isConfigPatch doc = true)
    by (unfold isConfigPatch; now rewrite N).
  rewrite K, handlePatch_unfold. cbv zeta.
  now rewrite (patchHead_named doc name _ N), N.
Qed.

(** X30. A patch that carries a non-empty name, received with a valid
    configuration in force: the device restarts, and after the boot the
    configuration in force is the patched one, the control channel is up
    under the new name, and no session is connected. *)
Theorem rename_survives_restart (doc : JsonDoc) (name : string)
    (s : State) :
  j_action doc = None -> j_name doc = Some name ->
  (0 < String.length name)%nat -> validConfig (cfg s) ->
  let down := onWrite (Json doc) s in
  let up := deviceStep (Write (Json doc)) s in
  wentDown down = true /\
  cfg up = cfg down /\ DEVICE_NICKNAME (cfg up) = name /\
  Emits (BleInit name) down up /\
  deviceConnected up = false /\ wentDown up = false.
Proof.
  intros A N L V. cbv zeta.
  pose proof (valid_step (Write (Json doc)) s V) as V1. cbn [step] in V1.
  pose proof (rename_unfold doc name s A N) as U.
  assert (Dn : DEVICE_NICKNAME (cfg (onWrite (Json doc) s)) = name).
  { rewrite U, field_patchCommit. apply name_patchSteps, N. }
  assert (Sy : synced (onWrite (Json doc) s))
    by (rewrite U; apply synced_patchCommit).
  assert (W : wentDown (onWrite (Json doc) s) = true).
  { rewrite U. unfold wentDown.
    destruct (patchCommit_restarts
                (snd (patchTail doc
                        (patchInterval doc
                           (patchHead doc
                              (tick (set_lastWatchdogTime (millis s) s)))))))
      as (evs & T & _).
    now rewrite T. }
  clear U.
  unfold deviceStep. cbv zeta. cbn [step]. rewrite W.
  set (d := onWrite (Json doc) s) in *. clearbody d.
  destruct (boot_synced d V1 Sy) as [C _].
  destruct (boot_fields d) as (_ & _ & D & _).
  split; [reflexivity|]. split; [exact C|]. split; [congruence|].
  destruct (boot_unfold d) as (y & B & Yc & _ & _ & _ & _ & _ & _ & Yt).
  assert (Cy : cfg y = cfg d).
  { destruct (boot_fields d) as (Cb & _). congruence. }
  rewrite Cy, Dn in Yt. apply Nat.ltb_lt in L. rewrite L in Yt.
  assert (E : Emits (BleInit name) d y).
  { exists [WifiDisconnect; BleAdvertise; BleInit name].
    split; [exact Yt|]. right. right. now left. }
  assert (R : Adds staysUp y (boot d) /\
              (trace (boot d) = trace y \/
               exists e evs', trace (boot d) = (e :: evs')%list /\
                              staysUp e = true)).
  { rewrite B.
    pose proof (Adds_tryAutoConnect staysUp eq_refl (fun _ _ => eq_refl) y)
      as Ay.
    destruct (tryAutoConnect y) as [ok z]. cbn [fst snd] in *.
    destruct ok.
    - split.
      + eapply Adds_trans; [exact Ay|]. unfold setupTime.
        now apply Adds_emit.
      + right. unfold setupTime, emit. cbn [trace set_trace].
        eexists _, _. split; reflexivity.
    - split; [exact Ay|].
      destruct Ay as ([|e evs'] & Tz & Fz); [now left|right].
      exists e, (evs' ++ trace y)%list. split; [exact Tz|].
      cbn [forallb] in Fz. now apply andb_prop in Fz as [Fe _]. }
  destruct R as [Ab Hd].
  split; [eapply Emits_after; [exact E|exact Ab]|]. split; [exact D|].
  unfold wentDown. destruct Hd as [Hd|(e & evs' & Hd & Fe)].
  - rewrite Hd, Yt. reflexivity.
  - rewrite Hd. destruct e; try reflexivity; discriminate Fe.
Qed.

Lemma rename_survives_restart_witness :
  let down := onWrite (Json (namePatch "pump-7")) silentState in
  let up := deviceStep (Write (Json (namePatch "pump-7"))) silentState in
  wentDown down = true /\
  cfg up = cfg down /\ DEVICE_NICKNAME (cfg up) = "pump-7" /\
  Emits (BleInit "pump-7") down up /\
  deviceConnected up = false /\ wentDown up = false.
Proof.
  apply (rename_survives_restart (namePatch "pump-7") "pump-7" silentState);
    try reflexivity.
  - apply Nat.lt_0_succ.
  - unfold validConfig. repeat split; try reflexivity. now left.
Defined.
